(** * mre.py: the Multistep Regression Estimator

    A shallow embedding of [correlation_coefficients], [correlation_fit],
    [simulate_branching] and [input_handler] of [src/mre.py] (Python 3
    with numpy and scipy), and the properties of these functions.

    Conventions of the embedding.

    - Numbers.  numpy's [float64] values are an abstract type [F] with the
      operations the code uses ([Float64Ops]); every theorem holds for
      every interpretation of them.  [np.inf], which the code uses as the
      initial [ssresmin] and as the bounds of an unbounded fit, is the
      constant [Inf] of [xfloat]; the comparison [x < np.inf] is the
      operation [flt_inf], which is false for a NaN and for an infinite
      [x].  Sums add their terms from the left; the regrouping that
      numpy applies to long vectors is not modelled.  Where a proof
      needs the comparison [<] to be an order this is a hypothesis
      ([comparable]).
    - scipy.  [scipy.stats.linregress] and [scipy.optimize.curve_fit] are
      not part of the repository: they are parameters ([SciPy]) that return
      an [outcome], so that a failing regression or optimisation is a
      raised exception, as in Python.
    - Control.  A Python call either returns a value or raises:
      [outcome].  [exit()] raises [SystemExit].  Reading a local variable
      that was never assigned raises [UnboundLocalError].
    - Output.  The warnings printed by the argument checks of
      [correlation_coefficients] are recorded ([diagnostic]); progress
      messages are not.
    - Chance and memory.  [np.random.poisson] and [scipy.stats.binom.rvs]
      are parameters ([Random]) that read and advance the state of the
      generator.  In [simulate_branching] the allocation of an array
      can fail (parameter [allocation]), and what [np.ndarray] finds in
      the memory that it allocates is the parameter [uninitialized];
      elsewhere the memory is taken to suffice.  [simulate_branching] and
      [input_handler] also raise a plain [Exception]: their calls end in
      a [result].
    - Files.  [glob.glob], [np.load], [np.loadtxt], the parsing of a
      [str] as a float and the order of a [set] are parameters
      ([Files]). *)

From Stdlib Require Import String.
From Stdlib Require Import List ZArith QArith Qround Bool Lia.
Import ListNotations.

Set Implicit Arguments.
Local Open Scope Z_scope.

(* ================================================================== *)
(** * Python: exceptions and sequences                                  *)
(* ================================================================== *)

Inductive exn : Type :=
| SystemExit
| IndexError
| TypeError
| ValueError
| AttributeError
| RuntimeError
| UnboundLocalError (name : string).

Inductive outcome (A : Type) : Type :=
| Returned (a : A)
| Raised (e : exn).

Arguments Returned {A} a.
Arguments Raised {A} e.

Definition bind {A B} (c : outcome A) (k : A -> outcome B) : outcome B :=
  match c with
  | Returned a => k a
  | Raised e => Raised e
  end.

Notation "x <- c ;; k" := (bind c (fun x => k))
  (at level 61, c at next level, right associativity).
Notation "' pat <- c ;; k" := (bind c (fun x => match x with pat => k end))
  (at level 61, pat pattern, c at next level, right associativity).

(** [for x in xs: s = body(s, x)], stopping at the first exception. *)
Fixpoint for_each {A S} (body : S -> A -> outcome S) (xs : list A) (s : S)
  : outcome S :=
  match xs with
  | [] => Returned s
  | x :: rest => s' <- body s x ;; for_each body rest s'
  end.

(** [enumerate(xs)]. *)
Definition enumerate {A} (xs : list A) : list (nat * A) :=
  combine (seq 0 (length xs)) xs.

(** A slice bound [i] of a sequence of length [n], as Python resolves it:
    a negative bound counts from the end, and the result is clipped to
    [0 .. n]. *)
Definition slice_bound (n i : Z) : Z :=
  if i <? 0 then Z.max 0 (i + n) else Z.min i n.

(** [xs[start:stop]]. *)
Definition py_slice {A} (xs : list A) (start stop : Z) : list A :=
  let n := Z.of_nat (length xs) in
  let a := slice_bound n start in
  let b := slice_bound n stop in
  firstn (Z.to_nat (b - a)) (skipn (Z.to_nat a) xs).

(** [xs[start:]]. *)
Definition py_slice_from {A} (xs : list A) (start : Z) : list A :=
  py_slice xs start (Z.of_nat (length xs)).

(** [xs[0]]. *)
Definition index0 {A} (xs : list A) : outcome A :=
  match xs with
  | [] => Raised IndexError
  | x :: _ => Returned x
  end.

(** [xs[i] = v] for an index in range (the code only writes in range). *)
Fixpoint set_item {A} (xs : list A) (i : nat) (v : A) : list A :=
  match xs, i with
  | [], _ => []
  | _ :: rest, O => v :: rest
  | x :: rest, S j => x :: set_item rest j v
  end.

(** [m[i, j] = v]. *)
Definition set_item2 {A} (m : list (list A)) (i j : nat) (v : A)
  : list (list A) :=
  match nth_error m i with
  | Some row => set_item m i (set_item row j v)
  | None => m
  end.

(** [np.arange(start, stop)] on integers. *)
Definition np_arange (start stop : Z) : list Z :=
  map (fun i => start + Z.of_nat i) (seq 0 (Z.to_nat (stop - start))).

(** [np.transpose] of a matrix with [ncols] columns. *)
Definition np_transpose {A} (d : A) (ncols : nat) (rows : list (list A))
  : list (list A) :=
  map (fun j => map (fun row => nth j row d) rows) (seq 0 ncols).

(* ================================================================== *)
(** * numpy: float64 values and arrays                                  *)
(* ================================================================== *)

(** The operations on [float64] that the code uses.  [of_Z] converts a
    Python [int], [of_Q] reads a decimal literal; [flt x y] is [x < y],
    [flt_inf x] is [x < np.inf] and [feqb x y] is [x == y]. *)
Class Float64Ops (F : Type) : Type := {
  of_Z : Z -> F;
  of_Q : Q -> F;
  fadd : F -> F -> F;
  fsub : F -> F -> F;
  fmul : F -> F -> F;
  fdiv : F -> F -> F;
  fopp : F -> F;
  flt : F -> F -> bool;
  flt_inf : F -> bool;
  feqb : F -> F -> bool;
  np_sqrt : F -> F;
  np_exp : F -> F;
  np_cos : F -> F;
  np_power : F -> F -> F;
  np_pi : F
}.

Section Numpy.
Context {F : Type} {ops : Float64Ops F}.

(** A value that is either a computed [float64] of [F] or the constant
    [np.inf]. *)
Inductive xfloat : Type :=
| Finite (x : F)
| Inf.

(** [s < m] for [m] a computed value or [np.inf]. *)
Definition xlt (s : F) (m : xfloat) : bool :=
  match m with
  | Finite y => flt s y
  | Inf => flt_inf s
  end.

(** One- and two-dimensional arrays; a matrix keeps its number of
    columns, which [rows] alone does not give when there is no row. *)
Inductive ndarray : Type :=
| Vec (v : list F)
| Mat (ncols : nat) (rows : list (list F)).

(** Python's [len]: the size of the first axis. *)
Definition len (a : ndarray) : nat :=
  match a with
  | Vec v => length v
  | Mat _ rows => length rows
  end.

Definition np_zeros (n : nat) : list F := repeat (of_Z 0) n.
Definition np_ones (n : nat) : list F := repeat (of_Z 1) n.
Definition np_zeros2 (nrows ncols : nat) : list (list F) :=
  repeat (np_zeros ncols) nrows.

(** Elementwise operation on two arrays of one shape. *)
Definition map2 (f : F -> F -> F) (a b : list F) : list F :=
  map (fun p => f (fst p) (snd p)) (combine a b).

(** [np.sum] of a vector: the elements are added from the left,
    starting with the first one; the sum of no element is [0]. *)
Definition np_sum (v : list F) : F :=
  match v with
  | [] => of_Z 0
  | x :: rest => fold_left fadd rest x
  end.

(** [np.mean] of a vector. *)
Definition np_mean (v : list F) : F :=
  fdiv (np_sum v) (of_Z (Z.of_nat (length v))).

(** [np.sum(m, axis=0)]: the rows are added from the top. *)
Definition np_sum_axis0 (ncols : nat) (rows : list (list F)) : list F :=
  match rows with
  | [] => np_zeros ncols
  | r :: rest => fold_left (map2 fadd) rest r
  end.

(** [np.mean(m, axis=0)]. *)
Definition np_mean_axis0 (ncols : nat) (rows : list (list F)) : list F :=
  map (fun s => fdiv s (of_Z (Z.of_nat (length rows))))
      (np_sum_axis0 ncols rows).

(** [np.mean(m, axis=1)]. *)
Definition np_mean_axis1 (rows : list (list F)) : list F :=
  map np_mean rows.

(** [x**2], which numpy computes as a product. *)
Definition square (x : F) : F := fmul x x.

(** [np.var(m, axis=0, ddof=1)]: the squared deviations from the column
    means, summed and divided by [max(n - 1, 0)]. *)
Definition np_var_axis0_ddof1 (ncols : nat) (rows : list (list F))
  : list F :=
  let mean := np_mean_axis0 ncols rows in
  let dev := map (fun row => map square (map2 fsub row mean)) rows in
  map (fun s => fdiv s (of_Z (Z.max (Z.of_nat (length rows) - 1) 0)))
      (np_sum_axis0 ncols dev).

(** Column [k] of a matrix, [m[:, k]]. *)
Definition column (k : nat) (rows : list (list F)) : list F :=
  map (fun row => nth k row (of_Z 0)) rows.

(** [a - b] for vectors, with numpy's broadcasting of a vector of
    length one. *)
Definition vec_sub (a b : list F) : outcome (list F) :=
  if Nat.eqb (length a) (length b) then Returned (map2 fsub a b)
  else match a, b with
       | [x], _ => Returned (map (fun y => fsub x y) b)
       | _, [y] => Returned (map (fun x => fsub x y) a)
       | _, _ => Raised ValueError
       end.

(** [a - b] for an array [a] and a vector [b]. *)
Definition nd_sub (a : ndarray) (b : list F) : outcome ndarray :=
  match a with
  | Vec v => r <- vec_sub v b ;; Returned (Vec r)
  | Mat ncols rows =>
      shape <- vec_sub (np_zeros ncols) b ;;
      rs <- for_each (fun acc row => r <- vec_sub row b ;;
                                     Returned (acc ++ [r])) rows [] ;;
      Returned (Mat (length shape) rs)
  end.

(** [np.sum(a**2)] over all elements. *)
Definition np_sum_sq (a : ndarray) : F :=
  match a with
  | Vec v => np_sum (map square v)
  | Mat _ rows => np_sum (map square (concat rows))
  end.

End Numpy.

Arguments xfloat F : clear implicits.
Arguments ndarray F : clear implicits.

(* ================================================================== *)
(** * scipy: the two library calls                                      *)
(* ================================================================== *)

Section Results.
Context {F : Type}.

(** The fields of [scipy.stats.linregress]'s result that the code
    reads. *)
Record LinregressResult : Type := {
  slope : F;
  intercept : F;
  stderr : F
}.

(** [CoefficientResult = namedtuple('CoefficientResult', ...)].  The
    field is spelled [trialactivies] in the source. *)
#[warnings="-register-all"]
Inductive CoefficientResult : Type := mkCoefficientResult {
  coefficients : ndarray F;
  steps : list Z;
  offsets : ndarray F;
  stderrs : ndarray F;
  trialactivies : list F;
  samples : option CoefficientResult
}.

(** The model functions: the three of the module, or a function of the
    caller, given by its docstring and its value on an array of steps
    and a parameter vector. *)
Inductive model_function : Type :=
| f_exponential
| f_exponential_offset
| f_complex
| custom (doc : string)
         (call : list F -> list F -> outcome (list F)).

(** The [bounds] argument of [curve_fit]: [np.array([-np.inf, np.inf])]
    or a two-row array of lower and upper bounds. *)
Inductive fit_bounds : Type :=
| Unbounded
| Bounded (fitbnds : list (list F)).

(** [CorrelationResult = namedtuple('CorrelationResult', ...)]. *)
Record CorrelationResult : Type := {
  tau : F;
  mre : F;
  fitfunc : string;
  popt : list F;
  pcov : list (list F);
  ssres : xfloat F
}.

End Results.

Arguments LinregressResult F : clear implicits.
Arguments CoefficientResult F : clear implicits.
Arguments model_function F : clear implicits.
Arguments fit_bounds F : clear implicits.
Arguments CorrelationResult F : clear implicits.

(** [linregress x y] is [scipy.stats.linregress(x, y)];
    [curve_fit f xdata ydata p0 bounds maxfev sigma] is
    [scipy.optimize.curve_fit(f, xdata, ydata, p0=p0, bounds=bounds,
    maxfev=maxfev, sigma=sigma)], which returns [(popt, pcov)]. *)
Class SciPy (F : Type) : Type := {
  linregress : list F -> list F -> outcome (LinregressResult F);
  curve_fit : model_function F -> list F -> ndarray F -> list F ->
              fit_bounds F -> Z -> ndarray F ->
              outcome (list F * list (list F))
}.

(* ================================================================== *)
(** * correlation_coefficients                                          *)
(* ================================================================== *)

(** The warnings and error messages printed by the argument checks:
    - [WarnOneTrial]: 'Continuing with one trial, reshaping your input.'
    - [ExceptionDim dim]: 'Provided ndarray is of dim {}.'
    - [ExceptionShape]: 'Please provide a two dimensional ndarray.'
    - [WarnMinstep]: 'minstep > maxstep, setting minstep=1'
    - [WarnMaxstep m]: 'maxstep is larger than your data, adjusting
      to {}' *)
Inductive diagnostic : Type :=
| WarnOneTrial
| ExceptionDim (dim : nat)
| ExceptionShape
| WarnMinstep
| WarnMaxstep (adjusted : Z).

Section CorrelationCoefficients.
Context {F : Type} {ops : Float64Ops F} {scipy : SciPy F}.

(** The [data] argument: an array of dimension 0, 1, 2, or [3 + extra],
    or an object that has no [shape]. *)
Inductive array_arg : Type :=
| Array0 (x : F)
| Array1 (v : list F)
| Array2 (ncols : nat) (rows : list (list F))
| ArrayN (extra : nat)
| NotArray.

(** [data] after the check of its dimension: still a scalar, or a
    matrix of trials. *)
Inductive checked_data : Type :=
| Scalar
| Trials (ncols : nat) (rows : list (list F)).

(** The [try] block on [data.shape]: a vector becomes one trial, a
    dimension of three or more and an object without [shape] end in
    [exit()]. *)
Definition check_shape (data : array_arg)
  : list diagnostic * outcome checked_data :=
  match data with
  | Array0 _ => ([], Returned Scalar)
  | Array1 v => ([WarnOneTrial], Returned (Trials (length v) [v]))
  | Array2 ncols rows => ([], Returned (Trials ncols rows))
  | ArrayN extra => ([ExceptionDim (3 + extra)], Raised SystemExit)
  | NotArray => ([ExceptionShape], Raised SystemExit)
  end.

(** [data.shape[1]]. *)
Definition shape1 (data : checked_data) : outcome nat :=
  match data with
  | Scalar => Raised IndexError
  | Trials ncols _ => Returned ncols
  end.

(** The two checks on the step range, in the order of the source:
<<
  if minstep > maxstep: minstep = 1
  if maxstep > data.shape[1]: maxstep = data.shape[1]-2
>>
    The result is the pair [(minstep, maxstep)] that [np.arange] then
    receives. *)
Definition check_steps (data : checked_data) (minstep maxstep : Z)
  : list diagnostic * outcome (Z * Z) :=
  let '(log, minstep) :=
    if maxstep <? minstep then ([WarnMinstep], 1) else ([], minstep) in
  match shape1 data with
  | Raised e => (log, Raised e)
  | Returned n =>
      if Z.of_nat n <? maxstep
      then (log ++ [WarnMaxstep (Z.of_nat n - 2)],
            Returned (minstep, Z.of_nat n - 2))
      else (log, Returned (minstep, maxstep))
  end.

(** The arrays of [sepres], which the loops of the trial-separated
    method fill in place. *)
Record sep_arrays : Type := {
  sep_coefficients : list (list F);
  sep_offsets : list (list F);
  sep_stderrs : list (list F);
  sep_trialactivies : list F
}.

(** The arrays of [sepres] as they are allocated: zeros, and the mean
    of every trial. *)
Definition sep_zeros (rows : list (list F)) (numsteps : nat)
  : sep_arrays :=
  {| sep_coefficients := np_zeros2 (length rows) numsteps;
     sep_offsets := np_zeros2 (length rows) numsteps;
     sep_stderrs := np_zeros2 (length rows) numsteps;
     sep_trialactivies := np_mean_axis1 rows |}.

(** The regression of one trial at one step:
    [scipy.stats.linregress(trial[0:-step], trial[step:])]. *)
Definition trial_regression (trial : list F) (step : Z)
  : outcome (LinregressResult F) :=
  linregress (py_slice trial 0 (- step)) (py_slice_from trial step).

(** The body of [for idx, step in enumerate(steps)] of the
    trial-separated method, for the trial [tdx]. *)
Definition separate_step (tdx : nat) (trial : list F) (s : sep_arrays)
           (at_step : nat * Z) : outcome sep_arrays :=
  let '(idx, step) := at_step in
  lr <- trial_regression trial step ;;
  Returned
    {| sep_coefficients :=
         set_item2 (sep_coefficients s) tdx idx (slope lr);
       sep_offsets := set_item2 (sep_offsets s) tdx idx (intercept lr);
       sep_stderrs := set_item2 (sep_stderrs s) tdx idx (stderr lr);
       sep_trialactivies := sep_trialactivies s |}.

(** [for idx, step in enumerate(steps)] for the trial [tdx]. *)
Definition separate_steps (tdx : nat) (trial : list F) (steps : list Z)
           (s : sep_arrays) : outcome sep_arrays :=
  for_each (separate_step tdx trial) (enumerate steps) s.

(** The body of [for tdx, trial in enumerate(data)] of the
    trial-separated method: the mean activity of the trial, then its
    steps. *)
Definition separate_trial (steps : list Z) (s : sep_arrays)
           (at_trial : nat * list F) : outcome sep_arrays :=
  let '(tdx, trial) := at_trial in
  separate_steps tdx trial steps
    {| sep_coefficients := sep_coefficients s;
       sep_offsets := sep_offsets s;
       sep_stderrs := sep_stderrs s;
       sep_trialactivies :=
         set_item (sep_trialactivies s) tdx (np_mean trial) |}.

(** [for tdx, trial in enumerate(data)]. *)
Definition separate_trials (rows : list (list F)) (steps : list Z)
           (s : sep_arrays) : outcome sep_arrays :=
  for_each (separate_trial steps) (enumerate rows) s.

(** The namedtuple [sepres] over the current arrays. *)
Definition sepres_of (steps : list Z) (s : sep_arrays)
  : CoefficientResult F :=
  let numsteps := length steps in
  {| coefficients := Mat numsteps (sep_coefficients s);
     steps := steps;
     offsets := Mat numsteps (sep_offsets s);
     stderrs := Mat numsteps (sep_stderrs s);
     trialactivies := sep_trialactivies s;
     samples := None |}.

(** The pooled pairs of one step of the stationary-mean method:
    [x] and [y] after the loop over the trials. *)
Definition pooled (rows : list (list F)) (activities : list F) (step : Z)
  : list F * list F :=
  fold_left
    (fun '(x, y) '(tdx, trial) =>
       let m := nth tdx activities (of_Z 0) in
       (x ++ map (fun v => fsub v m) (py_slice trial 0 (- step)),
        y ++ map (fun v => fsub v m) (py_slice_from trial step)))
    (enumerate rows) ([], []).

(** The body of [for idx, step in enumerate(steps)] of the
    stationary-mean method; the state is
    [(coefficients, offsets, stderrs)]. *)
Definition stationary_step (rows : list (list F)) (activities : list F)
           (s : list F * list F * list F) (at_step : nat * Z)
  : outcome (list F * list F * list F) :=
  let '(cs, os, es) := s in
  let '(idx, step) := at_step in
  let '(x, y) := pooled rows activities step in
  lr <- linregress x y ;;
  Returned (set_item cs idx (slope lr),
            set_item os idx (intercept lr),
            set_item es idx (stderr lr)).

(** [for idx, step in enumerate(steps)] of the stationary-mean
    method. *)
Definition stationary_steps (rows : list (list F)) (activities : list F)
           (steps : list Z) (s : list F * list F * list F)
  : outcome (list F * list F * list F) :=
  for_each (stationary_step rows activities) (enumerate steps) s.

(** The body of the function from [steps = np.arange(...)] on. *)
Definition estimate (rows : list (list F)) (minstep maxstep : Z)
           (method : string) : outcome (CoefficientResult F) :=
  let steps := np_arange minstep (maxstep + 1) in
  let numsteps := length steps in
  let numtrials := length rows in
  let sep0 := sep_zeros rows numsteps in
  if String.eqb method "trialseparated" then
    s <- separate_trials rows steps sep0 ;;
    stderrs <- (if Nat.eqb numtrials 1
                then index0 (sep_stderrs s)
                else Returned
                       (map np_sqrt
                          (np_var_axis0_ddof1 numsteps
                             (sep_coefficients s)))) ;;
    Returned
      {| steps := steps;
         coefficients :=
           Vec (np_mean_axis0 numsteps (sep_coefficients s));
         offsets := Vec (np_mean_axis0 numsteps (sep_offsets s));
         stderrs := Vec stderrs;
         trialactivies := np_mean_axis1 rows;
         samples := Some (sepres_of steps s) |}
  else if String.eqb method "stationarymean" then
    '(cs, os, es) <- stationary_steps rows (sep_trialactivies sep0) steps
                       (np_zeros numsteps, np_zeros numsteps,
                        np_zeros numsteps) ;;
    Returned
      {| steps := steps;
         coefficients := Vec cs;
         offsets := Vec os;
         stderrs := Vec es;
         trialactivies := np_mean_axis1 rows;
         samples := Some (sepres_of steps sep0) |}
  else Raised (UnboundLocalError "fulres").

(** [correlation_coefficients(data, minstep, maxstep, method,
    bootstrap)]: what it prints of warnings, and what it returns or
    raises.  The source never reads [bootstrap]. *)
Definition correlation_coefficients (data : array_arg)
           (minstep maxstep : Z) (method : string) (bootstrap : bool)
  : list diagnostic * outcome (CoefficientResult F) :=
  match check_shape data with
  | (log, Raised e) => (log, Raised e)
  | (log, Returned data) =>
      match check_steps data minstep maxstep with
      | (log', Raised e) => (log ++ log', Raised e)
      | (log', Returned (minstep, maxstep)) =>
          (log ++ log',
           match data with
           | Scalar => Raised IndexError
           | Trials _ rows => estimate rows minstep maxstep method
           end)
      end
  end.

End CorrelationCoefficients.

Arguments array_arg F : clear implicits.
Arguments checked_data F : clear implicits.
Arguments sep_arrays F : clear implicits.

(* ================================================================== *)
(** * The model functions and their defaults                            *)
(* ================================================================== *)

Section ModelFunctions.
Context {F : Type} {ops : Float64Ops F}.

(** [f_exponential(k, tau, A)], [f_exponential_offset(k, tau, A, O)]
    and [f_complex(k, tau, A, O, tosc, B, gam, nu, tgs, C)] on one
    step [k]. *)
Definition exponential_at (k tau A : F) : F :=
  fmul A (np_exp (fdiv (fopp k) tau)).

Definition exponential_offset_at (k tau A O' : F) : F :=
  fadd (fmul A (np_exp (fdiv (fopp k) tau))) (fmul O' (of_Z 1)).

Definition complex_at (k tau A O' tosc B gam nu tgs C : F) : F :=
  fadd
    (fadd
       (fadd (fmul A (np_exp (fopp (fdiv k tau))))
             (fmul (fmul B (np_exp (fopp (np_power (fdiv k tosc) gam))))
                   (np_cos (fmul (fmul (fmul (of_Z 2) np_pi) nu) k))))
       (fmul C (np_exp (fopp (square (fdiv k tgs))))))
    (fmul O' (of_Z 1)).

(** [fitfunc(steps, *popt)]: a call with the wrong number of
    arguments is a [TypeError]. *)
Definition call_fitfunc (f : model_function F) (steps popt : list F)
  : outcome (list F) :=
  match f, popt with
  | f_exponential, [tau; A] =>
      Returned (map (fun k => exponential_at k tau A) steps)
  | f_exponential_offset, [tau; A; O'] =>
      Returned (map (fun k => exponential_offset_at k tau A O') steps)
  | f_complex, [tau; A; O'; tosc; B; gam; nu; tgs; C] =>
      Returned
        (map (fun k => complex_at k tau A O' tosc B gam nu tgs C) steps)
  | custom _ call, _ => call steps popt
  | _, _ => Raised TypeError
  end.

(** [fitfunc.__doc__]. *)
Definition doc_of (f : model_function F) : string :=
  match f with
  | f_exponential => "A e^(-k/tau)"
  | f_exponential_offset => "A e^(-k/tau) + O"
  | f_complex =>
      "A e^(-k/tau) + B e^-(k/tosc)^gam cos(2 pi nu k) + C e^-(k/tgs)^2 + O"
  | custom doc _ => doc
  end.

(** A [fitpars] array: one starting point, or one per row. *)
Inductive pars_array : Type :=
| Pars1 (p : list F)
| Pars2 (rows : list (list F)).

Definition one_over (n : Z) : F := fdiv (of_Z 1) (of_Z n).

(** One row of the table of [default_fitpars] for [f_complex]; the
    column [nu] is written [1./nu] in the source. *)
Definition complex_start (tau : Z) (A O' : Q) (tosc : Z) (B gam : Q)
           (nu tgs : Z) (C : Q) : list F :=
  [of_Z tau; of_Q A; of_Q O'; of_Z tosc; of_Q B; of_Q gam;
   one_over nu; of_Z tgs; of_Q C].

(** [default_fitpars(fitfunc)]; [None] for a function that is not one
    of the three. *)
Definition default_fitpars (f : model_function F) : option pars_array :=
  match f with
  | f_exponential => Some (Pars1 [of_Z 20; of_Z 1])
  | f_exponential_offset => Some (Pars1 [of_Z 20; of_Z 1; of_Z 0])
  | f_complex =>
      Some (Pars2
        [complex_start  10 0.1   0     300 0.03  1.0 200 10 0.03;
         complex_start 400 0.1   0     200 0.03  2.5 250 25 0.03;
         complex_start  20 0.1   0.03  100 0.03  1.5  50 10 0.03;
         complex_start 300 0.1   0.03  100 0.03  1.5  50 10 0.03;
         complex_start  20 0.03  0.01  100 0.03  1.0 150  5 0.03;
         complex_start  20 0.03  0.01  100 0.03  1.0 150  5 0.03;
         complex_start  10 0.05  0.03  300 0.03  1.5 100  5 0.1;
         complex_start 300 0.05  0.03  300 0.03  1.5 100 10 0.1;
         complex_start  56 0.029 0.010 116 0.010 2.0 466  5 0.03;
         complex_start  56 0.029 0.010 116 0.010 2.0 466  5 0.03;
         complex_start  56 0.029 0.010 116 0.010 2.0 466  5 0.03;
         complex_start  19 0.078 0.044 107 0.017 1.0 478  5 0.1;
         complex_start  19 0.078 0.044 107 0.017 1.0 478  5 0.1;
         complex_start  10 0.029 0.045 300 0.067 2.0 127 10 0.03;
         complex_start 210 0.029 0.012  50 0.03  1.0 150 10 0.1;
         complex_start 210 0.029 0.012  50 0.03  1.0 150 10 0.1;
         complex_start 210 0.029 0.012  50 0.03  1.0 150 10 0.03;
         complex_start 210 0.029 0.012  50 0.03  1.0 150 10 0.03;
         complex_start 310 0.029 0.002  50 0.08  1.0  34  5 0.03;
         complex_start 310 0.029 0.002  50 0.08  1.0  34  5 0.03;
         complex_start 310 0.029 0.002  50 0.08  1.0  64  5 0.03;
         complex_start 310 0.029 0.002  50 0.08  1.0  64  5 0.03])
  | custom _ _ => None
  end.

(** [default_fitbnds(fitfunc)]: the transposed table of
    [(lower, upper)] pairs of [f_complex], [None] otherwise. *)
Definition default_fitbnds (f : model_function F)
  : option (list (list F)) :=
  match f with
  | f_complex =>
      let pars :=
        [[of_Z 5; of_Z 5000];
         [of_Z 0; of_Z 1];
         [of_Z (-1); of_Z 1];
         [of_Z 5; of_Z 5000];
         [of_Z (-5); of_Z 5];
         [fdiv (of_Q 1.0) (of_Q 3.0); of_Z 3];
         [fdiv (of_Q 2.0) (of_Q 1000.0); fdiv (of_Q 50.0) (of_Q 1000.0)];
         [of_Z 0; of_Z 30];
         [of_Z (-5); of_Z 5]] in
      Some (np_transpose (of_Z 0) 2 pars)
  | _ => None
  end.

End ModelFunctions.

Arguments pars_array F : clear implicits.

(* ================================================================== *)
(** * correlation_fit                                                   *)
(* ================================================================== *)

Section CorrelationFit.
Context {F : Type} {ops : Float64Ops F} {scipy : SciPy F}.

(** The [data] argument: a [CoefficientResult], or anything else, which
    [np.asarray] turns into an array. *)
Inductive fit_data : Type :=
| Coefficients (r : CoefficientResult F)
| Guess (a : array_arg F).

(** The [fitfunc] argument: a name or a function. *)
Inductive fitfunc_arg : Type :=
| Name (name : string)
| Function (f : model_function F).

(** The aliases of the three model functions. *)
Definition resolve (f : fitfunc_arg) : fitfunc_arg :=
  match f with
  | Name name =>
      if String.eqb name "f_exponential" || String.eqb name "exponential"
      then Function f_exponential
      else if String.eqb name "f_exponential_offset"
              || String.eqb name "exponentialoffset"
      then Function f_exponential_offset
      else if String.eqb name "f_complex" || String.eqb name "complex"
      then Function f_complex
      else f
  | Function _ => f
  end.

(** The local variables [steps], [coefficients] and [stderrs]. *)
Record fit_input : Type := {
  fit_steps : list F;
  fit_coefficients : ndarray F;
  fit_stderrs : ndarray F
}.

(** [if steps[0] == 1: mnaive = coefficients[0]].  [mnaive] is never
    read afterwards: only the exceptions of the two subscripts are
    kept. *)
Definition assign_mnaive {A} (first_step_is_1 : A -> bool)
           (steps : list A) (coefficients : ndarray F) : outcome unit :=
  s <- index0 steps ;;
  if first_step_is_1 s
  then if Nat.eqb (len coefficients) 0 then Raised IndexError
       else Returned tt
  else Returned tt.

(** The branch of a [CoefficientResult]. *)
Definition from_coefficients (r : CoefficientResult F)
  : outcome fit_input :=
  _ <- assign_mnaive (fun s => Z.eqb s 1) (steps r) (coefficients r) ;;
  Returned {| fit_steps := map of_Z (steps r);
              fit_coefficients := coefficients r;
              fit_stderrs := stderrs r |}.

(** The assignments of the branch [data.shape[0] == 2], which the
    branch [data.shape[0] >= 3] repeats word for word:
<<
  steps        = data[0]
  coefficients = data[1]
  stderrs      = np.ones(len(coefficients))
  if steps[0] == 1: mnaive = coefficients[0]
>>
*)
Definition steps_and_coefficients (rows : list (list F))
  : outcome fit_input :=
  match rows with
  | steps :: coefficients :: _ =>
      _ <- assign_mnaive (fun s => feqb s (of_Z 1)) steps
                         (Vec coefficients) ;;
      Returned {| fit_steps := steps;
                  fit_coefficients := Vec coefficients;
                  fit_stderrs := Vec (np_ones (length coefficients)) |}
  | _ => Raised IndexError
  end.

(** The body of the [try] block.  [None] stands for the case in which
    no branch assigns the three variables.  With three rows or more the
    block ends in the comparison [data.shape > 3] of a tuple with an
    [int], which Python 3 rejects with a [TypeError]. *)
Definition guess_format_body (a : array_arg F)
  : outcome (option fit_input) :=
  match a with
  | Array1 coefficients =>
      _ <- index0 coefficients ;;
      Returned
        (Some {| fit_steps :=
                   map of_Z
                     (np_arange 1 (Z.of_nat (length coefficients) + 1));
                 fit_coefficients := Vec coefficients;
                 fit_stderrs := Vec (np_ones (length coefficients)) |})
  | Array2 ncols rows =>
      let '(ncols, rows) :=
        if Nat.ltb ncols (length rows)
        then (length rows, np_transpose (of_Z 0) ncols rows)
        else (ncols, rows) in
      match length rows with
      | 0%nat => Returned None
      | 1%nat =>
          coefficients <- index0 rows ;;
          _ <- index0 coefficients ;;
          Returned
            (Some {| fit_steps :=
                       map of_Z
                         (np_arange 1 (Z.of_nat (length coefficients)));
                     fit_coefficients := Vec coefficients;
                     fit_stderrs :=
                       Vec (np_ones (length coefficients)) |})
      | 2%nat => i <- steps_and_coefficients rows ;; Returned (Some i)
      | _ => _ <- steps_and_coefficients rows ;; Raised TypeError
      end
  | _ => Returned None
  end.

(** The [try] block with its handler, which calls the method [foramt]
    of a string: whatever the block raises, the handler raises an
    [AttributeError]. *)
Definition guess_format (a : array_arg F) : outcome (option fit_input) :=
  match guess_format_body a with
  | Returned i => Returned i
  | Raised _ => Raised AttributeError
  end.

(** The first part of the function: [data] is read into [steps],
    [coefficients] and [stderrs]. *)
Definition read_data (data : fit_data) : outcome (option fit_input) :=
  match data with
  | Coefficients r => i <- from_coefficients r ;; Returned (Some i)
  | Guess a => guess_format a
  end.

(** [default_fitpars] and [default_fitbnds] return [None] for every
    argument that is not one of the three functions, a name
    included. *)
Definition default_of {A} (d : model_function F -> option A)
           (f : fitfunc_arg) : option A :=
  match f with
  | Name _ => None
  | Function f => d f
  end.

(** The rows of [fitpars] that the loop visits:
<<
  if fitpars is None: fitpars = default_fitpars(fitfunc)
  if (len(fitpars.shape)<2): fitpars = fitpars.reshape(1, len(fitpars))
>>
    [None] has no [shape]. *)
Definition starting_points (f : fitfunc_arg)
           (fitpars : option (pars_array F)) : outcome (list (list F)) :=
  let fitpars := match fitpars with
                 | None => default_of default_fitpars f
                 | Some _ => fitpars
                 end in
  match fitpars with
  | None => Raised AttributeError
  | Some (Pars1 p) => Returned [p]
  | Some (Pars2 rows) => Returned rows
  end.

(** [if fitbnds is None: fitbnds = default_fitbnds(fitfunc)]. *)
Definition bounds_of (f : fitfunc_arg)
           (fitbnds : option (list (list F))) : option (list (list F)) :=
  match fitbnds with
  | None => default_of default_fitbnds f
  | Some _ => fitbnds
  end.

(** What one iteration computes before the comparison: [popt], [pcov]
    and [ssres]. *)
Record attempt : Type := {
  att_popt : list F;
  att_pcov : list (list F);
  att_ssres : F
}.

(** The body of [for idx, pars in enumerate(fitpars)] up to
    [ssres = np.sum(residuals**2)].  Printing the starting parameters
    calls [inspect.signature(fitfunc)], a [TypeError] for a name, and,
    in a bounded fit, reads the two rows [fitbnds[0, :]] and
    [fitbnds[1, :]]. *)
Definition fit_attempt (f : fitfunc_arg) (input : option fit_input)
           (fitbnds : option (list (list F))) (pars : list F)
  : outcome attempt :=
  match f with
  | Name _ => Raised TypeError
  | Function f =>
      bnds <- match fitbnds with
              | None => Returned Unbounded
              | Some b => if Nat.ltb (length b) 2 then Raised IndexError
                          else Returned (Bounded b)
              end ;;
      match input with
      | None => Raised (UnboundLocalError "steps")
      | Some input =>
          '(popt, pcov) <- curve_fit f (fit_steps input)
                             (fit_coefficients input) pars bnds 100000
                             (fit_stderrs input) ;;
          model <- call_fitfunc f (fit_steps input) popt ;;
          residuals <- nd_sub (fit_coefficients input) model ;;
          Returned {| att_popt := popt;
                      att_pcov := pcov;
                      att_ssres := np_sum_sq residuals |}
      end
  end.

(** The champion of the loop: [ssresmin], [fulpopt] and [fulpcov];
    [None] is a variable that no iteration has assigned yet. *)
Record champion : Type := {
  ssresmin : xfloat F;
  fulpopt : option (list F);
  fulpcov : option (list (list F))
}.

(** The initial champion: [ssresmin = np.inf]. *)
Definition no_champion : champion :=
  {| ssresmin := Inf; fulpopt := None; fulpcov := None |}.

(** The champion after the three assignments from the attempt [a]. *)
Definition champion_of (a : attempt) : champion :=
  {| ssresmin := Finite (att_ssres a);
     fulpopt := Some (att_popt a);
     fulpcov := Some (att_pcov a) |}.

(** The end of the loop body:
<<
  if ssres < ssresmin:
      ssresmin = ssres
      fulpopt  = popt
      fulpcov  = pcov
>>
*)
Definition keep_best (best : champion) (a : attempt) : champion :=
  if xlt (att_ssres a) (ssresmin best) then champion_of a else best.

(** One iteration of the loop. *)
Definition fit_row (f : fitfunc_arg) (input : option fit_input)
           (fitbnds : option (list (list F)))
           (best : champion) (pars : list F) : outcome champion :=
  a <- fit_attempt f input fitbnds pars ;;
  Returned (keep_best best a).

(** [fitfunc.__doc__]; for a name this is the docstring of [str], of
    which the first line is given. *)
Definition doc_of_arg (f : fitfunc_arg) : string :=
  match f with
  | Name _ => "str(object='') -> str"
  | Function f => doc_of f
  end.

(** The construction of [fulres] after the loop, with [deltat = 1]. *)
Definition result_of (f : fitfunc_arg) (best : champion)
  : outcome (CorrelationResult F) :=
  let deltat := 1 in
  match fulpopt best, fulpcov best with
  | Some popt, Some pcov =>
      tau <- index0 popt ;;
      Returned {| tau := tau;
                  mre := np_exp (fdiv (of_Z (- deltat)) tau);
                  fitfunc := doc_of_arg f;
                  popt := popt;
                  pcov := pcov;
                  ssres := ssresmin best |}
  | _, _ => Raised (UnboundLocalError "fulpopt")
  end.

(** [correlation_fit(data, fitfunc, fitpars, fitbnds)]. *)
Definition correlation_fit (data : fit_data) (fitfunc : fitfunc_arg)
           (fitpars : option (pars_array F))
           (fitbnds : option (list (list F)))
  : outcome (CorrelationResult F) :=
  let fitfunc := resolve fitfunc in
  input <- read_data data ;;
  fitpars <- starting_points fitfunc fitpars ;;
  let fitbnds := bounds_of fitfunc fitbnds in
  best <- for_each (fit_row fitfunc input fitbnds) fitpars no_champion ;;
  result_of fitfunc best.

End CorrelationFit.

Arguments fit_data F : clear implicits.
Arguments fitfunc_arg F : clear implicits.
Arguments fit_input F : clear implicits.
Arguments champion F : clear implicits.
Arguments attempt F : clear implicits.

(* ================================================================== *)
(** * Predicates of the statements                                      *)
(* ================================================================== *)

Definition returned {A} (o : outcome A) : bool :=
  match o with
  | Returned _ => true
  | Raised _ => false
  end.

Section Predicates.
Context {F : Type} {ops : Float64Ops F} {scipy : SciPy F}.

(** A matrix of [nrows] rows of [ncols] entries each. *)
Definition shaped (nrows ncols : nat) (m : list (list F)) : Prop :=
  length m = nrows /\ Forall (fun row => length row = ncols) m.

(** The arrays of [sepres] have one row per trial and one column per
    step. *)
Definition sep_shaped (numtrials numsteps : nat) (s : sep_arrays F)
  : Prop :=
  shaped numtrials numsteps (sep_coefficients s) /\
  shaped numtrials numsteps (sep_offsets s) /\
  shaped numtrials numsteps (sep_stderrs s) /\
  length (sep_trialactivies s) = numtrials.

(** Entry [(t, j)] of a matrix, and of the three matrices of
    [sepres]. *)
Definition entry (m : list (list F)) (t j : nat) : option F :=
  match nth_error m t with
  | Some row => nth_error row j
  | None => None
  end.

Definition sep_entry (s : sep_arrays F) (t j : nat)
  : option F * option F * option F :=
  (entry (sep_coefficients s) t j, entry (sep_offsets s) t j,
   entry (sep_stderrs s) t j).

(** The trials of an input of dimension one or two, and their
    number. *)
Definition trials_of (data : array_arg F) : list (list F) :=
  match data with
  | Array1 v => [v]
  | Array2 _ rows => rows
  | _ => []
  end.

Definition num_trials (data : array_arg F) : nat :=
  length (trials_of data).

(** The number of time points per trial, [data.shape[1]] after the
    reshaping of a vector. *)
Definition data_length (data : array_arg F) : nat :=
  match data with
  | Array1 v => length v
  | Array2 ncols _ => ncols
  | _ => 0
  end.

(** [minstep] after the first check on the step range. *)
Definition effective_minstep (minstep maxstep : Z) : Z :=
  if maxstep <? minstep then 1 else minstep.

(** [np.var(v, ddof=1)] of a vector: the squared deviations from the
    mean, summed and divided by [max(n - 1, 0)]. *)
Definition np_var_ddof1 (v : list F) : F :=
  fdiv (np_sum (map square (map (fun x => fsub x (np_mean v)) v)))
       (of_Z (Z.max (Z.of_nat (length v) - 1) 0)).

(** [maxstep] after the second check on the step range, for data of
    [datalength] time points per trial. *)
Definition effective_maxstep (datalength : nat) (maxstep : Z) : Z :=
  if Z.of_nat datalength <? maxstep then Z.of_nat datalength - 2
  else maxstep.

(** The regression of the pooled pairs of one step. *)
Definition pooled_regression (rows : list (list F)) (step : Z)
  : outcome (LinregressResult F) :=
  let '(x, y) := pooled rows (np_mean_axis1 rows) step in
  linregress x y.

(** Every regression that [estimate] asks for on these trials and
    steps returns. *)
Definition regressions_succeed (rows : list (list F)) (steps : list Z)
           (method : string) : bool :=
  if String.eqb method "trialseparated" then
    forallb (fun trial =>
               forallb (fun step => returned (trial_regression trial step))
                       steps)
            rows
  else
    forallb (fun step => returned (pooled_regression rows step)) steps.

(** The attempt [a] is the fit started from the row [pars]: its [popt]
    and [pcov] are what [curve_fit] returns from [pars] on the steps,
    coefficients and standard errors of [input], within the bounds
    [fitbnds] ([(-np.inf, np.inf)] if there are none), and its [ssres]
    is the sum of the squares of the residuals between the coefficients
    and the model function at this [popt]. *)
Definition fitted_from (f : model_function F) (input : fit_input F)
           (fitbnds : option (list (list F))) (pars : list F)
           (a : attempt F) : Prop :=
  exists model residuals,
    curve_fit f (fit_steps input) (fit_coefficients input) pars
              (match fitbnds with
               | None => Unbounded
               | Some b => Bounded b
               end)
              100000 (fit_stderrs input)
    = Returned (att_popt a, att_pcov a) /\
    call_fitfunc f (fit_steps input) (att_popt a) = Returned model /\
    nd_sub (fit_coefficients input) model = Returned residuals /\
    att_ssres a = np_sum_sq residuals.

(** [<] compares the values of [S] as an order does: it is asymmetric,
    and a value of [S] lies above [a] or below [b] whenever [a < b].
    For [float64] this says that no value of [S] is a NaN. *)
Definition comparable (S : list F) : Prop :=
  (forall a b, In a S -> In b S -> flt a b = true -> flt b a = false) /\
  (forall a b c, In a S -> In b S -> In c S ->
                 flt a b = true -> flt a c = true \/ flt c b = true).

End Predicates.

(* ================================================================== *)
(** * An interpretation for running the definitions                     *)
(* ================================================================== *)

(** Exact rational arithmetic, with truncated series in the place of the
    transcendental functions, ordinary least squares for [linregress] and
    an optimiser that does not move for [curve_fit].  Every rational is
    below [np.inf]; there is no NaN.  The examples below the theorems
    and the check of the default tables run on it; the other theorems
    hold for every interpretation. *)
Module Rational.

(** The root of [q] to six decimal places, from below. *)
Definition sqrt6 (q : Q) : Q :=
  Qred (Z.sqrt (Qnum q * Zpos (Qden q) * 10 ^ 12)
        # (Qden q * 1000000)).

(** [1 + x + x^2/2 + ... + x^6/720]. *)
Definition exp6 (x : Q) : Q :=
  let h (n : Z) (acc : Q) : Q := (1 + x * acc / inject_Z n)%Q in
  Qred (h 1 (h 2 (h 3 (h 4 (h 5 (h 6 1%Q)))))).

(** [1 - x^2/2 + x^4/24]. *)
Definition cos4 (x : Q) : Q :=
  Qred (1 - x * x / 2 + x * x * x * x / 24)%Q.

(** [x ** y] for the integer part of [y]. *)
Definition power_floor (x y : Q) : Q := Qred (Qpower x (Qfloor y)).

Definition lt_bool (a b : Q) : bool :=
  match Qcompare a b with
  | Lt => true
  | _ => false
  end.

#[export] Instance ops : Float64Ops Q := {
  of_Z := inject_Z;
  of_Q := Qred;
  fadd := fun a b => Qred (a + b);
  fsub := fun a b => Qred (a - b);
  fmul := fun a b => Qred (a * b);
  fdiv := fun a b => Qred (a / b);
  fopp := fun a => Qred (- a);
  flt := lt_bool;
  flt_inf := fun _ => true;
  feqb := Qeq_bool;
  np_sqrt := sqrt6;
  np_exp := exp6;
  np_cos := cos4;
  np_power := power_floor;
  np_pi := 355 # 113
}.

(** Ordinary least squares.  As in scipy, empty inputs are a
    [ValueError], and so are two points or more that are all at one
    abscissa.  On a single pair scipy returns NaN for the three values;
    the rationals have no such value, and the division by zero of [Q]
    gives 0 here. *)
Definition least_squares (x y : list Q)
  : outcome (LinregressResult Q) :=
  let n := length x in
  if negb (Nat.eqb n (length y)) || Nat.eqb n 0 then Raised ValueError
  else
    let xm := np_mean x in
    let ym := np_mean y in
    let dx := map (fun v => fsub v xm) x in
    let dy := map (fun v => fsub v ym) y in
    let ssxm := np_sum (map square dx) in
    let ssym := np_sum (map square dy) in
    let ssxym := np_sum (map2 fmul dx dy) in
    if Nat.ltb 1 n && feqb ssxm 0%Q then Raised ValueError
    else
      let b := fdiv ssxym ssxm in
      Returned
        {| slope := b;
           intercept := fsub ym (fmul b xm);
           stderr :=
             if Nat.eqb n 2 then 0%Q
             else np_sqrt
                    (fdiv (fdiv (fsub ssym (fmul b ssxym)) ssxm)
                          (of_Z (Z.of_nat n - 2))) |}.

(** [lower <= p0 <= upper], entry by entry. *)
Definition feasible (p0 lower upper : list Q) : bool :=
  forallb (fun '(p, (l, u)) => negb (flt p l) && negb (flt u p))
          (combine p0 (combine lower upper)).

(** An optimiser that does not move: it returns the start with a zero
    covariance, and, as scipy's does, it rejects with a [ValueError] a
    start that lies outside the bounds. *)
Definition stay_at_start (f : model_function Q) (xdata : list Q)
           (ydata : ndarray Q) (p0 : list Q) (bounds : fit_bounds Q)
           (maxfev : Z) (sigma : ndarray Q)
  : outcome (list Q * list (list Q)) :=
  let result := Returned (p0, np_zeros2 (length p0) (length p0)) in
  match bounds with
  | Unbounded => result
  | Bounded [lower; upper] =>
      if feasible p0 lower upper then result else Raised ValueError
  | Bounded _ => Raised ValueError
  end.

#[export] Instance scipy : SciPy Q := {
  linregress := least_squares;
  curve_fit := stay_at_start
}.

(** Inputs of the examples: a trial of six time points, two such trials,
    and four coefficients of a decay with their steps, alone and
    followed by a row of standard errors. *)
Definition trial : list Q := [1; 2; 3; 5; 4; 6]%Q.

Definition two_trials : list (list Q) :=
  [[1; 2; 3; 5; 4; 6]; [2; 1; 2; 3; 1; 5]]%Q.

Definition decay : list (list Q) :=
  [[1; 2; 3; 4]; [0.9; 0.8; 0.7; 0.6]]%Q.

(** Bounds for [f_exponential]: [tau] in [5, 5000], [A] in [0, 1]. *)
Definition decay_bounds : list (list Q) := [[5; 0]; [5000; 1]]%Q.

Definition decay_with_errors : list (list Q) :=
  [[1; 2; 3; 4]; [0.9; 0.8; 0.7; 0.6]; [0.1; 0.2; 0.3; 0.4]]%Q.

End Rational.

(* ================================================================== *)
(** * simulate_branching                                                *)
(* ================================================================== *)

(** [simulate_branching] and [input_handler] also raise a plain
    [Exception], which carries its arguments: the text on the
    subsampling probability, the text on an array that is neither data
    nor file path, the text [inv_str] on the inputs that are valid.  An
    allocation that fails raises a [MemoryError], or a [ValueError] for
    a size beyond what numpy can address. *)
Inductive message : Type :=
| SubsamplingProbability
| NeitherDataNorPath
| InvalidInput.

Inductive failure : Type :=
| Builtin (e : exn)
| MemoryError
| Exception (args : list message).

Inductive result (A : Type) : Type :=
| Done (a : A)
| Failed (f : failure).

Arguments Done {A} a.
Arguments Failed {A} f.

Definition and_then {A B} (c : result A) (k : A -> result B) : result B :=
  match c with
  | Done a => k a
  | Failed f => Failed f
  end.

Notation "x <~ c ;; k" := (and_then c (fun x => k))
  (at level 61, c at next level, right associativity).
Notation "' pat <~ c ;; k" :=
  (and_then c (fun x => match x with pat => k end))
  (at level 61, pat pattern, c at next level, right associativity).

(** [for x in xs: s = body(s, x)], stopping at the first exception. *)
Fixpoint for_in {A S} (body : S -> A -> result S) (xs : list A) (s : S)
  : result S :=
  match xs with
  | [] => Done s
  | x :: rest => s' <~ body s x ;; for_in body rest s'
  end.

(** [range(start, stop)] for a [start] that is not negative. *)
Definition range (start : nat) (stop : Z) : list nat :=
  seq start (Z.to_nat stop - start).

(** [m[i, j]] and [m[i, j] = v]: an [IndexError] out of range. *)
Definition get_item2 {A} (m : list (list A)) (i j : nat) : result A :=
  match nth_error m i with
  | Some row =>
      match nth_error row j with
      | Some v => Done v
      | None => Failed (Builtin IndexError)
      end
  | None => Failed (Builtin IndexError)
  end.

Definition assign2 {A} (m : list (list A)) (i j : nat) (v : A)
  : result (list (list A)) :=
  _ <~ get_item2 m i j ;; Done (set_item2 m i j v).

(** The two generators of random numbers, [np.random.poisson(lam)] and
    [scipy.stats.binom.rvs(n, p)].  A draw reads the state [G] of the
    generator and leaves a new one, or raises (as numpy does for a
    negative [lam], and scipy for a [p] outside of [0, 1]). *)
Class Random (F G : Type) : Type := {
  np_random_poisson : F -> G -> result (Z * G);
  binom_rvs : Z -> F -> G -> result (Z * G)
}.

Section SimulateBranching.
Context {F G : Type} {ops : Float64Ops F} {random : Random F G}.

(** The memory.  [allocation k n0 n1] is the failure, if there is one,
    of the allocation number [k] of the call, for an array of [n0] rows
    of [n1] integers: numpy raises a [ValueError] for a size that it
    cannot address and a [MemoryError] when the memory does not
    suffice.  [uninitialized i j] is what entry [(i, j)] of the array
    holds that [np.ndarray] allocates, which does not initialise it. *)
Variable allocation : nat -> Z -> Z -> option failure.
Variable uninitialized : nat -> nat -> Z.

(** [np.ndarray(shape=(n0, n1), dtype=int)], the allocation number [k].
    A negative dimension is a [ValueError]. *)
Definition np_ndarray (k : nat) (n0 n1 : Z) : result (list (list Z)) :=
  if (n0 <? 0) || (n1 <? 0) then Failed (Builtin ValueError)
  else
    match allocation k n0 n1 with
    | Some f => Failed f
    | None =>
        Done (map (fun i => map (uninitialized i) (seq 0 (Z.to_nat n1)))
                  (seq 0 (Z.to_nat n0)))
    end.

(** [np.copy(A)] of an array [A] of shape [(n0, n1)], the allocation
    number [k]. *)
Definition np_copy (k : nat) (n0 n1 : Z) (A : list (list Z))
  : result (list (list Z)) :=
  match allocation k n0 n1 with
  | Some f => Failed f
  | None => Done A
  end.

(** [x <= y] on floats. *)
Definition fle (x y : F) : bool := flt x y || feqb x y.

(** The variables of the loops: the activity [A_t], its subsampled copy
    [a_t], which is bound only if [subp != 1], and the state of the
    generators. *)
Record branching : Type := {
  A_t : list (list Z);
  a_t : option (list (list Z));
  generator : G
}.

(** The body of [for idx in range(1, length)]. *)
Definition time_step (m h subp : F) (trial : nat) (s : branching)
           (idx : nat) : result branching :=
  '(drive, g1) <~ np_random_poisson h (generator s) ;;
  '(tmp, g2) <~
     (if flt (of_Z 0) m then
        before <~ get_item2 (A_t s) trial (idx - 1) ;;
        '(offspring, g) <~ np_random_poisson (fmul m (of_Z before)) g1 ;;
        Done (0 + drive + offspring, g)
      else Done (0 + drive, g1)) ;;
  A <~ assign2 (A_t s) trial idx tmp ;;
  if negb (feqb subp (of_Z 1)) then
    '(seen, g3) <~ binom_rvs tmp subp g2 ;;
    match a_t s with
    | Some a =>
        a' <~ assign2 a trial idx seen ;;
        Done {| A_t := A; a_t := Some a'; generator := g3 |}
    | None => Failed (Builtin (UnboundLocalError "a_t"))
    end
  else Done {| A_t := A; a_t := a_t s; generator := g2 |}.

(** The body of [for trial in range(0, numtrials)]. *)
Definition run_trial (length : Z) (m h activity subp : F) (s : branching)
           (trial : nat) : result branching :=
  '(first, g) <~ np_random_poisson activity (generator s) ;;
  A <~ assign2 (A_t s) trial 0 first ;;
  for_in (time_step m h subp trial) (range 1 length)
         {| A_t := A; a_t := a_t s; generator := g |}.

(** [simulate_branching(length, m, activity, numtrials, subp)] from the
    state [g] of the generators: the time series and the state that the
    draws leave. *)
Definition simulate_branching (length : Z) (m activity : F)
           (numtrials : Z) (subp : F) (g : G)
  : result (list (list Z) * G) :=
  A <~ np_ndarray 0 numtrials length ;;
  let h := fmul activity (fsub (of_Z 1) m) in
  if fle subp (of_Z 0) || flt (of_Z 1) subp then
    Failed (Exception [SubsamplingProbability])
  else
    a <~ (if negb (feqb subp (of_Z 1)) then
            copy <~ np_copy 1 numtrials length A ;; Done (Some copy)
          else Done None) ;;
    s <~ for_in (run_trial length m h activity subp) (range 0 numtrials)
                {| A_t := A; a_t := a; generator := g |} ;;
    if flt subp (of_Z 1) then
      match a_t s with
      | Some a => Done (a, generator s)
      | None => Failed (Builtin (UnboundLocalError "a_t"))
      end
    else Done (A_t s, generator s).

End SimulateBranching.

Section BranchingPredicates.
Context {F G : Type} {ops : Float64Ops F} {random : Random F G}.

(** Arguments on which no check and no index fails: dimensions that are
    not negative, a first time step for every trial, and [subp] in
    [(0, 1]]. *)
Definition simulable (length numtrials : Z) (subp : F) : Prop :=
  0 <= numtrials /\ 0 <= length /\ (numtrials = 0 \/ 1 <= length) /\
  fle subp (of_Z 0) = false /\ flt (of_Z 1) subp = false.

(** The failure [f] is what a draw raised. *)
Definition draw_failed (f : failure) : Prop :=
  (exists lam g, np_random_poisson lam g = Failed f) \/
  (exists n p g, binom_rvs n p g = Failed f).

(** The failure [f] is what an allocation raised. *)
Definition allocation_failed
           (allocation : nat -> Z -> Z -> option failure) (f : failure)
  : Prop :=
  exists k n0 n1, allocation k n0 n1 = Some f.

(** Entry [(t, j)] of the activity [A] follows the process: the first
    entry of a trial is a Poisson draw of mean [activity]; a later one
    is a Poisson draw of mean [h] and, for [m > 0], one more of mean
    [m] times the entry before it. *)
Definition follows_process (m h activity : F) (A : list (list Z))
           (t j : nat) : Prop :=
  match j with
  | O =>
      exists first g0 g1,
        np_random_poisson activity g0 = Done (first, g1) /\
        entry A t 0 = Some first
  | S i =>
      exists drive g0 g1,
        np_random_poisson h g0 = Done (drive, g1) /\
        if flt (of_Z 0) m then
          exists before offspring g2,
            entry A t i = Some before /\
            np_random_poisson (fmul m (of_Z before)) g1
            = Done (offspring, g2) /\
            entry A t j = Some (drive + offspring)
        else entry A t j = Some drive
  end.

(** Entry [(t, j)] of [a], for [j] of one or more, is a binomial draw
    from entry [(t, j)] of the activity [A]. *)
Definition subsamples (subp : F) (A a : list (list Z)) (t j : nat)
  : Prop :=
  exists full seen g0 g1,
    entry A t j = Some full /\
    binom_rvs full subp g0 = Done (seen, g1) /\
    entry a t j = Some seen.

(** Position [(t', j)] comes before position [(t, i)] in the order of
    the two loops. *)
Definition earlier (t' j t i : nat) : Prop :=
  (t' < t)%nat \/ (t' = t /\ (j < i)%nat).

(** What the loops have established when they are about to write
    position [(t, i)] of arrays allocated as [A0]: the shape of the
    arrays, [a_t] bound exactly if [subp != 1], the process at every
    earlier position, and in [a_t] the first column as allocated and a
    draw at every earlier position. *)
Definition kept (length numtrials : Z) (m h activity subp : F)
           (A0 : list (list Z)) (t i : nat) (s : branching (G:=G))
  : Prop :=
  shaped (Z.to_nat numtrials) (Z.to_nat length) (A_t s) /\
  (forall t' j,
      (t' < Z.to_nat numtrials)%nat -> (j < Z.to_nat length)%nat ->
      earlier t' j t i -> follows_process m h activity (A_t s) t' j) /\
  match a_t s with
  | None => feqb subp (of_Z 1) = true
  | Some a =>
      feqb subp (of_Z 1) = false /\
      shaped (Z.to_nat numtrials) (Z.to_nat length) a /\
      forall t' j,
        (t' < Z.to_nat numtrials)%nat -> (j < Z.to_nat length)%nat ->
        match j with
        | O => entry a t' 0 = entry A0 t' 0
        | S _ => earlier t' j t i -> subsamples subp (A_t s) a t' j
        end
  end.

End BranchingPredicates.

(** Draws without chance, for the examples: a Poisson draw is its mean
    and a binomial draw is [n * p], both rounded down; the state counts
    the draws. *)
Module Draws.
Import Rational.

Definition mean_poisson (lam : Q) (g : nat) : result (Z * nat) :=
  if flt lam 0%Q then Failed (Builtin ValueError)
  else Done (Qfloor lam, S g).

Definition mean_binom (n : Z) (p : Q) (g : nat) : result (Z * nat) :=
  if (n <? 0) || flt p 0%Q || flt 1%Q p then Failed (Builtin ValueError)
  else Done (Qfloor (inject_Z n * p), S g).

#[export] Instance random : Random Q nat := {
  np_random_poisson := mean_poisson;
  binom_rvs := mean_binom
}.

(** Memory that suffices, memory that holds no array of more than a
    thousand entries, and memory that holds [-1] everywhere. *)
Definition roomy (k : nat) (n0 n1 : Z) : option failure := None.

Definition cramped (k : nat) (n0 n1 : Z) : option failure :=
  if 1000 <? n0 * n1 then Some MemoryError else None.

Definition stale (i j : nat) : Z := -1.

End Draws.

(* ================================================================== *)
(** * input_handler                                                     *)
(* ================================================================== *)

(** The file system and the parts of Python that [input_handler] asks:
    [glob.glob], [np.load] and [np.loadtxt] on a path (a [str] or a byte
    string, of type [P]), the conversion of a [str] to a float by
    [np.asarray(items, dtype=float)], the order in which a [set] yields
    the paths that were added to it in the given order, and what
    [glob.glob] raises on a number.  A file holds a one-dimensional
    array. *)
Class Files (F P : Type) : Type := {
  glob_glob : P -> list P;
  np_load : P -> result (list F);
  np_loadtxt : P -> result (list F);
  float_of_str : P -> option F;
  set_iteration : list P -> list P;
  glob_of_number : failure
}.

Section InputHandler.
Context {F P : Type} {ops : Float64Ops F} {files : Files F P}.

(** What [items] can be: an [ndarray] of numbers (of [dtype.kind] i, f
    or u) of one or two dimensions, a one-dimensional [ndarray] of byte
    strings (kind S), an [ndarray] of another kind, a [list] of [str], a
    [list] of one-dimensional [ndarray]s of numbers, a [list] of
    numbers, a [list] of lists of numbers, a [str], or an object of
    another type.  The empty list is [ListOfStr []]; the other three
    lists are taken as that when they are empty. *)
Inductive handler_items : Type :=
| NumberArray (a : ndarray F)
| BytesArray (paths : list P)
| OtherArray
| ListOfStr (l : list P)
| ListOfNdarray (l : list (list F))
| ListOfNumber (l : list F)
| ListOfList (l : list (list F))
| Path (pattern : P)
| OtherObject.

(** [try: np.load(item) except Exception: np.loadtxt(item)];
    [SystemExit] is no [Exception]. *)
Definition load_file (item : P) : result (list F) :=
  match np_load item with
  | Done v => Done v
  | Failed (Builtin SystemExit) => Failed (Builtin SystemExit)
  | Failed _ => np_loadtxt item
  end.

(** [min(len(l) for l in data)]: a [ValueError] on no data. *)
Definition min_len (data : list (list F)) : result nat :=
  match data with
  | [] => Failed (Builtin ValueError)
  | first :: rest => Done (fold_left Nat.min (map (@length F) rest)
                                     (length first))
  end.

(** Situation 1: the files are loaded in the order of [items] and cut
    to the length of the shortest. *)
Definition load_items (items : list P) : result (ndarray F) :=
  data <~ for_in (fun data item =>
                    loaded <~ load_file item ;; Done (data ++ [loaded]))
                 items [] ;;
  minlen <~ min_len data ;;
  Done (Mat minlen (map (fun dat => py_slice dat 0 (Z.of_nat minlen)) data)).

(** The [set] of the matches of all [items], as it is iterated.  No
    match: the empty set. *)
Definition matches (items : list P) : list P :=
  match concat (map glob_glob items) with
  | [] => []
  | added => set_iteration added
  end.

(** [np.stack(items, axis=0)] on an array: its rows stacked again; a
    [ValueError] when there is none. *)
Definition np_stack (a : ndarray F) : result (ndarray F) :=
  match a with
  | Vec [] => Failed (Builtin ValueError)
  | Mat _ [] => Failed (Builtin ValueError)
  | _ => Done a
  end.

(** [np.stack(items, axis=0)] on a list of one-dimensional arrays, which
    have to be of one length; and [np.asarray(items, dtype=float)] on a
    list of lists of numbers, which is the same. *)
Definition rows_of_one_length (l : list (list F)) : result (ndarray F) :=
  match l with
  | [] => Failed (Builtin ValueError)
  | first :: rest =>
      if forallb (fun v => Nat.eqb (length v) (length first)) rest
      then Done (Mat (length first) l)
      else Failed (Builtin ValueError)
  end.

(** [retdata.reshape((1, len(retdata)))] if [retdata] has one
    dimension. *)
Definition as_one_trial (retdata : ndarray F) : ndarray F :=
  match retdata with
  | Vec v => Mat (length v) [v]
  | Mat _ _ => retdata
  end.

(** Situation 0. *)
Definition stack_items (a : ndarray F) : result (ndarray F) :=
  retdata <~ np_stack a ;; Done (as_one_trial retdata).

(** All of [l] converted by [float_of_str], if each of them is. *)
Fixpoint floats_of (l : list P) : option (list F) :=
  match l with
  | [] => Some []
  | s :: rest =>
      match float_of_str s, floats_of rest with
      | Some x, Some xs => Some (x :: xs)
      | _, _ => None
      end
  end.

(** The list of [str]: when all of them parse as floats [items] becomes
    the array of these floats, and still [situation = 1] follows, so
    that [glob.glob] is called on the first float; otherwise the strings
    are patterns of paths. *)
Definition list_of_str (l : list P) : result (ndarray F) :=
  match floats_of l with
  | Some [] => load_items []
  | Some (_ :: _) => Failed glob_of_number
  | None => load_items (matches l)
  end.

(** [input_handler(items)]. *)
Definition input_handler (items : handler_items) : result (ndarray F) :=
  match items with
  | NumberArray a => stack_items a
  | BytesArray paths => load_items (matches paths)
  | OtherArray => Failed (Exception [NeitherDataNorPath; InvalidInput])
  | ListOfStr l => list_of_str l
  | ListOfNdarray [] => list_of_str []
  | ListOfNdarray l =>
      retdata <~ rows_of_one_length l ;; Done (as_one_trial retdata)
  | ListOfNumber [] => list_of_str []
  | ListOfNumber l => stack_items (Vec l)
  | ListOfList [] => list_of_str []
  | ListOfList l =>
      match rows_of_one_length l with
      | Done a => stack_items a
      | Failed _ => Failed (Builtin SystemExit)
      end
  | Path pattern => load_items (glob_glob pattern)
  | OtherObject => Failed (Exception [InvalidInput])
  end.

End InputHandler.

Arguments handler_items F P : clear implicits.

Section HandlerPredicates.
Context {F P : Type} {ops : Float64Ops F} {files : Files F P}.

(** The paths that [input_handler] loads, in the order in which it
    loads them, for [items] that it takes as paths. *)
Definition files_of (items : handler_items F P) : list P :=
  match items with
  | Path pattern => glob_glob pattern
  | BytesArray paths => matches paths
  | ListOfStr l =>
      match floats_of l with
      | None => matches l
      | Some _ => []
      end
  | _ => []
  end.

Definition taken_as_paths (items : handler_items F P) : bool :=
  match items with
  | Path _ | BytesArray _ | ListOfStr _ => true
  | _ => false
  end.

End HandlerPredicates.

(** A disk for the examples: two files, of four numbers (a [.npy] file)
    and of three numbers (a text file), which the pattern [trial_*]
    matches; a [set] yields every path once. *)
Module Disk.
Import Rational.
Local Open Scope string_scope.

Definition glob_disk (pattern : string) : list string :=
  if String.eqb pattern "trial_*" then ["trial_1.npy"; "trial_2.txt"]
  else if String.eqb pattern "trial_1.npy" then ["trial_1.npy"]
  else if String.eqb pattern "trial_2.txt" then ["trial_2.txt"]
  else [].

Definition load_disk (path : string) : result (list Q) :=
  if String.eqb path "trial_1.npy" then Done [1; 2; 3; 5]%Q
  else Failed (Builtin ValueError).

Definition loadtxt_disk (path : string) : result (list Q) :=
  if String.eqb path "trial_2.txt" then Done [2; 1; 2]%Q
  else Failed (Builtin ValueError).

#[export] Instance files : Files Q string := {
  glob_glob := glob_disk;
  np_load := load_disk;
  np_loadtxt := loadtxt_disk;
  float_of_str := fun _ => None;
  set_iteration := nodup string_dec;
  glob_of_number := Builtin TypeError
}.

End Disk.

(* ================================================================== *)
(** * Lemmas on the Python layer                                        *)
(* ================================================================== *)

Lemma bind_returned {A B} (c : outcome A) (k : A -> outcome B) (b : B) :
  bind c k = Returned b -> exists a, c = Returned a /\ k a = Returned b.
Proof.
  destruct c as [a|e]; simpl; intros H; [eauto | discriminate].
Qed.

Lemma bind_raised {A B} (c : outcome A) (k : A -> outcome B) (e : exn) :
  c = Raised e -> bind c k = Raised e.
Proof. intros ->. reflexivity. Qed.

(** Unfolds one [bind] whose result is known to be a value. *)
Ltac bind_inv H :=
  let a := fresh "a" in
  let Ha := fresh "H" a in
  apply bind_returned in H; destruct H as (a & Ha & H).

(** A property that every iteration preserves holds after the loop. *)
Lemma for_each_invariant {A S} (P : S -> Prop)
      (body : S -> A -> outcome S) (xs : list A) :
  (forall s x s', In x xs -> P s -> body s x = Returned s' -> P s') ->
  forall s r, P s -> for_each body xs s = Returned r -> P r.
Proof.
  induction xs as [|x xs IH]; simpl; intros Hbody s r Hs Hrun.
  - now inversion Hrun; subst.
  - bind_inv Hrun.
    apply (IH (fun s0 y s' Hy => Hbody s0 y s' (or_intror Hy)) a r); auto.
    apply (Hbody s x a); auto.
Qed.

(** A loop whose iterations all return returns. *)
Lemma for_each_returns {A S} (body : S -> A -> outcome S) (xs : list A) :
  (forall s x, In x xs -> exists s', body s x = Returned s') ->
  forall s, exists r, for_each body xs s = Returned r.
Proof.
  induction xs as [|x xs IH]; simpl; intros Hbody s.
  - eauto.
  - destruct (Hbody s x (or_introl eq_refl)) as (s' & ->). simpl.
    apply IH. intros s0 y Hy. apply Hbody. now right.
Qed.

Lemma in_enumerate {A} (xs : list A) (i : nat) (x : A) :
  In (i, x) (enumerate xs) -> (i < length xs)%nat /\ In x xs.
Proof.
  unfold enumerate. intros H. split.
  - apply in_combine_l in H. apply in_seq in H. lia.
  - now apply in_combine_r in H.
Qed.

Lemma set_item_length {A} (xs : list A) (i : nat) (v : A) :
  length (set_item xs i v) = length xs.
Proof.
  revert i; induction xs as [|x xs IH]; intros [|i]; simpl; auto.
Qed.

Lemma set_item_Forall {A} (P : A -> Prop) (xs : list A) (i : nat) (v : A) :
  Forall P xs -> P v -> Forall P (set_item xs i v).
Proof.
  intros Hxs Hv. revert i.
  induction Hxs as [|x xs Hx Hxs IH]; intros [|i]; simpl; auto.
Qed.

Lemma np_arange_length (start stop : Z) :
  length (np_arange start stop) = Z.to_nat (stop - start).
Proof. unfold np_arange. now rewrite length_map, length_seq. Qed.

Lemma np_arange_in (start stop k : Z) :
  In k (np_arange start stop) <-> start <= k < stop.
Proof.
  unfold np_arange. rewrite in_map_iff. split.
  - intros (i & <- & Hi). apply in_seq in Hi. lia.
  - intros Hk. exists (Z.to_nat (k - start)). split; [lia|].
    apply in_seq. lia.
Qed.

(* ================================================================== *)
(** * Lemmas on arrays                                                  *)
(* ================================================================== *)

Section ArrayLemmas.
Context {F : Type} {ops : Float64Ops F}.

Lemma np_zeros_length (n : nat) : length (np_zeros n) = n.
Proof. apply repeat_length. Qed.

Lemma np_zeros2_shaped (nrows ncols : nat) :
  shaped nrows ncols (np_zeros2 nrows ncols).
Proof.
  split; [apply repeat_length|].
  apply Forall_forall. intros row Hrow.
  apply repeat_spec in Hrow. subst. apply np_zeros_length.
Qed.

Lemma set_item2_shaped (nrows ncols : nat) (m : list (list F))
      (i j : nat) (v : F) :
  shaped nrows ncols m -> shaped nrows ncols (set_item2 m i j v).
Proof.
  intros [Hlen Hrows]. unfold set_item2.
  destruct (nth_error m i) as [row|] eqn:Hrow; [|now split].
  split; [now rewrite set_item_length|].
  apply set_item_Forall; auto.
  rewrite set_item_length.
  apply nth_error_In in Hrow.
  now apply (proj1 (Forall_forall _ _) Hrows).
Qed.

Lemma map2_length (f : F -> F -> F) (a b : list F) :
  length a = length b -> length (map2 f a b) = length a.
Proof.
  intros H. unfold map2. rewrite length_map, length_combine. lia.
Qed.

Lemma map2_nth (f : F -> F -> F) (a b : list F) (k : nat) (d : F) :
  length a = length b -> (k < length a)%nat ->
  nth k (map2 f a b) d = f (nth k a d) (nth k b d).
Proof.
  revert b k. induction a as [|x a IH]; intros [|y b] [|k] Hlen Hk;
    simpl in *; try lia; auto.
  apply IH; lia.
Qed.

(** Adding rows of one length from the top keeps the length, and
    entry [k] of the sum is the sum of column [k]. *)
Lemma fold_rows_length (ncols : nat) (rest : list (list F)) :
  Forall (fun row => length row = ncols) rest ->
  forall r, length r = ncols ->
            length (fold_left (map2 fadd) rest r) = ncols.
Proof.
  induction 1 as [|x rest Hx _ IH]; simpl; intros r Hr; auto.
  apply IH. rewrite map2_length; congruence.
Qed.

Lemma fold_rows_nth (ncols k : nat) (d : F) (rest : list (list F)) :
  (k < ncols)%nat ->
  Forall (fun row => length row = ncols) rest ->
  forall r, length r = ncols ->
            nth k (fold_left (map2 fadd) rest r) d
            = fold_left fadd (map (fun row => nth k row d) rest)
                        (nth k r d).
Proof.
  intros Hk. induction 1 as [|x rest Hx _ IH]; simpl; intros r Hr; auto.
  rewrite IH by (rewrite map2_length; congruence).
  rewrite map2_nth by congruence. reflexivity.
Qed.

Lemma np_sum_axis0_length (nrows ncols : nat) (m : list (list F)) :
  shaped nrows ncols m -> length (np_sum_axis0 ncols m) = ncols.
Proof.
  intros [_ Hrows]. destruct m as [|r rest]; simpl.
  - apply np_zeros_length.
  - inversion Hrows as [|r' rest' Hr Hrest]; subst r' rest'.
    now apply fold_rows_length.
Qed.

Lemma np_mean_axis0_length (nrows ncols : nat) (m : list (list F)) :
  shaped nrows ncols m -> length (np_mean_axis0 ncols m) = ncols.
Proof.
  intros H. unfold np_mean_axis0. rewrite length_map.
  now apply np_sum_axis0_length with nrows.
Qed.

(** [np.mean(m, axis=0)[k]] is the mean of the column [m[:, k]]. *)
Lemma np_mean_axis0_nth (nrows ncols : nat) (m : list (list F))
      (k : nat) :
  shaped nrows ncols m -> (k < ncols)%nat ->
  nth_error (np_mean_axis0 ncols m) k = Some (np_mean (column k m)).
Proof.
  intros Hm Hk.
  pose proof (@np_sum_axis0_length nrows ncols m Hm) as Hlen.
  destruct Hm as [_ Hrows].
  unfold np_mean_axis0. rewrite nth_error_map.
  rewrite (nth_error_nth' _ (of_Z 0)) by lia. simpl.
  unfold np_mean, column. rewrite length_map. do 2 f_equal.
  destruct m as [|r rest]; simpl.
  - unfold np_zeros. now rewrite nth_repeat.
  - inversion Hrows as [|r' rest' Hr Hrest]; subst r' rest'.
    now apply fold_rows_nth with ncols.
Qed.

Lemma np_var_axis0_ddof1_length (nrows ncols : nat)
      (m : list (list F)) :
  shaped nrows ncols m -> length (np_var_axis0_ddof1 ncols m) = ncols.
Proof.
  intros Hm. unfold np_var_axis0_ddof1. rewrite length_map.
  apply np_sum_axis0_length with nrows.
  pose proof (@np_mean_axis0_length nrows ncols m Hm) as Hmean.
  destruct Hm as [Hlen Hrows]. split; [now rewrite length_map|].
  apply Forall_map. revert Hrows. apply Forall_impl. intros row Hrow.
  rewrite length_map, map2_length; congruence.
Qed.

End ArrayLemmas.

(* ================================================================== *)
(** * correlation_coefficients: lemmas                                  *)
(* ================================================================== *)

Section CoefficientLemmas.
Context {F : Type} {ops : Float64Ops F} {scipy : SciPy F}.

Lemma separate_steps_shaped (numtrials numsteps tdx : nat)
      (trial : list F) (steps : list Z) (s s' : sep_arrays F) :
  sep_shaped numtrials numsteps s ->
  separate_steps tdx trial steps s = Returned s' ->
  sep_shaped numtrials numsteps s'.
Proof.
  unfold separate_steps.
  apply for_each_invariant with (P := sep_shaped numtrials numsteps).
  intros s0 [idx step] s1 _ (Hc & Ho & He & Ha) Hbody.
  unfold separate_step in Hbody.
  bind_inv Hbody. inversion Hbody; subst s1; clear Hbody.
  split; [|split; [|split]]; simpl; auto using set_item2_shaped.
Qed.

Lemma separate_trials_shaped (numtrials numsteps : nat)
      (rows : list (list F)) (steps : list Z) (s s' : sep_arrays F) :
  sep_shaped numtrials numsteps s ->
  separate_trials rows steps s = Returned s' ->
  sep_shaped numtrials numsteps s'.
Proof.
  unfold separate_trials.
  apply for_each_invariant with (P := sep_shaped numtrials numsteps).
  intros s0 [tdx trial] s1 _ (Hc & Ho & He & Ha) Hbody.
  unfold separate_trial in Hbody.
  apply separate_steps_shaped with (numtrials := numtrials)
                                   (numsteps := numsteps) in Hbody; auto.
  split; [|split; [|split]]; simpl; auto.
  now rewrite set_item_length.
Qed.

Lemma sep_zeros_shaped (rows : list (list F)) (numsteps : nat) :
  sep_shaped (length rows) numsteps (sep_zeros rows numsteps).
Proof.
  split; [|split; [|split]]; simpl; try apply np_zeros2_shaped.
  unfold np_mean_axis1. apply length_map.
Qed.

(** What a call that returns has gone through. *)
Lemma correlation_coefficients_returned (data : array_arg F)
      (minstep maxstep : Z) (method : string) (bootstrap : bool)
      (log : list diagnostic) (r : CoefficientResult F) :
  correlation_coefficients data minstep maxstep method bootstrap
  = (log, Returned r) ->
  exists ncols rows minstep' maxstep',
    snd (check_shape data) = Returned (Trials ncols rows) /\
    snd (check_steps (Trials ncols rows) minstep maxstep)
    = Returned (minstep', maxstep') /\
    estimate rows minstep' maxstep' method = Returned r /\
    rows = trials_of data.
Proof.
  unfold correlation_coefficients. intros H.
  destruct data as [x|v|ncols rows|extra|]; simpl in H;
    try discriminate.
  - destruct (check_steps Scalar minstep maxstep) as [l [[a b]|e]] eqn:E;
      inversion H.
  - destruct (check_steps (Trials (length v) [v]) minstep maxstep)
      as [l [[a b]|e]] eqn:E; inversion H; subst.
    exists (length v), [v], a, b. simpl. now rewrite E.
  - destruct (check_steps (Trials ncols rows) minstep maxstep)
      as [l [[a b]|e]] eqn:E; inversion H; subst.
    exists ncols, rows, a, b. simpl. now rewrite E.
Qed.

(** The result of the trial-separated method. *)
Lemma estimate_trialseparated (rows : list (list F))
      (minstep maxstep : Z) (r : CoefficientResult F) :
  estimate rows minstep maxstep "trialseparated" = Returned r ->
  forall steps, steps = np_arange minstep (maxstep + 1) ->
  exists s errs,
    separate_trials rows steps (sep_zeros rows (length steps))
    = Returned s /\
    sep_shaped (length rows) (length steps) s /\
    length errs = length steps /\
    (if Nat.eqb (length rows) 1 then index0 (sep_stderrs s)
     else Returned (map np_sqrt
                        (np_var_axis0_ddof1 (length steps)
                                            (sep_coefficients s))))
    = Returned errs /\
    r = {| steps := steps;
           coefficients :=
             Vec (np_mean_axis0 (length steps) (sep_coefficients s));
           offsets := Vec (np_mean_axis0 (length steps) (sep_offsets s));
           stderrs := Vec errs;
           trialactivies := np_mean_axis1 rows;
           samples := Some (sepres_of steps s) |}.
Proof.
  unfold estimate. simpl String.eqb. cbv iota. intros H steps ->.
  bind_inv H.
  set (steps := np_arange minstep (maxstep + 1)) in *.
  pose proof Ha as Hrun.
  apply separate_trials_shaped
    with (numtrials := length rows) (numsteps := length steps) in Ha;
    [|apply sep_zeros_shaped].
  bind_inv H. inversion H; subst r; clear H.
  exists a, a0. split; [exact Hrun|]. split; [exact Ha|].
  split; [|split; [exact Ha0|reflexivity]].
  destruct Ha as (Hc & _ & [Hlen Hrows] & _).
  destruct (Nat.eqb (length rows) 1).
  - destruct (sep_stderrs a) as [|row rest]; simpl in Ha0;
      inversion Ha0; subst.
    now inversion Hrows.
  - inversion Ha0; subst. rewrite length_map.
    now apply np_var_axis0_ddof1_length with (length rows).
Qed.

Lemma stationary_steps_length (n : nat) (rows : list (list F))
      (activities : list F) (steps : list Z)
      (s s' : list F * list F * list F) :
  (let '(cs, os, es) := s in
   length cs = n /\ length os = n /\ length es = n) ->
  stationary_steps rows activities steps s = Returned s' ->
  let '(cs, os, es) := s' in
  length cs = n /\ length os = n /\ length es = n.
Proof.
  unfold stationary_steps.
  apply for_each_invariant
    with (P := fun s : list F * list F * list F =>
                 let '(cs, os, es) := s in
                 length cs = n /\ length os = n /\ length es = n).
  intros [[cs os] es] [idx step] s1 _ (Hc & Ho & He) Hbody.
  unfold stationary_step in Hbody.
  destruct (pooled rows activities step) as [x y].
  bind_inv Hbody. inversion Hbody; subst s1.
  now rewrite !set_item_length.
Qed.

(** The result of the stationary-mean method: [samples] is [sepres] as
    it was allocated. *)
Lemma estimate_stationarymean (rows : list (list F))
      (minstep maxstep : Z) (r : CoefficientResult F) :
  estimate rows minstep maxstep "stationarymean" = Returned r ->
  forall steps, steps = np_arange minstep (maxstep + 1) ->
  exists cs os es,
    stationary_steps rows (np_mean_axis1 rows) steps
      (np_zeros (length steps), np_zeros (length steps),
       np_zeros (length steps)) = Returned (cs, os, es) /\
    length cs = length steps /\ length os = length steps /\
    length es = length steps /\
    r = {| steps := steps;
           coefficients := Vec cs;
           offsets := Vec os;
           stderrs := Vec es;
           trialactivies := np_mean_axis1 rows;
           samples :=
             Some (sepres_of steps (sep_zeros rows (length steps))) |}.
Proof.
  unfold estimate. simpl String.eqb. cbv iota. intros H steps ->.
  bind_inv H.
  set (steps := np_arange minstep (maxstep + 1)) in *.
  destruct a as [[cs os] es].
  inversion H; subst r; clear H.
  exists cs, os, es. split; [exact Ha|].
  apply stationary_steps_length with (n := length steps) in Ha.
  - intuition.
  - now rewrite !np_zeros_length.
Qed.

(** A method that is neither of the two leaves [fulres] unassigned. *)
Lemma estimate_other_method (rows : list (list F)) (minstep maxstep : Z)
      (method : string) :
  method <> "trialseparated"%string ->
  method <> "stationarymean"%string ->
  estimate rows minstep maxstep method
  = Raised (UnboundLocalError "fulres").
Proof.
  intros H1 H2. unfold estimate.
  apply String.eqb_neq in H1, H2. now rewrite H1, H2.
Qed.

Lemma set_item_nth_same {A} (xs : list A) (i : nat) (v : A) :
  (i < length xs)%nat -> nth_error (set_item xs i v) i = Some v.
Proof.
  revert i; induction xs as [|x xs IH]; intros [|i] Hi; simpl in *;
    try lia; auto.
  apply IH. lia.
Qed.

Lemma set_item_nth_other {A} (xs : list A) (i j : nat) (v : A) :
  i <> j -> nth_error (set_item xs i v) j = nth_error xs j.
Proof.
  revert i j; induction xs as [|x xs IH]; intros [|i] [|j] Hij; simpl;
    try congruence; auto.
Qed.

(** The loop of the stationary-mean method over the steps [l], numbered
    from [k]: entry [k + i] of each array receives the regression of step
    [i], and the entries below [k] are left as they were. *)
Lemma stationary_steps_entries (rows : list (list F)) (l : list Z) :
  forall (k : nat) (cs os es cs' os' es' : list F),
    for_each (stationary_step rows (np_mean_axis1 rows))
             (combine (seq k (length l)) l) (cs, os, es)
    = Returned (cs', os', es') ->
    (k + length l <= length cs)%nat ->
    (k + length l <= length os)%nat ->
    (k + length l <= length es)%nat ->
    (forall j, (j < k)%nat ->
               nth_error cs' j = nth_error cs j /\
               nth_error os' j = nth_error os j /\
               nth_error es' j = nth_error es j) /\
    (forall i step, nth_error l i = Some step ->
                    exists lr,
                      pooled_regression rows step = Returned lr /\
                      nth_error cs' (k + i) = Some (slope lr) /\
                      nth_error os' (k + i) = Some (intercept lr) /\
                      nth_error es' (k + i) = Some (stderr lr)).
Proof.
  induction l as [|step0 l IH]; intros k cs os es cs' os' es' Hrun Hc Ho He.
  - simpl in Hrun. inversion Hrun; subst. split; [auto|].
    intros [|i] step Hi; discriminate.
  - simpl in Hrun, Hc, Ho, He. bind_inv Hrun.
    destruct a as [[cs1 os1] es1].
    unfold stationary_step in Ha.
    pose proof (eq_refl : pooled_regression rows step0
                          = pooled_regression rows step0) as Hreg.
    unfold pooled_regression at 2 in Hreg.
    destruct (pooled rows (np_mean_axis1 rows) step0) as [x y].
    bind_inv Ha. inversion Ha; subst cs1 os1 es1; clear Ha.
    rewrite Ha0 in Hreg.
    destruct (IH (S k) _ _ _ _ _ _ Hrun) as [Hlow Hup];
      rewrite ?set_item_length; try lia.
    split.
    + intros j Hj.
      destruct (Hlow j) as (H1 & H2 & H3); [lia|].
      rewrite H1, H2, H3, !set_item_nth_other by lia. auto.
    + intros [|i] step Hi; simpl in Hi.
      * inversion Hi; subst step. exists a. rewrite Nat.add_0_r.
        destruct (Hlow k) as (H1 & H2 & H3); [lia|].
        rewrite H1, H2, H3, !set_item_nth_same by lia. auto.
      * destruct (Hup i step Hi) as (lr & Hlr & H1 & H2 & H3).
        exists lr. replace (k + S i)%nat with (S k + i)%nat by lia. auto.
Qed.

Lemma entry_set_item2_same (m : list (list F)) (nrows ncols t j : nat)
      (v : F) :
  shaped nrows ncols m -> (t < nrows)%nat -> (j < ncols)%nat ->
  entry (set_item2 m t j v) t j = Some v.
Proof.
  intros [Hlen Hrows] Ht Hj. unfold entry, set_item2.
  destruct (nth_error m t) as [row|] eqn:Hrow.
  - rewrite set_item_nth_same by lia.
    apply set_item_nth_same.
    apply nth_error_In in Hrow.
    rewrite (proj1 (Forall_forall _ _) Hrows row Hrow). exact Hj.
  - apply nth_error_None in Hrow. lia.
Qed.

Lemma entry_set_item2_other (m : list (list F)) (t j t' j' : nat)
      (v : F) :
  t' <> t \/ j' <> j ->
  entry (set_item2 m t j v) t' j' = entry m t' j'.
Proof.
  intros Hne. unfold entry, set_item2.
  destruct (nth_error m t) as [row|] eqn:Hrow; [|reflexivity].
  destruct (Nat.eq_dec t' t) as [-> | Ht].
  - assert (t < length m)%nat as Hlt
        by (apply nth_error_Some; congruence).
    rewrite set_item_nth_same, Hrow by exact Hlt.
    apply set_item_nth_other. destruct Hne; congruence.
  - now rewrite set_item_nth_other by congruence.
Qed.

(** The loop of one trial over the steps [l], numbered from [k]: entry
    [(tdx, k + i)] of the three matrices receives the regression of the
    trial at step [i]; the other rows, and row [tdx] below [k], are left
    as they were. *)
Lemma separate_steps_entries (numtrials numsteps tdx : nat)
      (trial : list F) (l : list Z) :
  (tdx < numtrials)%nat ->
  forall (k : nat) (s s' : sep_arrays F),
    for_each (separate_step tdx trial) (combine (seq k (length l)) l) s
    = Returned s' ->
    sep_shaped numtrials numsteps s ->
    (k + length l <= numsteps)%nat ->
    (forall t j, t <> tdx \/ (j < k)%nat ->
                 sep_entry s' t j = sep_entry s t j) /\
    (forall i step, nth_error l i = Some step ->
                    exists lr,
                      trial_regression trial step = Returned lr /\
                      sep_entry s' tdx (k + i)
                      = (Some (slope lr), Some (intercept lr),
                         Some (stderr lr))).
Proof.
  intros Htdx.
  induction l as [|step0 l IH]; intros k s s' Hrun Hs Hk.
  - simpl in Hrun. inversion Hrun; subst. split; [auto|].
    intros [|i] step Hi; discriminate.
  - simpl in Hrun, Hk. bind_inv Hrun.
    unfold separate_step in Ha. bind_inv Ha.
    inversion Ha; subst a; clear Ha.
    destruct Hs as (Hc & Ho & He & Hacts).
    match type of Hrun with
    | for_each _ _ ?s1 = _ =>
        assert (sep_shaped numtrials numsteps s1) as Hs1
            by (split; [|split; [|split]]; simpl;
                auto using set_item2_shaped);
        destruct (IH (S k) s1 s' Hrun Hs1) as [Hlow Hup]; [lia|]
    end.
    split.
    + intros t j Htj.
      assert (t <> tdx \/ j <> k) as Hne by lia.
      rewrite Hlow by lia.
      unfold sep_entry. simpl.
      now rewrite !entry_set_item2_other by exact Hne.
    + intros [|i] step Hi; simpl in Hi.
      * inversion Hi; subst step. exists a0. split; [exact Ha0|].
        rewrite Nat.add_0_r, Hlow by (right; lia).
        unfold sep_entry. simpl.
        now rewrite !(entry_set_item2_same (nrows := numtrials)
                                           (ncols := numsteps)) by (auto; lia).
      * destruct (Hup i step Hi) as (lr & Hlr & Hentry).
        exists lr. replace (k + S i)%nat with (S k + i)%nat by lia. auto.
Qed.

(** The loop over the trials [rows], numbered from [t0]: row [t0 + i] of
    the three matrices receives the regressions of trial [i] at every
    step; the rows below [t0] are left as they were. *)
Lemma separate_trials_entries (numtrials : nat) (steps : list Z)
      (rows : list (list F)) :
  forall (t0 : nat) (s s' : sep_arrays F),
    for_each (separate_trial steps) (combine (seq t0 (length rows)) rows) s
    = Returned s' ->
    sep_shaped numtrials (length steps) s ->
    (t0 + length rows <= numtrials)%nat ->
    (forall t j, (t < t0)%nat -> sep_entry s' t j = sep_entry s t j) /\
    (forall i trial idx step,
        nth_error rows i = Some trial ->
        nth_error steps idx = Some step ->
        exists lr,
          trial_regression trial step = Returned lr /\
          sep_entry s' (t0 + i) idx
          = (Some (slope lr), Some (intercept lr), Some (stderr lr))).
Proof.
  induction rows as [|trial0 rows IH]; intros t0 s s' Hrun Hs Ht0.
  - simpl in Hrun. inversion Hrun; subst. split; [auto|].
    intros [|i] trial idx step Hi; discriminate.
  - simpl in Hrun, Ht0. bind_inv Hrun.
    unfold separate_trial in Ha.
    destruct Hs as (Hc & Ho & He & Hacts).
    match type of Ha with
    | separate_steps _ _ _ ?s1 = _ =>
        assert (sep_shaped numtrials (length steps) s1) as Hs1
            by (split; [|split; [|split]]; simpl; auto;
                now rewrite set_item_length)
    end.
    pose proof (separate_steps_shaped _ _ _ Hs1 Ha) as Hsa.
    unfold separate_steps, enumerate in Ha.
    apply separate_steps_entries
      with (numtrials := numtrials) (numsteps := length steps) in Ha;
      auto; try lia.
    destruct Ha as [Hrest Hrow].
    destruct (IH (S t0) a s' Hrun Hsa) as [Hlow Hup]; [lia|].
    split.
    + intros t j Ht. rewrite Hlow by lia.
      rewrite Hrest by lia. reflexivity.
    + intros [|i] trial idx step Hi Hidx; simpl in Hi.
      * inversion Hi; subst trial.
        destruct (Hrow idx step Hidx) as (lr & Hlr & Hentry).
        exists lr. split; [exact Hlr|].
        rewrite Nat.add_0_r, Hlow by lia. exact Hentry.
      * destruct (Hup i trial idx step Hi Hidx) as (lr & Hlr & Hentry).
        exists lr. replace (t0 + S i)%nat with (S t0 + i)%nat by lia. auto.
Qed.

End CoefficientLemmas.

Section StepRange.
Context {F : Type}.

(** The two checks on the step range never raise on a matrix of
    trials. *)
Lemma check_steps_trials (ncols : nat) (rows : list (list F))
      (minstep maxstep : Z) :
  check_steps (Trials ncols rows) minstep maxstep
  = ((if maxstep <? minstep then [WarnMinstep] else [])
       ++ (if Z.of_nat ncols <? maxstep
           then [WarnMaxstep (Z.of_nat ncols - 2)] else []),
     Returned (if maxstep <? minstep then 1 else minstep,
               effective_maxstep ncols maxstep)).
Proof.
  unfold check_steps, effective_maxstep. simpl.
  destruct (maxstep <? minstep), (Z.of_nat ncols <? maxstep);
    simpl; reflexivity.
Qed.

(** The clamp as the source has it: beyond [datalength] the maximal
    step becomes [datalength - 2], up to [datalength] it is kept. *)
Lemma effective_maxstep_beyond (datalength : nat) (maxstep : Z) :
  Z.of_nat datalength < maxstep ->
  effective_maxstep datalength maxstep = Z.of_nat datalength - 2.
Proof.
  intros H. unfold effective_maxstep.
  apply Z.ltb_lt in H. now rewrite H.
Qed.

Lemma effective_maxstep_within (datalength : nat) (maxstep : Z) :
  maxstep <= Z.of_nat datalength ->
  effective_maxstep datalength maxstep = maxstep.
Proof.
  intros H. unfold effective_maxstep.
  apply Z.ltb_ge in H. now rewrite H.
Qed.

End StepRange.

Section EstimateReturns.
Context {F : Type} {ops : Float64Ops F} {scipy : SciPy F}.

Lemma returned_true {A} (o : outcome A) :
  returned o = true -> exists a, o = Returned a.
Proof. destruct o; simpl; [eauto | discriminate]. Qed.

Lemma separate_trials_returns (rows : list (list F)) (steps : list Z) :
  regressions_succeed rows steps "trialseparated" = true ->
  forall s, exists s', separate_trials rows steps s = Returned s'.
Proof.
  unfold regressions_succeed. simpl String.eqb. cbv iota.
  rewrite forallb_forall. intros Hok.
  apply for_each_returns. intros s [tdx trial] Hin.
  apply in_enumerate in Hin. destruct Hin as [_ Hin].
  specialize (Hok trial Hin). rewrite forallb_forall in Hok.
  apply for_each_returns. intros s0 [idx step] Hstep.
  apply in_enumerate in Hstep. destruct Hstep as [_ Hstep].
  unfold separate_step.
  destruct (returned_true _ (Hok step Hstep)) as (lr & ->).
  simpl. eauto.
Qed.

Lemma stationary_steps_returns (rows : list (list F)) (steps : list Z) :
  regressions_succeed rows steps "stationarymean" = true ->
  forall s, exists s',
      stationary_steps rows (np_mean_axis1 rows) steps s = Returned s'.
Proof.
  unfold regressions_succeed. simpl String.eqb. cbv iota.
  rewrite forallb_forall. intros Hok.
  apply for_each_returns. intros [[cs os] es] [idx step] Hstep.
  apply in_enumerate in Hstep. destruct Hstep as [_ Hstep].
  specialize (Hok step Hstep). unfold stationary_step.
  unfold pooled_regression in Hok.
  destruct (pooled rows (np_mean_axis1 rows) step) as [x y].
  destruct (returned_true _ Hok) as (lr & ->). simpl. eauto.
Qed.

(** With one of the two methods and regressions that return,
    [estimate] returns a result on the steps
    [minstep .. maxstep]. *)
Lemma estimate_returns (rows : list (list F)) (minstep maxstep : Z)
      (method : string) :
  method = "trialseparated"%string \/ method = "stationarymean"%string ->
  regressions_succeed rows (np_arange minstep (maxstep + 1)) method
  = true ->
  exists r, estimate rows minstep maxstep method = Returned r /\
            steps r = np_arange minstep (maxstep + 1).
Proof.
  intros [-> | ->] Hok; unfold estimate; simpl String.eqb; cbv iota.
  - set (steps := np_arange minstep (maxstep + 1)) in *.
    destruct (separate_trials_returns _ _ Hok
                (sep_zeros rows (length steps))) as (s & Hs).
    rewrite Hs. simpl bind.
    apply separate_trials_shaped
      with (numtrials := length rows) (numsteps := length steps) in Hs;
      [|apply sep_zeros_shaped].
    destruct Hs as (_ & _ & [Hlen _] & _).
    destruct (Nat.eqb (length rows) 1) eqn:E.
    + apply Nat.eqb_eq in E.
      destruct (sep_stderrs s) as [|row rest];
        [simpl in Hlen; lia|].
      simpl. eauto.
    + simpl. eauto.
  - set (steps := np_arange minstep (maxstep + 1)) in *.
    destruct (stationary_steps_returns _ _ Hok
                (np_zeros (length steps), np_zeros (length steps),
                 np_zeros (length steps))) as ([[cs os] es] & Hs).
    simpl sep_trialactivies. rewrite Hs. simpl. eauto.
Qed.

End EstimateReturns.

(* ================================================================== *)
(** * correlation_coefficients: the properties                          *)
(* ================================================================== *)

Section CoefficientProperties.
Context {F : Type} {ops : Float64Ops F} {scipy : SciPy F}.

(** C2. Under the trial-separated method the returned [coefficients[k]]
    is the arithmetic mean over the trials of
    [samples.coefficients[:, k]], and [offsets[k]] is the mean of
    [samples.offsets[:, k]], for every index [k] of [steps]; the two
    matrices of [samples] have one row per trial. *)
Theorem trialseparated_aggregates_are_trial_means
        (data : array_arg F) (minstep maxstep : Z) (bootstrap : bool)
        (log : list diagnostic) (r : CoefficientResult F) :
  correlation_coefficients data minstep maxstep "trialseparated" bootstrap
  = (log, Returned r) ->
  exists cs os s C O,
    coefficients r = Vec cs /\ offsets r = Vec os /\
    samples r = Some s /\
    coefficients s = Mat (length (steps r)) C /\
    offsets s = Mat (length (steps r)) O /\
    length C = num_trials data /\ length O = num_trials data /\
    forall k, (k < length (steps r))%nat ->
              nth_error cs k = Some (np_mean (column k C)) /\
              nth_error os k = Some (np_mean (column k O)).
Proof.
  intros H.
  apply correlation_coefficients_returned in H.
  destruct H as (ncols & rows & mi & ma & _ & _ & H & Hn).
  destruct (estimate_trialseparated _ _ _ H eq_refl)
    as (s & errs & _ & (Hc & Ho & _ & _) & _ & _ & ->).
  simpl. do 5 eexists. repeat (split; [reflexivity|]).
  unfold num_trials. rewrite <- Hn.
  split; [apply Hc|]. split; [apply Ho|].
  intros k Hk. split; eapply np_mean_axis0_nth; eauto.
Qed.

(** C8, as the code has it.  In every returned result [coefficients],
    [offsets] and [stderrs] have the length of [steps].  The nested
    [samples] has the same [steps] and no [samples] of its own, and its
    [coefficients], [offsets] and [stderrs] are matrices with one row per
    trial, each row of the length of [steps]. *)
Theorem coefficient_result_shapes
        (data : array_arg F) (minstep maxstep : Z) (method : string)
        (bootstrap : bool) (log : list diagnostic)
        (r : CoefficientResult F) :
  correlation_coefficients data minstep maxstep method bootstrap
  = (log, Returned r) ->
  len (coefficients r) = length (steps r) /\
  len (offsets r) = length (steps r) /\
  len (stderrs r) = length (steps r) /\
  exists s C O E,
    samples r = Some s /\ steps s = steps r /\ samples s = None /\
    coefficients s = Mat (length (steps r)) C /\
    offsets s = Mat (length (steps r)) O /\
    stderrs s = Mat (length (steps r)) E /\
    shaped (num_trials data) (length (steps r)) C /\
    shaped (num_trials data) (length (steps r)) O /\
    shaped (num_trials data) (length (steps r)) E.
Proof.
  intros H.
  apply correlation_coefficients_returned in H.
  destruct H as (ncols & rows & mi & ma & _ & _ & H & Hn).
  unfold num_trials. rewrite <- Hn.
  destruct (string_dec method "trialseparated") as [-> | Hts].
  - destruct (estimate_trialseparated _ _ _ H eq_refl)
      as (s & errs & _ & (Hc & Ho & He & _) & Herrs & _ & ->).
    simpl. rewrite !(np_mean_axis0_length (nrows := length rows)); auto.
    repeat (split; [auto|]).
    do 4 eexists. repeat (split; [reflexivity|]). auto.
  - destruct (string_dec method "stationarymean") as [-> | Hsm].
    + destruct (estimate_stationarymean _ _ _ H eq_refl)
        as (cs & os & es & _ & Hcs & Hos & Hes & ->).
      simpl. repeat (split; [auto|]).
      do 4 eexists. repeat (split; [reflexivity|]).
      repeat split; try apply np_zeros2_shaped.
    + rewrite estimate_other_method in H by assumption. discriminate.
Qed.

(** C9, as the code has it.  When the requested [minstep] exceeds the
    requested [maxstep], on data of one or two dimensions, the step
    checks do not raise: they print the warning and set [minstep] to 1;
    with one of the two methods and regressions that return, the call
    returns a result whose steps are [1 .. maxstep], [maxstep] being the
    value after its own check. *)
Theorem minstep_above_maxstep_is_reset
        (data : array_arg F) (minstep maxstep : Z) (method : string)
        (bootstrap : bool) (ncols : nat) (rows : list (list F)) :
  maxstep < minstep ->
  snd (check_shape data) = Returned (Trials ncols rows) ->
  method = "trialseparated"%string \/ method = "stationarymean"%string ->
  regressions_succeed rows
    (np_arange 1 (effective_maxstep ncols maxstep + 1)) method = true ->
  snd (check_steps (Trials ncols rows) minstep maxstep)
  = Returned (1, effective_maxstep ncols maxstep) /\
  In WarnMinstep
     (fst (correlation_coefficients data minstep maxstep method
             bootstrap)) /\
  exists r,
    snd (correlation_coefficients data minstep maxstep method bootstrap)
    = Returned r /\
    steps r = np_arange 1 (effective_maxstep ncols maxstep + 1).
Proof.
  intros Hlt Hshape Hmethod Hok.
  pose proof (check_steps_trials ncols rows minstep maxstep) as Hsteps.
  apply Z.ltb_lt in Hlt. rewrite Hlt in Hsteps.
  split; [now rewrite Hsteps|].
  destruct (estimate_returns rows 1 (effective_maxstep ncols maxstep)
              Hmethod Hok) as (r & Hr & Hs).
  unfold correlation_coefficients.
  destruct (check_shape data) as [log0 [d|e]]; simpl in Hshape;
    [|discriminate].
  inversion Hshape; subst d. rewrite Hsteps. simpl. split.
  - apply in_or_app. right. now left.
  - eauto.
Qed.

(** C10. With a [method] that is neither ['trialseparated'] nor
    ['stationarymean'] the call never returns a result: on data of one
    or two dimensions it passes the argument checks and fails at
    [return fulres], the variable being unassigned; on other data it has
    failed before. *)
Theorem unknown_method_never_returns
        (data : array_arg F) (minstep maxstep : Z) (method : string)
        (bootstrap : bool) :
  method <> "trialseparated"%string ->
  method <> "stationarymean"%string ->
  (forall r, snd (correlation_coefficients data minstep maxstep method
                    bootstrap) <> Returned r) /\
  snd (correlation_coefficients data minstep maxstep method bootstrap)
  = match data with
    | Array1 _ | Array2 _ _ => Raised (UnboundLocalError "fulres")
    | Array0 _ => Raised IndexError
    | ArrayN _ | NotArray => Raised SystemExit
    end.
Proof.
  intros Hts Hsm.
  assert (snd (correlation_coefficients data minstep maxstep method
                 bootstrap)
          = match data with
            | Array1 _ | Array2 _ _ => Raised (UnboundLocalError "fulres")
            | Array0 _ => Raised IndexError
            | ArrayN _ | NotArray => Raised SystemExit
            end) as H.
  { unfold correlation_coefficients.
    destruct data as [x|v|ncols rows|extra|]; simpl; auto.
    - unfold check_steps. simpl.
      now destruct (maxstep <? minstep).
    - rewrite check_steps_trials. simpl.
      now apply estimate_other_method.
    - rewrite check_steps_trials. simpl.
      now apply estimate_other_method. }
  split; [|exact H].
  intros r Hr. rewrite H in Hr. destruct data; discriminate.
Qed.

(** X1. Under the stationary-mean method every entry of the returned
    [coefficients], [offsets] and [stderrs] is the slope, the intercept
    and the standard error of the regression of the pooled pairs of its
    step. *)
Theorem stationarymean_is_pooled
        (data : array_arg F) (minstep maxstep : Z) (bootstrap : bool)
        (log : list diagnostic) (r : CoefficientResult F) :
  correlation_coefficients data minstep maxstep "stationarymean" bootstrap
  = (log, Returned r) ->
  exists cs os es,
    coefficients r = Vec cs /\ offsets r = Vec os /\ stderrs r = Vec es /\
    forall idx step,
      nth_error (steps r) idx = Some step ->
      exists lr,
        pooled_regression (trials_of data) step = Returned lr /\
        nth_error cs idx = Some (slope lr) /\
        nth_error os idx = Some (intercept lr) /\
        nth_error es idx = Some (stderr lr).
Proof.
  intros H.
  apply correlation_coefficients_returned in H.
  destruct H as (ncols & rows & mi & ma & _ & _ & H & Hn).
  rewrite <- Hn.
  destruct (estimate_stationarymean _ _ _ H eq_refl)
    as (cs & os & es & Hrun & Hcs & Hos & Hes & ->).
  simpl. exists cs, os, es.
  repeat (split; [reflexivity|]).
  intros idx step Hidx.
  unfold stationary_steps, enumerate in Hrun.
  apply stationary_steps_entries in Hrun;
    rewrite ?np_zeros_length; try lia.
  destruct Hrun as [_ Hrun]. apply (Hrun idx step Hidx).
Qed.

(** Under the stationary-mean method the matrices of [samples] are,
    for every input, the zeros they were allocated with. *)
Lemma stationarymean_samples_unfilled
      (data : array_arg F) (minstep maxstep : Z) (bootstrap : bool)
      (log : list diagnostic) (r : CoefficientResult F) :
  correlation_coefficients data minstep maxstep "stationarymean" bootstrap
  = (log, Returned r) ->
  exists s,
    samples r = Some s /\
    coefficients s
    = Mat (length (steps r))
          (np_zeros2 (num_trials data) (length (steps r))) /\
    offsets s
    = Mat (length (steps r))
          (np_zeros2 (num_trials data) (length (steps r))) /\
    stderrs s
    = Mat (length (steps r))
          (np_zeros2 (num_trials data) (length (steps r))).
Proof.
  intros H.
  apply correlation_coefficients_returned in H.
  destruct H as (ncols & rows & mi & ma & _ & _ & H & Hn).
  unfold num_trials. rewrite <- Hn.
  destruct (estimate_stationarymean _ _ _ H eq_refl)
    as (cs & os & es & _ & _ & _ & _ & ->).
  simpl. eexists. repeat split; reflexivity.
Qed.

(** X2. With exactly one trial the returned [stderrs] is the row
    [samples.stderrs[0]], the standard errors of the regressions of that
    trial. *)
Theorem single_trial_stderrs_are_fit_errors
        (data : array_arg F) (minstep maxstep : Z) (bootstrap : bool)
        (log : list diagnostic) (r : CoefficientResult F) :
  correlation_coefficients data minstep maxstep "trialseparated" bootstrap
  = (log, Returned r) ->
  num_trials data = 1%nat ->
  exists s E row,
    samples r = Some s /\
    stderrs s = Mat (length (steps r)) E /\
    index0 E = Returned row /\
    stderrs r = Vec row.
Proof.
  intros H Hone.
  apply correlation_coefficients_returned in H.
  destruct H as (ncols & rows & mi & ma & _ & _ & H & Hn).
  unfold num_trials in Hone. rewrite <- Hn in Hone.
  destruct (estimate_trialseparated _ _ _ H eq_refl)
    as (s & errs & _ & _ & _ & Herrs & ->).
  rewrite Hone in Herrs. simpl in Herrs.
  simpl. do 3 eexists. split; [reflexivity|]. split; [reflexivity|].
  split; [exact Herrs|reflexivity].
Qed.

(** X4. Under the trial-separated method entry [(tdx, idx)] of
    [samples.coefficients], [samples.offsets] and [samples.stderrs] is
    the slope, the intercept and the standard error of the regression of
    trial [tdx] at the step [steps[idx]]. *)
Theorem trialseparated_samples_are_trial_regressions
        (data : array_arg F) (minstep maxstep : Z) (bootstrap : bool)
        (log : list diagnostic) (r : CoefficientResult F) :
  correlation_coefficients data minstep maxstep "trialseparated" bootstrap
  = (log, Returned r) ->
  exists s C O E,
    samples r = Some s /\
    coefficients s = Mat (length (steps r)) C /\
    offsets s = Mat (length (steps r)) O /\
    stderrs s = Mat (length (steps r)) E /\
    forall tdx trial idx step,
      nth_error (trials_of data) tdx = Some trial ->
      nth_error (steps r) idx = Some step ->
      exists lr,
        trial_regression trial step = Returned lr /\
        entry C tdx idx = Some (slope lr) /\
        entry O tdx idx = Some (intercept lr) /\
        entry E tdx idx = Some (stderr lr).
Proof.
  intros H.
  apply correlation_coefficients_returned in H.
  destruct H as (ncols & rows & mi & ma & _ & _ & H & Hn).
  rewrite <- Hn.
  destruct (estimate_trialseparated _ _ _ H eq_refl)
    as (s & errs & Hrun & _ & _ & _ & ->).
  simpl. do 4 eexists. repeat (split; [reflexivity|]).
  intros tdx trial idx step Htrial Hstep.
  unfold separate_trials, enumerate in Hrun.
  apply separate_trials_entries with (numtrials := length rows) in Hrun;
    [|apply sep_zeros_shaped|lia].
  destruct Hrun as [_ Hrun].
  destruct (Hrun tdx trial idx step Htrial Hstep) as (lr & Hlr & Hentry).
  exists lr. split; [exact Hlr|].
  unfold sep_entry in Hentry. simpl in Hentry.
  inversion Hentry. auto.
Qed.

End CoefficientProperties.

(* ================================================================== *)
(** * correlation_fit: lemmas                                           *)
(* ================================================================== *)

Section FitLemmas.
Context {F : Type} {ops : Float64Ops F} {scipy : SciPy F}.

Lemma comparable_incl (S S' : list F) :
  incl S' S -> comparable S -> comparable S'.
Proof.
  intros Hincl [Hasym Hcot]. split.
  - intros a b Ha Hb. apply Hasym; auto.
  - intros a b c Ha Hb Hc. apply Hcot; auto.
Qed.

Lemma comparable_irrefl (S : list F) (a : F) :
  comparable S -> In a S -> flt a a = false.
Proof.
  intros [Hasym _] Ha. destruct (flt a a) eqn:E; auto.
  now rewrite (Hasym a a Ha Ha E) in E.
Qed.

(** [c < a] and [a < b] cannot hold when [c < b] does not. *)
Lemma comparable_trans (S : list F) (a b c : F) :
  comparable S -> In a S -> In b S -> In c S ->
  flt c a = true -> flt a b = true -> flt c b = true.
Proof.
  intros [Hasym Hcot] Ha Hb Hc Hca Hab.
  destruct (Hcot c a b Hc Ha Hb Hca) as [H | H]; auto.
  now rewrite (Hasym a b Ha Hb Hab) in H.
Qed.

(** When every row's attempt returns, the loop is the left fold of
    [keep_best] over the attempts. *)
Lemma for_each_fit_row (f : fitfunc_arg F) (input : option (fit_input F))
      (fitbnds : option (list (list F))) (rows : list (list F))
      (atts : list (attempt F)) :
  Forall2 (fun pars a => fit_attempt f input fitbnds pars = Returned a)
          rows atts ->
  forall best,
    for_each (fit_row f input fitbnds) rows best
    = Returned (fold_left keep_best atts best).
Proof.
  induction 1 as [|pars a rows atts Ha _ IH]; intros best; simpl; auto.
  unfold fit_row at 1. rewrite Ha. simpl. apply IH.
Qed.

(** The loop stops at the first row whose attempt raises. *)
Lemma for_each_fit_row_raises (f : fitfunc_arg F)
      (input : option (fit_input F)) (fitbnds : option (list (list F)))
      (before after : list (list F)) (pars : list F) (e : exn) :
  Forall (fun p => returned (fit_attempt f input fitbnds p) = true)
         before ->
  fit_attempt f input fitbnds pars = Raised e ->
  forall best,
    for_each (fit_row f input fitbnds) (before ++ pars :: after) best
    = Raised e.
Proof.
  intros Hbefore Hpars.
  induction Hbefore as [|p before Hp _ IH]; intros best; simpl.
  - unfold fit_row. now rewrite Hpars.
  - unfold fit_row at 1.
    destruct (fit_attempt f input fitbnds p) as [a|e']; [|discriminate].
    simpl. apply IH.
Qed.

(** The fold of [keep_best] from [ssresmin = np.inf], over attempts
    whose [ssres] lie below [np.inf], ends on the first attempt of
    minimal [ssres]: no attempt lies below it, and every attempt before
    it lies above it. *)
Lemma keep_best_first_minimum (atts : list (attempt F)) :
  comparable (map att_ssres atts) ->
  Forall (fun a => xlt (att_ssres a) Inf = true) atts ->
  atts <> [] ->
  exists j a,
    nth_error atts j = Some a /\
    fold_left keep_best atts no_champion = champion_of a /\
    (forall a', In a' atts -> flt (att_ssres a') (att_ssres a) = false) /\
    (forall i a', (i < j)%nat -> nth_error atts i = Some a' ->
                  flt (att_ssres a) (att_ssres a') = true).
Proof.
  induction atts as [|x l IH] using rev_ind; intros Hcmp Hfin Hne;
    [congruence|clear Hne].
  apply Forall_app in Hfin. destruct Hfin as [Hfin Hx0].
  apply Forall_inv in Hx0.
  rewrite fold_left_app. simpl.
  assert (In (att_ssres x) (map att_ssres (l ++ [x]))) as Hx
      by (apply in_map, in_or_app; right; now left).
  assert (forall a', In a' l ->
                     In (att_ssres a') (map att_ssres (l ++ [x]))) as Hl
      by (intros a' Ha'; apply in_map, in_or_app; now left).
  destruct l as [|y l'].
  - exists 0%nat, x. simpl. unfold keep_best. simpl ssresmin.
    rewrite Hx0. repeat split; auto.
    + intros a' [<- | []]. eapply comparable_irrefl; eauto.
    + intros i a' Hi. lia.
  - destruct IH as (j & a & Hj & Hfold & Hmin & Hfirst);
      [|exact Hfin|discriminate|].
    { apply comparable_incl with (2 := Hcmp).
      intros s Hs. rewrite map_app. apply in_or_app. now left. }
    set (l := y :: l') in *.
    assert (In a l) as Ha by (eapply nth_error_In; eauto).
    assert (j < length l)%nat as Hjl
        by (apply nth_error_Some; congruence).
    rewrite Hfold. unfold keep_best. simpl xlt.
    destruct (flt (att_ssres x) (att_ssres a)) eqn:Hxa.
    + exists (length l), x. split; [|split; [|split]].
      * rewrite nth_error_app2, Nat.sub_diag; auto.
      * reflexivity.
      * intros a' Ha'. apply in_app_or in Ha'.
        destruct Ha' as [Ha' | [<- | []]].
        -- destruct (flt (att_ssres a') (att_ssres x)) eqn:E; auto.
           rewrite <- (Hmin a' Ha').
           symmetry. eapply comparable_trans with (a := att_ssres x); eauto.
        -- eapply comparable_irrefl; eauto.
      * intros i a' Hi Ha'. rewrite nth_error_app1 in Ha' by exact Hi.
        apply nth_error_In in Ha'.
        destruct Hcmp as [_ Hcot].
        destruct (Hcot (att_ssres x) (att_ssres a) (att_ssres a'))
          as [H | H]; auto.
        now rewrite (Hmin a' Ha') in H.
    + exists j, a. split; [|split; [|split]].
      * rewrite nth_error_app1; auto.
      * reflexivity.
      * intros a' Ha'. apply in_app_or in Ha'.
        destruct Ha' as [Ha' | [<- | []]]; auto.
      * intros i a' Hi Ha'. apply Hfirst with i; auto.
        rewrite nth_error_app1 in Ha' by lia. exact Ha'.
Qed.

(** What a call that returns has gone through. *)
Lemma correlation_fit_returned (data : fit_data F)
      (fitfunc : fitfunc_arg F) (fitpars : option (pars_array F))
      (fitbnds : option (list (list F))) (r : CorrelationResult F) :
  correlation_fit data fitfunc fitpars fitbnds = Returned r ->
  exists best popt pcov tau,
    fulpopt best = Some popt /\ fulpcov best = Some pcov /\
    index0 popt = Returned tau /\
    r = {| tau := tau;
           mre := np_exp (fdiv (of_Z (- 1)) tau);
           fitfunc := doc_of_arg (resolve fitfunc);
           popt := popt;
           pcov := pcov;
           ssres := ssresmin best |}.
Proof.
  unfold correlation_fit. intros H.
  bind_inv H. bind_inv H. bind_inv H.
  unfold result_of in H.
  destruct (fulpopt a1) as [popt|] eqn:Hpopt; [|discriminate].
  destruct (fulpcov a1) as [pcov|] eqn:Hpcov; [|discriminate].
  bind_inv H. inversion H; subst r.
  exists a1, popt, pcov, a2. auto.
Qed.

End FitLemmas.

(* ================================================================== *)
(** * correlation_fit: the properties                                   *)
(* ================================================================== *)

Section FitProperties.
Context {F : Type} {ops : Float64Ops F} {scipy : SciPy F}.

(** An attempt that is the fit of its row is what the body of the loop
    computes from this row, when the bounds, if any, have their two
    rows. *)
Lemma fitted_from_attempt (f : model_function F) (input : fit_input F)
      (fitbnds : option (list (list F))) (pars : list F)
      (a : attempt F) :
  (forall b, fitbnds = Some b -> (2 <= length b)%nat) ->
  fitted_from f input fitbnds pars a ->
  fit_attempt (Function f) (Some input) fitbnds pars = Returned a.
Proof.
  intros Hb (model & residuals & Hfit & Hmodel & Hres & Hss).
  unfold fit_attempt.
  assert (Hbnds :
    match fitbnds with
    | None => Returned Unbounded
    | Some b => if Nat.ltb (length b) 2 then Raised IndexError
                else Returned (Bounded b)
    end
    = Returned (match fitbnds with
                | None => Unbounded
                | Some b => Bounded b
                end)).
  { destruct fitbnds as [b|]; [|reflexivity].
    specialize (Hb b eq_refl).
    destruct (Nat.ltb (length b) 2) eqn:E; [|reflexivity].
    apply Nat.ltb_lt in E. lia. }
  rewrite Hbnds. simpl. rewrite Hfit. simpl.
  rewrite Hmodel. simpl. rewrite Hres. simpl.
  destruct a as [p c s]. simpl in *. now subst s.
Qed.

(** C1. Take a call whose data is read, whose model is a function,
    whose grid of starting parameters has one row or more and whose
    bounds, if any, have their two rows.  Let the optimization of every
    row succeed: [curve_fit] returns a non-empty [popt] from the row,
    the model function evaluates at this [popt], and the sum of the
    squares of the residuals between the coefficients and the model is
    a number below [np.inf] (so neither a NaN nor infinite), these sums
    being compared by [<] as an order.  Then the call returns, and the
    [ssres] returned is the minimum of these sums over the rows, with
    the [popt] and [pcov] that [curve_fit] returned for the first row
    that reaches this minimum: no row lies below it, and every row
    before it lies strictly above it. *)
Theorem correlation_fit_returns_first_minimum
        (data : fit_data F) (fitfunc : fitfunc_arg F)
        (fitpars : option (pars_array F))
        (fitbnds : option (list (list F)))
        (f : model_function F) (input : fit_input F)
        (rows : list (list F)) (atts : list (attempt F)) :
  resolve fitfunc = Function f ->
  read_data data = Returned (Some input) ->
  starting_points (resolve fitfunc) fitpars = Returned rows ->
  rows <> [] ->
  (forall b, bounds_of (resolve fitfunc) fitbnds = Some b ->
             (2 <= length b)%nat) ->
  Forall2 (fitted_from f input (bounds_of (resolve fitfunc) fitbnds))
          rows atts ->
  Forall (fun a => att_popt a <> []) atts ->
  Forall (fun a => xlt (att_ssres a) Inf = true) atts ->
  comparable (map att_ssres atts) ->
  exists r j pars a model residuals,
    correlation_fit data fitfunc fitpars fitbnds = Returned r /\
    nth_error rows j = Some pars /\
    nth_error atts j = Some a /\
    curve_fit f (fit_steps input) (fit_coefficients input) pars
              (match bounds_of (resolve fitfunc) fitbnds with
               | None => Unbounded
               | Some b => Bounded b
               end)
              100000 (fit_stderrs input)
    = Returned (popt r, pcov r) /\
    call_fitfunc f (fit_steps input) (popt r) = Returned model /\
    nd_sub (fit_coefficients input) model = Returned residuals /\
    ssres r = Finite (np_sum_sq residuals) /\
    att_ssres a = np_sum_sq residuals /\
    (forall a', In a' atts ->
                flt (att_ssres a') (np_sum_sq residuals) = false) /\
    (forall i a', (i < j)%nat -> nth_error atts i = Some a' ->
                  flt (np_sum_sq residuals) (att_ssres a') = true).
Proof.
  intros Hf Hdata Hrows Hne Hbnds Hfits Hpopt Hfin Hcmp.
  assert (atts <> []) as Hne'.
  { intros ->. apply Hne. now inversion Hfits. }
  assert (Hatts :
    Forall2 (fun pars a =>
               fit_attempt (resolve fitfunc) (Some input)
                           (bounds_of (resolve fitfunc) fitbnds) pars
               = Returned a)
            rows atts).
  { eapply Forall2_impl; [|exact Hfits].
    intros pars a Hfit.
    set (bnds := bounds_of (resolve fitfunc) fitbnds) in *.
    rewrite Hf. now apply fitted_from_attempt. }
  destruct (keep_best_first_minimum Hcmp Hfin Hne')
    as (j & a & Hj & Hfold & Hmin & Hfirst).
  assert (exists t, index0 (att_popt a) = Returned t) as (t & Ht).
  { apply nth_error_In in Hj.
    pose proof (proj1 (Forall_forall _ _) Hpopt a Hj) as Ha.
    simpl in Ha. destruct (att_popt a); [congruence | simpl; eauto]. }
  assert (exists pars, nth_error rows j = Some pars /\
                       fitted_from f input
                         (bounds_of (resolve fitfunc) fitbnds) pars a)
    as (pars & Hpars & Hfit).
  { clear - Hfits Hj. revert j Hj.
    induction Hfits as [|p b rows atts Hpb _ IH]; intros [|j] Hj;
      simpl in *; try discriminate.
    - inversion Hj; subst. eauto.
    - apply IH. exact Hj. }
  destruct Hfit as (model & residuals & Hcurve & Hmodel & Hres & Hss).
  eexists _, j, pars, a, model, residuals. split.
  - unfold correlation_fit. rewrite Hdata, Hrows. simpl.
    rewrite for_each_fit_row with (atts := atts) by exact Hatts.
    rewrite Hfold.
    unfold result_of. simpl. rewrite Ht. reflexivity.
  - simpl. rewrite <- Hss. auto 12.
Qed.

(** C5, as the code has it.  The loop has no handler: when the attempt
    of a row raises, after rows whose attempts returned, the call raises
    the same exception, whatever rows come after it. *)
Theorem failing_row_aborts_fit
        (data : fit_data F) (fitfunc : fitfunc_arg F)
        (fitpars : option (pars_array F))
        (fitbnds : option (list (list F)))
        (input : option (fit_input F))
        (before after : list (list F)) (pars : list F) (e : exn) :
  read_data data = Returned input ->
  starting_points (resolve fitfunc) fitpars
  = Returned (before ++ pars :: after) ->
  Forall (fun p =>
            returned (fit_attempt (resolve fitfunc) input
                        (bounds_of (resolve fitfunc) fitbnds) p) = true)
         before ->
  fit_attempt (resolve fitfunc) input
              (bounds_of (resolve fitfunc) fitbnds) pars = Raised e ->
  correlation_fit data fitfunc fitpars fitbnds = Raised e.
Proof.
  intros Hdata Hrows Hbefore Hpars.
  unfold correlation_fit. rewrite Hdata, Hrows. simpl.
  apply bind_raised. now apply for_each_fit_row_raises.
Qed.

(** C7. In every returned result [tau] is the first entry of [popt], the
    parameters kept by the loop, and [mre] is [exp(-1/tau)]: the
    exponential of [-deltat / tau] with [deltat = 1]. *)
Theorem result_tau_and_mre
        (data : fit_data F) (fitfunc : fitfunc_arg F)
        (fitpars : option (pars_array F))
        (fitbnds : option (list (list F))) (r : CorrelationResult F) :
  correlation_fit data fitfunc fitpars fitbnds = Returned r ->
  index0 (popt r) = Returned (tau r) /\
  mre r = np_exp (fdiv (of_Z (- 1)) (tau r)).
Proof.
  intros H. apply correlation_fit_returned in H.
  destruct H as (best & popt' & pcov' & t & _ & _ & Ht & ->).
  simpl. auto.
Qed.

(** When the residual sum of no row is below [np.inf] (each of them is
    a NaN or infinite) no iteration assigns [fulpopt], and the
    construction of the result raises. *)
Lemma no_sum_below_inf_leaves_fulpopt_unbound
      (data : fit_data F) (fitfunc : fitfunc_arg F)
      (fitpars : option (pars_array F))
      (fitbnds : option (list (list F)))
      (input : option (fit_input F)) (rows : list (list F))
      (atts : list (attempt F)) :
  read_data data = Returned input ->
  starting_points (resolve fitfunc) fitpars = Returned rows ->
  Forall2 (fun pars a =>
             fit_attempt (resolve fitfunc) input
                         (bounds_of (resolve fitfunc) fitbnds) pars
             = Returned a)
          rows atts ->
  Forall (fun a => xlt (att_ssres a) Inf = false) atts ->
  correlation_fit data fitfunc fitpars fitbnds
  = Raised (UnboundLocalError "fulpopt").
Proof.
  intros Hdata Hrows Hatts Hinf.
  unfold correlation_fit. rewrite Hdata, Hrows. simpl.
  rewrite for_each_fit_row with (atts := atts) by exact Hatts.
  assert (Hfold : fold_left keep_best atts no_champion = no_champion).
  { clear Hatts. induction Hinf as [|a atts Ha _ IH]; [reflexivity|].
    simpl. unfold keep_best at 2. simpl ssresmin. rewrite Ha. exact IH. }
  rewrite Hfold. reflexivity.
Qed.

End FitProperties.

(* ================================================================== *)
(** * The rational interpretation: order, and the properties at work    *)
(* ================================================================== *)

Section RationalOrder.
Import Rational.

Lemma lt_bool_iff (a b : Q) : lt_bool a b = true <-> (a < b)%Q.
Proof.
  unfold lt_bool. rewrite Qlt_alt.
  destruct (a ?= b)%Q; split; congruence.
Qed.

Lemma lt_bool_false_iff (a b : Q) : lt_bool a b = false <-> (b <= a)%Q.
Proof.
  rewrite <- Bool.not_true_iff_false, lt_bool_iff. split.
  - apply Qnot_lt_le.
  - apply Qle_not_lt.
Qed.

(** The order of the rationals compares every list of values. *)
Lemma rational_comparable (S : list Q) : comparable S.
Proof.
  split; simpl.
  - intros a b _ _ Hab. apply lt_bool_false_iff.
    apply lt_bool_iff in Hab. now apply Qlt_le_weak.
  - intros a b c _ _ _ Hab. apply lt_bool_iff in Hab.
    destruct (Qlt_le_dec a c) as [Hac | Hca].
    + left. now apply lt_bool_iff.
    + right. apply lt_bool_iff. now apply Qle_lt_trans with a.
Qed.

End RationalOrder.

Section RationalExamples.
Import Rational.
Local Open Scope Q_scope.

(** C3 at work: a requested [maxstep] equal to the [datalength] of 6
    passes the check unchanged, above [datalength - 2 = 4]; the steps
    then reach 6, where both slices of a trial are empty. *)
Lemma maxstep_equal_to_datalength_is_kept :
  check_steps (Trials 6 [trial]) 1 6 = ([], Returned (1, 6)%Z) /\
  effective_maxstep 6 6 = 6%Z /\
  np_arange 1 (6 + 1) = [1; 2; 3; 4; 5; 6]%Z /\
  py_slice trial 0 (- 6) = [] /\ py_slice_from trial 6 = [].
Proof. repeat split. Qed.

(** The same call fails in the regression of the empty slices of step
    6, and with [maxstep = 7] it is clamped to 4 and returns. *)
Lemma maxstep_equal_to_datalength_fails :
  snd (correlation_coefficients (Array1 trial) 1 6 "trialseparated" true)
  = Raised ValueError /\
  exists r,
    snd (correlation_coefficients (Array1 trial) 1 7 "trialseparated" true)
    = Returned r /\ steps r = [1; 2; 3; 4]%Z.
Proof.
  split; [vm_compute; reflexivity|].
  eexists. split; [vm_compute; reflexivity|]. reflexivity.
Qed.

(** C4 at work: on an array of three rows the assignments give
    [stderrs] the value [np.ones], not the third row, and the block then
    fails: the call raises the [AttributeError] of the handler. *)
Lemma third_row_is_not_read :
  steps_and_coefficients decay_with_errors
  = Returned {| fit_steps := [1; 2; 3; 4];
                fit_coefficients := Vec [0.9; 0.8; 0.7; 0.6];
                fit_stderrs := Vec [1; 1; 1; 1] |} /\
  guess_format_body (Array2 4 decay_with_errors) = Raised TypeError /\
  correlation_fit (Guess (Array2 4 decay_with_errors))
                  (Function f_exponential) None None
  = Raised AttributeError.
Proof. repeat split. Qed.

(** C5 as stated fails: the start of the first of two rows lies below
    the bound of [tau], so its optimisation raises; the second row alone
    succeeds; and the call raises instead of returning the fit of the
    second row. *)
Lemma failed_row_is_not_skipped :
  correlation_fit (Guess (Array2 4 decay)) (Function f_exponential)
                  (Some (Pars2 [[1; 1]; [10; 1]])) (Some decay_bounds)
  = Raised ValueError /\
  returned (correlation_fit (Guess (Array2 4 decay))
                            (Function f_exponential)
                            (Some (Pars2 [[10; 1]])) (Some decay_bounds))
  = true.
Proof. split; vm_compute; reflexivity. Qed.

(** C6 at work: under the stationary-mean method the matrices of
    [samples] are the zeros they were allocated with, while the
    trial-separated method fills them on the same data. *)
Lemma stationarymean_samples_are_zeros :
  exists r s r' s',
    snd (correlation_coefficients (Array2 6 two_trials) 1 2
                                  "stationarymean" true) = Returned r /\
    samples r = Some s /\
    coefficients s = Mat 2 [[0; 0]; [0; 0]] /\
    offsets s = Mat 2 [[0; 0]; [0; 0]] /\
    stderrs s = Mat 2 [[0; 0]; [0; 0]] /\
    coefficients r = Vec [1237 # 4609; 505 # 799] /\
    snd (correlation_coefficients (Array2 6 two_trials) 1 2
                                  "trialseparated" true) = Returned r' /\
    samples r' = Some s' /\
    coefficients s' = Mat 2 [[0.7; 22 # 35]; [-9 # 7; 1]].
Proof.
  do 4 eexists.
  split; [vm_compute; reflexivity|]. do 5 (split; [reflexivity|]).
  split; [vm_compute; reflexivity|]. split; reflexivity.
Qed.

(** C8 as stated fails: for one trial and two steps the nested
    [samples] has [len(coefficients) = 1], the number of trials, and
    [len(steps) = 2]. *)
Lemma samples_length_is_trial_count :
  exists r s,
    snd (correlation_coefficients (Array1 trial) 1 2 "trialseparated"
                                  true) = Returned r /\
    samples r = Some s /\
    len (coefficients s) = 1%nat /\ length (steps s) = 2%nat /\
    len (coefficients s) <> length (steps s).
Proof.
  do 2 eexists. split; [vm_compute; reflexivity|].
  split; [reflexivity|]. simpl. repeat split. lia.
Qed.

(** C9 as stated fails: with six time points, [minstep = 10] and
    [maxstep = 1000], [maxstep] is clamped to 4 and [minstep], now above
    it, stays 10 without a warning on it; the result has no step. *)
Lemma minstep_above_clamped_maxstep_is_kept :
  check_steps (Trials 6 [trial]) 10 1000
  = ([WarnMaxstep 4], Returned (10, 4)%Z) /\
  exists r,
    correlation_coefficients (Array1 trial) 10 1000 "trialseparated" true
    = ([WarnOneTrial; WarnMaxstep 4], Returned r) /\
    steps r = [].
Proof.
  split; [reflexivity|].
  eexists. split; [vm_compute; reflexivity|]. reflexivity.
Qed.

(** A tie: a model function that ignores its parameters gives every
    row the same residual sum, and the first of three rows is kept. *)
Lemma equal_residuals_keep_first_row :
  exists r,
    correlation_fit
      (Guess (Array2 4 decay))
      (Function (custom "0" (fun steps _ => Returned (map (fun _ => 0) steps))))
      (Some (Pars2 [[10; 1]; [20; 2]; [30; 3]])) None = Returned r /\
    popt r = [10; 1] /\ tau r = 10.
Proof.
  eexists. split; [vm_compute; reflexivity|]. split; reflexivity.
Qed.

End RationalExamples.

(* ================================================================== *)
(** * The properties at concrete inputs                                 *)
(* ================================================================== *)

(** Proves the first conjunct of the goal with [tac] and keeps it as a
    hypothesis for what follows. *)
Ltac premise tac :=
  match goal with
  | |- ?A /\ _ =>
      let H := fresh "Hpremise" in
      assert (H : A) by tac; split; [exact H|]
  end.

Section AtWork.
Import Rational.
Local Open Scope Q_scope.

(** Two starting rows on the decay, within bounds: both fits return,
    and the second row, of the smaller residual sum, is kept. *)
Lemma correlation_fit_returns_first_minimum_at_work :
  exists input atts,
    resolve (F:=Q) (Name "exponential") = Function f_exponential /\
    read_data (Guess (Array2 4 decay)) = Returned (Some input) /\
    starting_points (resolve (Name "exponential"))
                    (Some (Pars2 [[20; 1]; [10; 1]]))
    = Returned [[20; 1]; [10; 1]] /\
    [[20; 1]; [10; 1]] <> [] /\
    (forall b,
        bounds_of (resolve (Name "exponential")) (Some decay_bounds)
        = Some b -> (2 <= length b)%nat) /\
    Forall2 (fitted_from f_exponential input
               (bounds_of (resolve (Name "exponential"))
                          (Some decay_bounds)))
            [[20; 1]; [10; 1]] atts /\
    Forall (fun a => att_popt a <> []) atts /\
    Forall (fun a => xlt (att_ssres a) Inf = true) atts /\
    comparable (map att_ssres atts) /\
    exists r j pars a model residuals,
      correlation_fit (Guess (Array2 4 decay)) (Name "exponential")
                      (Some (Pars2 [[20; 1]; [10; 1]]))
                      (Some decay_bounds)
      = Returned r /\
      nth_error [[20; 1]; [10; 1]] j = Some pars /\
      nth_error atts j = Some a /\
      curve_fit f_exponential (fit_steps input) (fit_coefficients input)
                pars
                (match bounds_of (resolve (Name "exponential"))
                                 (Some decay_bounds) with
                 | None => Unbounded
                 | Some b => Bounded b
                 end)
                100000 (fit_stderrs input)
      = Returned (popt r, pcov r) /\
      call_fitfunc f_exponential (fit_steps input) (popt r)
      = Returned model /\
      nd_sub (fit_coefficients input) model = Returned residuals /\
      ssres r = Finite (np_sum_sq residuals) /\
      att_ssres a = np_sum_sq residuals /\
      (forall a', In a' atts ->
                  flt (att_ssres a') (np_sum_sq residuals) = false) /\
      (forall i a', (i < j)%nat -> nth_error atts i = Some a' ->
                    flt (np_sum_sq residuals) (att_ssres a') = true).
Proof.
  exists {| fit_steps := [1; 2; 3; 4];
            fit_coefficients := Vec [0.9; 0.8; 0.7; 0.6];
            fit_stderrs := Vec [1; 1; 1; 1] |}.
  eexists [ {| att_popt := _; att_pcov := _; att_ssres := _ |};
            {| att_popt := _; att_pcov := _; att_ssres := _ |} ].
  premise ltac:(reflexivity).
  premise ltac:(vm_compute; reflexivity).
  premise ltac:(reflexivity).
  premise ltac:(discriminate).
  premise ltac:(intros b Hb; inversion Hb; simpl; lia).
  premise ltac:(repeat (constructor 2;
                        [eexists _, _;
                         repeat (split; [vm_compute; reflexivity|]);
                         vm_compute; reflexivity|]);
                constructor).
  premise ltac:(repeat (constructor; [discriminate|]); constructor).
  premise ltac:(repeat (constructor; [reflexivity|]); constructor).
  premise ltac:(apply rational_comparable).
  eapply correlation_fit_returns_first_minimum;
    [exact Hpremise | exact Hpremise0 | exact Hpremise1
    | exact Hpremise2 | exact Hpremise3 | exact Hpremise4
    | exact Hpremise5 | exact Hpremise6 | exact Hpremise7].
Defined.

(** The aggregates of two trials are the means of the two rows of
    [samples], step by step. *)
Lemma trialseparated_aggregates_at_work :
  exists log r,
    correlation_coefficients (Array2 6 two_trials) 1 2 "trialseparated"
                             true = (log, Returned r) /\
    exists cs os s C O,
      coefficients r = Vec cs /\ offsets r = Vec os /\
      samples r = Some s /\
      coefficients s = Mat (length (steps r)) C /\
      offsets s = Mat (length (steps r)) O /\
      length C = num_trials (Array2 6 two_trials) /\
      length O = num_trials (Array2 6 two_trials) /\
      forall k, (k < length (steps r))%nat ->
                nth_error cs k = Some (np_mean (column k C)) /\
                nth_error os k = Some (np_mean (column k O)).
Proof.
  eexists _, _.
  premise ltac:(vm_compute; reflexivity).
  eapply trialseparated_aggregates_are_trial_means; exact Hpremise.
Defined.

(** A grid of three rows of which the second starts outside the
    bounds. *)
Lemma failing_row_aborts_fit_at_work :
  exists input,
    read_data (Guess (Array2 4 decay)) = Returned input /\
    starting_points (resolve (Function f_exponential))
                    (Some (Pars2 [[20; 1]; [1; 1]; [10; 1]]))
    = Returned ([[20; 1]] ++ [1; 1] :: [[10; 1]]) /\
    Forall (fun p =>
              returned (fit_attempt (resolve (Function f_exponential))
                          input
                          (bounds_of (resolve (Function f_exponential))
                                     (Some decay_bounds)) p) = true)
           [[20; 1]] /\
    fit_attempt (resolve (Function f_exponential)) input
                (bounds_of (resolve (Function f_exponential))
                           (Some decay_bounds))
                [1; 1] = Raised ValueError /\
    correlation_fit (Guess (Array2 4 decay)) (Function f_exponential)
                    (Some (Pars2 [[20; 1]; [1; 1]; [10; 1]]))
                    (Some decay_bounds)
    = Raised ValueError.
Proof.
  eexists.
  premise ltac:(vm_compute; reflexivity).
  premise ltac:(reflexivity).
  premise ltac:(repeat (constructor; [vm_compute; reflexivity|]);
                constructor).
  premise ltac:(vm_compute; reflexivity).
  eapply failing_row_aborts_fit;
    [exact Hpremise | exact Hpremise0 | exact Hpremise1 | exact Hpremise2].
Defined.

(** The default fit of the decay: [tau] is 20, the first default
    parameter, which the optimiser of the interpretation keeps. *)
Lemma result_tau_and_mre_at_work :
  exists r,
    correlation_fit (Guess (Array1 [0.9; 0.8; 0.7; 0.6]))
                    (Function f_exponential) None None = Returned r /\
    index0 (popt r) = Returned (tau r) /\
    mre r = np_exp (fdiv (of_Z (- 1)) (tau r)).
Proof.
  eexists.
  premise ltac:(vm_compute; reflexivity).
  exact (result_tau_and_mre
           (Guess (Array1 [0.9; 0.8; 0.7; 0.6])) (Function f_exponential)
           None None Hpremise).
Defined.

(** Two trials under the stationary-mean method. *)
Lemma coefficient_result_shapes_at_work :
  exists log r,
    correlation_coefficients (Array2 6 two_trials) 1 2 "stationarymean"
                             true = (log, Returned r) /\
    len (coefficients r) = length (steps r) /\
    len (offsets r) = length (steps r) /\
    len (stderrs r) = length (steps r) /\
    exists s C O E,
      samples r = Some s /\ steps s = steps r /\ samples s = None /\
      coefficients s = Mat (length (steps r)) C /\
      offsets s = Mat (length (steps r)) O /\
      stderrs s = Mat (length (steps r)) E /\
      shaped (num_trials (Array2 6 two_trials)) (length (steps r)) C /\
      shaped (num_trials (Array2 6 two_trials)) (length (steps r)) O /\
      shaped (num_trials (Array2 6 two_trials)) (length (steps r)) E.
Proof.
  eexists _, _.
  premise ltac:(vm_compute; reflexivity).
  eapply coefficient_result_shapes; exact Hpremise.
Defined.

(** [minstep = 5] above [maxstep = 2] on one trial. *)
Lemma minstep_above_maxstep_is_reset_at_work :
  (2 < 5)%Z /\
  snd (check_shape (Array1 trial)) = Returned (Trials 6 [trial]) /\
  ("trialseparated" = "trialseparated" \/
   "trialseparated" = "stationarymean")%string /\
  regressions_succeed [trial]
    (np_arange 1 (effective_maxstep 6 2 + 1)) "trialseparated" = true /\
  snd (check_steps (Trials 6 [trial]) 5 2)
  = Returned (1%Z, effective_maxstep 6 2) /\
  In WarnMinstep
     (fst (correlation_coefficients (Array1 trial) 5 2 "trialseparated"
             true)) /\
  exists r,
    snd (correlation_coefficients (Array1 trial) 5 2 "trialseparated"
           true) = Returned r /\
    steps r = np_arange 1 (effective_maxstep 6 2 + 1).
Proof.
  premise ltac:(lia).
  premise ltac:(reflexivity).
  premise ltac:(left; reflexivity).
  premise ltac:(vm_compute; reflexivity).
  eapply minstep_above_maxstep_is_reset;
    [exact Hpremise | exact Hpremise0 | exact Hpremise1 | exact Hpremise2].
Defined.

(** The method ['bootstrap'] on one trial. *)
Lemma unknown_method_never_returns_at_work :
  "bootstrap"%string <> "trialseparated"%string /\
  "bootstrap"%string <> "stationarymean"%string /\
  (forall r, snd (correlation_coefficients (Array1 trial) 1 2 "bootstrap"
                    true) <> Returned r) /\
  snd (correlation_coefficients (Array1 trial) 1 2 "bootstrap" true)
  = Raised (UnboundLocalError "fulres").
Proof.
  premise ltac:(discriminate).
  premise ltac:(discriminate).
  exact (unknown_method_never_returns
           (Array1 trial) 1 2 true Hpremise Hpremise0).
Defined.

(** Two trials under the stationary-mean method, entry by entry. *)
Lemma stationarymean_is_pooled_at_work :
  exists log r,
    correlation_coefficients (Array2 6 two_trials) 1 2 "stationarymean"
                             true = (log, Returned r) /\
    exists cs os es,
      coefficients r = Vec cs /\ offsets r = Vec os /\
      stderrs r = Vec es /\
      forall idx step,
        nth_error (steps r) idx = Some step ->
        exists lr,
          pooled_regression (trials_of (Array2 6 two_trials)) step
          = Returned lr /\
          nth_error cs idx = Some (slope lr) /\
          nth_error os idx = Some (intercept lr) /\
          nth_error es idx = Some (stderr lr).
Proof.
  eexists _, _.
  premise ltac:(vm_compute; reflexivity).
  eapply stationarymean_is_pooled; exact Hpremise.
Defined.

(** One trial: the aggregate standard errors are those of its fits. *)
Lemma single_trial_stderrs_at_work :
  exists log r,
    correlation_coefficients (Array1 trial) 1 2 "trialseparated" true
    = (log, Returned r) /\
    num_trials (Array1 trial) = 1%nat /\
    exists s E row,
      samples r = Some s /\
      stderrs s = Mat (length (steps r)) E /\
      index0 E = Returned row /\
      stderrs r = Vec row.
Proof.
  eexists _, _.
  premise ltac:(vm_compute; reflexivity).
  premise ltac:(reflexivity).
  eapply single_trial_stderrs_are_fit_errors;
    [exact Hpremise | exact Hpremise0].
Defined.


(** Two trials: every entry of [samples] is a regression of its trial. *)
Lemma trialseparated_samples_at_work :
  exists log r,
    correlation_coefficients (Array2 6 two_trials) 1 2 "trialseparated"
                             true = (log, Returned r) /\
    exists s C O E,
      samples r = Some s /\
      coefficients s = Mat (length (steps r)) C /\
      offsets s = Mat (length (steps r)) O /\
      stderrs s = Mat (length (steps r)) E /\
      forall tdx trial idx step,
        nth_error (trials_of (Array2 6 two_trials)) tdx = Some trial ->
        nth_error (steps r) idx = Some step ->
        exists lr,
          trial_regression trial step = Returned lr /\
          entry C tdx idx = Some (slope lr) /\
          entry O tdx idx = Some (intercept lr) /\
          entry E tdx idx = Some (stderr lr).
Proof.
  eexists _, _.
  premise ltac:(vm_compute; reflexivity).
  eapply trialseparated_samples_are_trial_regressions; exact Hpremise.
Defined.

End AtWork.


(* ================================================================== *)
(** * correlation_coefficients: steps, lag pairs and aggregates         *)
(* ================================================================== *)

Lemma in_combine_seq_nth {A} (xs : list A) (k i : nat) (x : A) :
  In (i, x) (combine (seq k (length xs)) xs) ->
  (k <= i)%nat /\ nth_error xs (i - k) = Some x.
Proof.
  revert k. induction xs as [|y xs IH]; simpl; intros k Hin; [easy|].
  destruct Hin as [Hin | Hin].
  - inversion Hin; subst. now rewrite Nat.sub_diag.
  - destruct (IH (S k) Hin) as [Hle Hnth].
    replace (i - k)%nat with (S (i - S k)) by lia. split; [lia|exact Hnth].
Qed.

Lemma in_enumerate_nth {A} (xs : list A) (i : nat) (x : A) :
  In (i, x) (enumerate xs) -> nth_error xs i = Some x.
Proof.
  intros Hin. apply in_combine_seq_nth in Hin.
  now rewrite Nat.sub_0_r in Hin.
Qed.

Lemma set_item_same {A} (xs : list A) (i : nat) (x : A) :
  nth_error xs i = Some x -> set_item xs i x = xs.
Proof.
  revert i. induction xs as [|y xs IH]; intros [|i] H; simpl in *;
    try discriminate.
  - now inversion H.
  - now rewrite IH.
Qed.

Lemma np_arange_nth (start stop : Z) (i : nat) :
  (i < length (np_arange start stop))%nat ->
  nth_error (np_arange start stop) i = Some (start + Z.of_nat i).
Proof.
  rewrite np_arange_length. intros Hi. unfold np_arange.
  rewrite nth_error_map.
  rewrite (nth_error_nth' _ 0%nat) by now rewrite length_seq.
  now rewrite seq_nth.
Qed.

Section Slices.
Context {A : Type}.

(** [xs[0:-step]] for a step of one or more: the list without its last
    [step] elements. *)
Lemma py_slice_head (xs : list A) (step : Z) :
  1 <= step ->
  py_slice xs 0 (- step) = firstn (length xs - Z.to_nat step) xs.
Proof.
  intros Hstep. unfold py_slice, slice_bound. simpl.
  destruct (- step <? 0) eqn:E; [|apply Z.ltb_ge in E; lia].
  rewrite Z.min_l by lia. simpl. f_equal. lia.
Qed.

(** [xs[step:]] for a step of one or more: the list without its first
    [step] elements. *)
Lemma py_slice_tail (xs : list A) (step : Z) :
  1 <= step ->
  py_slice_from xs step = skipn (Z.to_nat step) xs.
Proof.
  intros Hstep. unfold py_slice_from, py_slice, slice_bound.
  destruct (step <? 0) eqn:E; [apply Z.ltb_lt in E; lia|].
  destruct (Z.of_nat (length xs) <? 0) eqn:E'; [apply Z.ltb_lt in E'; lia|].
  rewrite Z.min_id.
  destruct (Z.le_gt_cases step (Z.of_nat (length xs))) as [Hle | Hgt].
  - rewrite Z.min_l by lia.
    replace (Z.to_nat (Z.of_nat (length xs) - step))
      with (length (skipn (Z.to_nat step) xs))
      by (rewrite length_skipn; lia).
    apply firstn_all.
  - rewrite Z.min_r by lia. rewrite Z.sub_diag. simpl.
    rewrite !skipn_all2 by lia. reflexivity.
Qed.

End Slices.

Section MoreCoefficientProperties.
Context {F : Type} {ops : Float64Ops F} {scipy : SciPy F}.

(** X5. The steps of every returned result are the consecutive integers
    from [minstep] to [maxstep], in ascending order, both taken after
    the two checks: [minstep] is 1 when the requested [minstep] exceeds
    the requested [maxstep], and [maxstep] is [datalength - 2] when the
    requested [maxstep] exceeds [datalength].  There is no step when
    [minstep] lies above [maxstep] after the checks. *)
Theorem steps_are_the_checked_range
        (data : array_arg F) (minstep maxstep : Z) (method : string)
        (bootstrap : bool) (log : list diagnostic)
        (r : CoefficientResult F) :
  correlation_coefficients data minstep maxstep method bootstrap
  = (log, Returned r) ->
  let lo := effective_minstep minstep maxstep in
  let hi := effective_maxstep (data_length data) maxstep in
  length (steps r) = Z.to_nat (hi + 1 - lo) /\
  (forall i, (i < length (steps r))%nat ->
             nth_error (steps r) i = Some (lo + Z.of_nat i)) /\
  (forall k, In k (steps r) <-> lo <= k <= hi).
Proof.
  intros H lo hi.
  apply correlation_coefficients_returned in H.
  destruct H as (ncols & rows & mi & ma & Hshape & Hsteps & H & _).
  rewrite check_steps_trials in Hsteps. simpl in Hsteps.
  assert (ncols = data_length data) as ->.
  { destruct data; simpl in Hshape; inversion Hshape; reflexivity. }
  inversion Hsteps; subst mi ma; clear Hsteps.
  fold (effective_minstep minstep maxstep) in H. fold lo hi in H.
  assert (steps r = np_arange lo (hi + 1)) as ->.
  { destruct (string_dec method "trialseparated") as [-> | Hts].
    - destruct (estimate_trialseparated _ _ _ H eq_refl)
        as (s & errs & _ & _ & _ & _ & ->). reflexivity.
    - destruct (string_dec method "stationarymean") as [-> | Hsm].
      + destruct (estimate_stationarymean _ _ _ H eq_refl)
          as (cs & os & es & _ & _ & _ & _ & ->). reflexivity.
      + rewrite estimate_other_method in H by assumption. discriminate. }
  split; [apply np_arange_length|]. split.
  - apply np_arange_nth.
  - intros k. rewrite np_arange_in. lia.
Qed.

(** X6. For a step of one or more the regression of a trial pairs the
    activity at every time [t] with the activity at time [t + step]: its
    two inputs have the length of the trial less [step] (none when the
    trial is not longer than the step), and entry [t] of the first is
    [trial[t]] while entry [t] of the second is [trial[t + step]]. *)
Theorem trial_regression_pairs_lagged_activity
        (trial : list F) (step : Z) :
  1 <= step ->
  exists x y,
    trial_regression trial step = linregress x y /\
    length x = (length trial - Z.to_nat step)%nat /\
    length y = (length trial - Z.to_nat step)%nat /\
    forall t, (t < length trial - Z.to_nat step)%nat ->
              nth_error x t = nth_error trial t /\
              nth_error y t = nth_error trial (t + Z.to_nat step).
Proof.
  intros Hstep.
  exists (py_slice trial 0 (- step)), (py_slice_from trial step).
  split; [reflexivity|].
  rewrite py_slice_head, py_slice_tail by exact Hstep.
  rewrite length_firstn, length_skipn.
  split; [lia|]. split; [lia|].
  intros t Ht. split.
  - now rewrite nth_error_firstn, (proj2 (Nat.ltb_lt _ _) Ht).
  - rewrite nth_error_skipn. f_equal. lia.
Qed.

End MoreCoefficientProperties.


Section MoreAggregates.
Context {F : Type} {ops : Float64Ops F} {scipy : SciPy F}.

(** The loop over the trials that pools the pairs of one step, from the
    trial number [k] on: each trial adds its two slices, less the entry
    of [activities] at its own number. *)
Lemma pooled_from (step : Z) (rows : list (list F)) :
  forall (k : nat) (before : list F) (x y : list F),
    length before = k ->
    fold_left
      (fun '(x, y) '(tdx, trial) =>
         let m := nth tdx (before ++ np_mean_axis1 rows) (of_Z 0) in
         (x ++ map (fun v => fsub v m) (py_slice trial 0 (- step)),
          y ++ map (fun v => fsub v m) (py_slice_from trial step)))
      (combine (seq k (length rows)) rows) (x, y)
    = (x ++ concat (map (fun trial =>
                           map (fun v => fsub v (np_mean trial))
                               (py_slice trial 0 (- step))) rows),
       y ++ concat (map (fun trial =>
                           map (fun v => fsub v (np_mean trial))
                               (py_slice_from trial step)) rows)).
Proof.
  induction rows as [|trial rows IH]; intros k before x y Hk; simpl.
  - now rewrite !app_nil_r.
  - rewrite app_nth2, Hk, Nat.sub_diag by lia. simpl.
    specialize (IH (S k) (before ++ [np_mean trial])).
    rewrite <- !app_assoc in IH. simpl in IH.
    rewrite IH by (rewrite length_app; simpl; lia).
    now rewrite <- !app_assoc.
Qed.

(** X7. The pairs that the stationary-mean method pools for one step
    are, in the order of the trials, the two slices [trial[0:-step]] and
    [trial[step:]] of every trial, each less the mean activity of its
    own trial. *)
Theorem pooled_pairs_are_centred_slices
        (rows : list (list F)) (step : Z) :
  pooled rows (np_mean_axis1 rows) step
  = (concat (map (fun trial =>
                    map (fun v => fsub v (np_mean trial))
                        (py_slice trial 0 (- step))) rows),
     concat (map (fun trial =>
                    map (fun v => fsub v (np_mean trial))
                        (py_slice_from trial step)) rows)).
Proof.
  unfold pooled, enumerate.
  exact (pooled_from step rows (k := 0) [] [] [] eq_refl).
Qed.

Lemma np_sum_axis0_nth (nrows ncols : nat) (m : list (list F)) (k : nat) :
  shaped nrows ncols m -> (k < ncols)%nat ->
  nth k (np_sum_axis0 ncols m) (of_Z 0) = np_sum (column k m).
Proof.
  intros [_ Hrows] Hk. unfold column.
  destruct m as [|r rest]; simpl.
  - unfold np_zeros. now rewrite nth_repeat.
  - inversion Hrows as [|r' rest' Hr Hrest]; subst r' rest'.
    now apply fold_rows_nth with ncols.
Qed.

(** Entry [k] of [np.var(m, axis=0, ddof=1)] is the variance of the
    column [m[:, k]]. *)
Lemma np_var_axis0_ddof1_nth (nrows ncols : nat) (m : list (list F))
      (k : nat) :
  shaped nrows ncols m -> (k < ncols)%nat ->
  nth_error (np_var_axis0_ddof1 ncols m) k
  = Some (np_var_ddof1 (column k m)).
Proof.
  intros Hm Hk.
  pose proof (@np_mean_axis0_length _ _ nrows ncols m Hm) as Hmean.
  pose proof (np_mean_axis0_nth Hm Hk) as Hmk.
  destruct Hm as [Hlen Hrows].
  set (dev := map (fun row =>
                     map square (map2 fsub row (np_mean_axis0 ncols m))) m).
  assert (shaped nrows ncols dev) as Hdev.
  { split; [unfold dev; now rewrite length_map|].
    apply Forall_map. revert Hrows. apply Forall_impl. intros row Hrow.
    rewrite length_map, map2_length; congruence. }
  unfold np_var_axis0_ddof1. fold dev.
  rewrite nth_error_map.
  rewrite (nth_error_nth' _ (of_Z 0))
    by (rewrite (np_sum_axis0_length Hdev); exact Hk).
  simpl. rewrite (np_sum_axis0_nth Hdev Hk).
  unfold np_var_ddof1, column. rewrite length_map. do 3 f_equal.
  unfold dev. rewrite !map_map.
  apply map_ext_in. intros row Hrow.
  pose proof (proj1 (Forall_forall _ _) Hrows row Hrow) as Hlrow.
  simpl in Hlrow.
  rewrite (nth_indep _ (of_Z 0) (square (of_Z 0)))
    by (rewrite length_map, map2_length; congruence).
  rewrite map_nth, map2_nth by congruence.
  do 2 f_equal.
  apply nth_error_nth with (d := of_Z 0) in Hmk. exact Hmk.
Qed.

(** X8. With a number of trials other than one, entry [k] of the
    returned [stderrs] of the trial-separated method is the square root
    of the variance, with the divisor [numtrials - 1], of the column
    [samples.coefficients[:, k]]. *)
Theorem multi_trial_stderrs_are_trial_spread
        (data : array_arg F) (minstep maxstep : Z) (bootstrap : bool)
        (log : list diagnostic) (r : CoefficientResult F) :
  correlation_coefficients data minstep maxstep "trialseparated" bootstrap
  = (log, Returned r) ->
  num_trials data <> 1%nat ->
  exists es s C,
    stderrs r = Vec es /\
    samples r = Some s /\
    coefficients s = Mat (length (steps r)) C /\
    forall k, (k < length (steps r))%nat ->
              nth_error es k = Some (np_sqrt (np_var_ddof1 (column k C))).
Proof.
  intros H Hmany.
  apply correlation_coefficients_returned in H.
  destruct H as (ncols & rows & mi & ma & _ & _ & H & Hn).
  unfold num_trials in Hmany. rewrite <- Hn in Hmany.
  destruct (estimate_trialseparated _ _ _ H eq_refl)
    as (s & errs & _ & (Hc & _) & _ & Herrs & ->).
  apply Nat.eqb_neq in Hmany. rewrite Hmany in Herrs.
  inversion Herrs; subst errs; clear Herrs.
  simpl. do 3 eexists. repeat (split; [reflexivity|]).
  intros k Hk. rewrite nth_error_map.
  now rewrite (np_var_axis0_ddof1_nth Hc Hk).
Qed.

Lemma separate_steps_activities (tdx : nat) (trial : list F)
      (steps : list Z) (s s' : sep_arrays F) :
  separate_steps tdx trial steps s = Returned s' ->
  sep_trialactivies s' = sep_trialactivies s.
Proof.
  unfold separate_steps.
  apply (for_each_invariant
           (fun s0 : sep_arrays F =>
              sep_trialactivies s0 = sep_trialactivies s));
    [|reflexivity].
  intros s0 [idx step] s1 _ Hs0 Hbody. unfold separate_step in Hbody.
  bind_inv Hbody. inversion Hbody; subst s1. exact Hs0.
Qed.

(** The loop over the trials writes into [sepres.trialactivies] the
    means that the array holds already. *)
Lemma separate_trials_activities (rows : list (list F)) (steps : list Z)
      (s s' : sep_arrays F) :
  sep_trialactivies s = np_mean_axis1 rows ->
  separate_trials rows steps s = Returned s' ->
  sep_trialactivies s' = np_mean_axis1 rows.
Proof.
  unfold separate_trials.
  apply (for_each_invariant
           (fun s0 : sep_arrays F =>
              sep_trialactivies s0 = np_mean_axis1 rows)).
  intros s0 [tdx trial] s1 Hin Hs0 Hbody. unfold separate_trial in Hbody.
  apply separate_steps_activities in Hbody. simpl in Hbody.
  rewrite Hbody, Hs0. apply set_item_same.
  apply in_enumerate_nth in Hin.
  unfold np_mean_axis1. now rewrite nth_error_map, Hin.
Qed.

(** X9. In every returned result [trialactivies] holds the mean
    activity of every trial, in the order of the trials, and so does
    [samples.trialactivies]. *)
Theorem trialactivies_are_trial_means
        (data : array_arg F) (minstep maxstep : Z) (method : string)
        (bootstrap : bool) (log : list diagnostic)
        (r : CoefficientResult F) :
  correlation_coefficients data minstep maxstep method bootstrap
  = (log, Returned r) ->
  trialactivies r = map np_mean (trials_of data) /\
  exists s, samples r = Some s /\
            trialactivies s = map np_mean (trials_of data).
Proof.
  intros H.
  apply correlation_coefficients_returned in H.
  destruct H as (ncols & rows & mi & ma & _ & _ & H & Hn).
  rewrite <- Hn.
  destruct (string_dec method "trialseparated") as [-> | Hts].
  - destruct (estimate_trialseparated _ _ _ H eq_refl)
      as (s & errs & Hrun & _ & _ & _ & ->).
    apply separate_trials_activities in Hrun; [|reflexivity].
    simpl. split; [reflexivity|]. eexists. split; [reflexivity|].
    exact Hrun.
  - destruct (string_dec method "stationarymean") as [-> | Hsm].
    + destruct (estimate_stationarymean _ _ _ H eq_refl)
        as (cs & os & es & _ & _ & _ & _ & ->).
      simpl. split; [reflexivity|]. eexists. split; reflexivity.
    + rewrite estimate_other_method in H by assumption. discriminate.
Qed.

(** A one-dimensional array is treated as the single trial that it
    holds: the call prints the warning on the reshaping and then does
    what it does on the array of shape [(1, len(data))]. *)
Lemma vector_is_treated_as_one_trial
        (v : list F) (minstep maxstep : Z) (method : string)
        (bootstrap : bool) :
  correlation_coefficients (Array1 v) minstep maxstep method bootstrap
  = (WarnOneTrial
       :: fst (correlation_coefficients (Array2 (length v) [v]) minstep
                 maxstep method bootstrap),
     snd (correlation_coefficients (Array2 (length v) [v]) minstep maxstep
            method bootstrap)).
Proof.
  unfold correlation_coefficients. simpl.
  destruct (check_steps (Trials (length v) [v]) minstep maxstep)
    as [log' [[mi ma]|e]]; reflexivity.
Qed.

End MoreAggregates.


(* ================================================================== *)
(** * correlation_fit: where a result comes from, and what is read      *)
(* ================================================================== *)

Section MoreFitProperties.
Context {F : Type} {ops : Float64Ops F} {scipy : SciPy F}.

(** A loop that returns has had every attempt return. *)
Lemma for_each_fit_row_returned (f : fitfunc_arg F)
      (input : option (fit_input F)) (fitbnds : option (list (list F)))
      (rows : list (list F)) :
  forall best best',
    for_each (fit_row f input fitbnds) rows best = Returned best' ->
    Forall (fun p => returned (fit_attempt f input fitbnds p) = true) rows.
Proof.
  induction rows as [|pars rows IH]; intros best best' Hrun; [constructor|].
  simpl in Hrun. bind_inv Hrun. unfold fit_row in Ha. bind_inv Ha.
  constructor; [now rewrite Ha0|]. eapply IH; eauto.
Qed.

(** The champion of the loop is the attempt of one of the rows, unless
    no attempt was below [np.inf]: then there is none. *)
Lemma for_each_fit_row_champion (f : fitfunc_arg F)
      (input : option (fit_input F)) (fitbnds : option (list (list F)))
      (rows : list (list F)) (best : champion F) :
  for_each (fit_row f input fitbnds) rows no_champion = Returned best ->
  best = no_champion \/
  exists pars a,
    In pars rows /\
    fit_attempt f input fitbnds pars = Returned a /\
    best = champion_of a.
Proof.
  apply (for_each_invariant
           (fun c : champion F =>
              c = no_champion \/
              exists pars a,
                In pars rows /\
                fit_attempt f input fitbnds pars = Returned a /\
                c = champion_of a)); [|now left].
  intros c pars c' Hin Hc Hbody.
  unfold fit_row in Hbody. bind_inv Hbody.
  inversion Hbody; subst c'; clear Hbody.
  unfold keep_best.
  destruct (xlt (att_ssres a) (ssresmin c)).
  - right. exists pars, a. auto.
  - exact Hc.
Qed.

(** What an attempt that returns has computed. *)
Lemma fit_attempt_returned (f : fitfunc_arg F)
      (input : option (fit_input F)) (fitbnds : option (list (list F)))
      (pars : list F) (a : attempt F) :
  fit_attempt f input fitbnds pars = Returned a ->
  exists g i bounds model residuals,
    f = Function g /\ input = Some i /\
    curve_fit g (fit_steps i) (fit_coefficients i) pars bounds 100000
              (fit_stderrs i) = Returned (att_popt a, att_pcov a) /\
    call_fitfunc g (fit_steps i) (att_popt a) = Returned model /\
    nd_sub (fit_coefficients i) model = Returned residuals /\
    att_ssres a = np_sum_sq residuals.
Proof.
  unfold fit_attempt. intros H.
  destruct f as [name|g]; [discriminate|].
  bind_inv H. destruct input as [i|]; [|discriminate].
  bind_inv H. destruct a1 as [popt' pcov'].
  bind_inv H. bind_inv H. inversion H; subst a; clear H. simpl.
  exists g, i, a0, a1, a2. auto 7.
Qed.

(** What a call that returns has computed, and from which row. *)
Lemma correlation_fit_provenance
        (data : fit_data F) (fitfunc : fitfunc_arg F)
        (fitpars : option (pars_array F))
        (fitbnds : option (list (list F))) (r : CorrelationResult F) :
  correlation_fit data fitfunc fitpars fitbnds = Returned r ->
  exists f input rows pars bounds model residuals,
    resolve fitfunc = Function f /\
    read_data data = Returned (Some input) /\
    starting_points (resolve fitfunc) fitpars = Returned rows /\
    Forall (fun p =>
              returned (fit_attempt (resolve fitfunc) (Some input)
                          (bounds_of (resolve fitfunc) fitbnds) p) = true)
           rows /\
    In pars rows /\
    curve_fit f (fit_steps input) (fit_coefficients input) pars bounds
              100000 (fit_stderrs input) = Returned (popt r, pcov r) /\
    call_fitfunc f (fit_steps input) (popt r) = Returned model /\
    nd_sub (fit_coefficients input) model = Returned residuals /\
    ssres r = Finite (np_sum_sq residuals).
Proof.
  unfold correlation_fit. intros H.
  bind_inv H. bind_inv H. bind_inv H.
  pose proof (for_each_fit_row_returned _ _ _ _ _ Ha1) as Hall.
  destruct (for_each_fit_row_champion _ _ _ _ Ha1)
    as [-> | (pars & att & Hin & Hatt & ->)]; [discriminate|].
  destruct (fit_attempt_returned _ _ _ _ Hatt)
    as (g & i & bounds & model & residuals
        & Hg & -> & Hfit & Hmodel & Hres & Hss).
  unfold result_of in H. simpl in H. bind_inv H.
  inversion H; subst r; clear H. simpl.
  exists g, i, a0, pars, bounds, model, residuals.
  rewrite <- Hss. auto 10.
Qed.

(** X10. Every returned result stems from one row of the grid of
    starting parameters: [popt] and [pcov] are what [curve_fit] returned
    from that row, and [ssres] is the sum of the squares of the
    residuals between the coefficients and the model function at this
    [popt].  A call returns only if the data is read into [steps],
    [coefficients] and [stderrs], the model is a function, the grid has
    a row, and the attempt of every row returns. *)
Theorem returned_fit_stems_from_a_row
        (data : fit_data F) (fitfunc : fitfunc_arg F)
        (fitpars : option (pars_array F))
        (fitbnds : option (list (list F))) (r : CorrelationResult F) :
  correlation_fit data fitfunc fitpars fitbnds = Returned r ->
  exists f input rows pars bounds model residuals,
    resolve fitfunc = Function f /\
    read_data data = Returned (Some input) /\
    starting_points (resolve fitfunc) fitpars = Returned rows /\
    Forall (fun p =>
              returned (fit_attempt (resolve fitfunc) (Some input)
                          (bounds_of (resolve fitfunc) fitbnds) p) = true)
           rows /\
    In pars rows /\
    curve_fit f (fit_steps input) (fit_coefficients input) pars bounds
              100000 (fit_stderrs input) = Returned (popt r, pcov r) /\
    call_fitfunc f (fit_steps input) (popt r) = Returned model /\
    nd_sub (fit_coefficients input) model = Returned residuals /\
    ssres r = Finite (np_sum_sq residuals).
Proof. apply correlation_fit_provenance. Qed.

(** X3. A fit of a one-dimensional input of [N] values is a fit of
    these values, as the coefficients, against the steps [1 .. N] with
    standard errors of one: a call that returns was given one value or
    more, its [popt] and [pcov] are what [curve_fit] returned on
    [xdata = 1 .. N], [ydata = data] and [sigma = np.ones(N)] from a
    row of the grid, and its [ssres] is the sum of the squares of the
    residuals between the values and the model function on the steps
    [1 .. N]. *)
Theorem one_dimensional_input_is_fitted_from_step_one
        (v : list F) (fitfunc : fitfunc_arg F)
        (fitpars : option (pars_array F))
        (fitbnds : option (list (list F))) (r : CorrelationResult F) :
  correlation_fit (Guess (Array1 v)) fitfunc fitpars fitbnds
  = Returned r ->
  v <> [] /\
  exists f rows pars bounds model residuals,
    resolve fitfunc = Function f /\
    starting_points (resolve fitfunc) fitpars = Returned rows /\
    In pars rows /\
    curve_fit f (map of_Z (np_arange 1 (Z.of_nat (length v) + 1)))
              (Vec v) pars bounds 100000 (Vec (np_ones (length v)))
    = Returned (popt r, pcov r) /\
    call_fitfunc f (map of_Z (np_arange 1 (Z.of_nat (length v) + 1)))
                 (popt r)
    = Returned model /\
    nd_sub (Vec v) model = Returned residuals /\
    ssres r = Finite (np_sum_sq residuals).
Proof.
  intros H. apply correlation_fit_provenance in H.
  destruct H as (f & input & rows & pars & bounds & model & residuals
                 & Hf & Hdata & Hrows & _ & Hin & Hfit & Hmodel & Hres
                 & Hss).
  simpl in Hdata. unfold guess_format, guess_format_body in Hdata.
  destruct v as [|x v]; [discriminate|].
  simpl in Hdata. inversion Hdata; subst input; clear Hdata.
  simpl in *. split; [discriminate|].
  exists f, rows, pars, bounds, model, residuals. auto 10.
Qed.

(** X11. Every default starting vector of the three model functions has
    the number of parameters that its function takes, so that the
    function returns one value per step on it; the default grid is never
    empty; and the default bounds, where there are some, are one row of
    lower and one row of upper bounds, each as long as the starting
    vectors. *)
Theorem default_starts_fit_their_function
        (f : model_function F) (rows : list (list F)) :
  starting_points (Function f) None = Returned rows ->
  rows <> [] /\
  Forall (fun pars =>
            forall steps,
            exists values,
              call_fitfunc f steps pars = Returned values /\
              length values = length steps)
         rows /\
  forall b,
    default_fitbnds f = Some b ->
    exists lower upper,
      b = [lower; upper] /\
      Forall (fun pars => length pars = length lower /\
                          length pars = length upper) rows.
Proof.
  intros H.
  destruct f as [| | |doc call]; simpl in H; inversion H; subst rows;
    clear H.
  - split; [discriminate|]. split.
    + repeat constructor. intros steps. eexists. split; [reflexivity|].
      apply length_map.
    + intros b Hb. discriminate.
  - split; [discriminate|]. split.
    + repeat constructor. intros steps. eexists. split; [reflexivity|].
      apply length_map.
    + intros b Hb. discriminate.
  - split; [discriminate|]. split.
    + repeat (constructor;
              [intros steps; eexists; split;
               [reflexivity|apply length_map]|]).
      constructor.
    + intros b Hb. inversion Hb; subst b. do 2 eexists.
      split; [reflexivity|]. repeat constructor.
Qed.

(** X12. An array of three or more rows [(step, coefficient)], that is
    of two columns, is read by column: the steps are the first column
    and the coefficients the second, with standard errors of one. *)
Theorem pairs_are_read_by_column (pairs : list (F * F)) :
  (3 <= length pairs)%nat ->
  read_data (Guess (Array2 2 (map (fun p => [fst p; snd p]) pairs)))
  = Returned (Some {| fit_steps := map fst pairs;
                      fit_coefficients := Vec (map snd pairs);
                      fit_stderrs := Vec (np_ones (length pairs)) |}).
Proof.
  intros Hlen. simpl. unfold guess_format, guess_format_body.
  rewrite length_map.
  destruct (Nat.ltb 2 (length pairs)) eqn:E;
    [|apply Nat.ltb_ge in E; lia].
  unfold np_transpose. simpl. rewrite !map_map. simpl.
  unfold assign_mnaive, len. rewrite !length_map.
  destruct pairs as [|[s c] rest]; [simpl in Hlen; lia|]. simpl.
  destruct (feqb s (of_Z 1)); reflexivity.
Qed.

End MoreFitProperties.


(* ================================================================== *)
(** * The further properties at concrete inputs                         *)
(* ================================================================== *)

Section MoreAtWork.
Import Rational.
Local Open Scope Q_scope.

(** Six time points, [minstep = 5] above [maxstep = 3]: the steps are
    1, 2, 3. *)
Lemma steps_are_the_checked_range_at_work :
  exists log r,
    correlation_coefficients (Array1 trial) 5 3 "trialseparated" true
    = (log, Returned r) /\
    length (steps r)
    = Z.to_nat (effective_maxstep (data_length (Array1 trial)) 3 + 1
                - effective_minstep 5 3) /\
    (forall i, (i < length (steps r))%nat ->
               nth_error (steps r) i
               = Some (effective_minstep 5 3 + Z.of_nat i)%Z) /\
    (forall k, In k (steps r) <->
               (effective_minstep 5 3 <= k
                <= effective_maxstep (data_length (Array1 trial)) 3)%Z).
Proof.
  eexists _, _.
  premise ltac:(vm_compute; reflexivity).
  eapply steps_are_the_checked_range; exact Hpremise.
Defined.

(** The trial of six time points at step 2: four pairs. *)
Lemma trial_regression_pairs_at_work :
  (1 <= 2)%Z /\
  exists x y,
    trial_regression trial 2 = linregress x y /\
    length x = (length trial - Z.to_nat 2)%nat /\
    length y = (length trial - Z.to_nat 2)%nat /\
    forall t, (t < length trial - Z.to_nat 2)%nat ->
              nth_error x t = nth_error trial t /\
              nth_error y t = nth_error trial (t + Z.to_nat 2).
Proof.
  premise ltac:(lia).
  eapply trial_regression_pairs_lagged_activity; exact Hpremise.
Defined.

(** Two trials: the standard errors are the spread of the two slopes. *)
Lemma multi_trial_stderrs_at_work :
  exists log r,
    correlation_coefficients (Array2 6 two_trials) 1 2 "trialseparated"
                             true = (log, Returned r) /\
    num_trials (Array2 6 two_trials) <> 1%nat /\
    exists es s C,
      stderrs r = Vec es /\
      samples r = Some s /\
      coefficients s = Mat (length (steps r)) C /\
      forall k, (k < length (steps r))%nat ->
                nth_error es k
                = Some (np_sqrt (np_var_ddof1 (column k C))).
Proof.
  eexists _, _.
  premise ltac:(vm_compute; reflexivity).
  premise ltac:(discriminate).
  eapply multi_trial_stderrs_are_trial_spread;
    [exact Hpremise | exact Hpremise0].
Defined.

(** Two trials under the stationary-mean method: their two means. *)
Lemma trialactivies_at_work :
  exists log r,
    correlation_coefficients (Array2 6 two_trials) 1 2 "stationarymean"
                             true = (log, Returned r) /\
    trialactivies r = map np_mean (trials_of (Array2 6 two_trials)) /\
    exists s, samples r = Some s /\
              trialactivies s
              = map np_mean (trials_of (Array2 6 two_trials)).
Proof.
  eexists _, _.
  premise ltac:(vm_compute; reflexivity).
  eapply trialactivies_are_trial_means; exact Hpremise.
Defined.

(** The fit of the decay from two starting rows. *)
Lemma returned_fit_stems_from_a_row_at_work :
  exists r,
    correlation_fit (Guess (Array2 4 decay)) (Name "exponential")
                    (Some (Pars2 [[20; 1]; [10; 1]])) None = Returned r /\
    exists f input rows pars bounds model residuals,
      resolve (Name "exponential") = Function f /\
      read_data (Guess (Array2 4 decay)) = Returned (Some input) /\
      starting_points (resolve (Name "exponential"))
                      (Some (Pars2 [[20; 1]; [10; 1]])) = Returned rows /\
      Forall (fun p =>
                returned (fit_attempt (resolve (Name "exponential"))
                            (Some input)
                            (bounds_of (resolve (Name "exponential")) None)
                            p) = true)
             rows /\
      In pars rows /\
      curve_fit f (fit_steps input) (fit_coefficients input) pars bounds
                100000 (fit_stderrs input) = Returned (popt r, pcov r) /\
      call_fitfunc f (fit_steps input) (popt r) = Returned model /\
      nd_sub (fit_coefficients input) model = Returned residuals /\
      ssres r = Finite (np_sum_sq residuals).
Proof.
  eexists.
  premise ltac:(vm_compute; reflexivity).
  eapply returned_fit_stems_from_a_row; exact Hpremise.
Defined.

(** The defaults of [f_complex]: 22 rows of nine parameters. *)
Lemma default_starts_at_work :
  exists rows,
    starting_points (Function f_complex) None = Returned rows /\
    length rows = 22%nat /\
    rows <> [] /\
    Forall (fun pars =>
              forall steps,
              exists values,
                call_fitfunc f_complex steps pars = Returned values /\
                length values = length steps)
           rows /\
    forall b,
      default_fitbnds f_complex = Some b ->
      exists lower upper,
        b = [lower; upper] /\
        Forall (fun pars => length pars = length lower /\
                            length pars = length upper) rows.
Proof.
  eexists.
  premise ltac:(reflexivity).
  split; [reflexivity|].
  eapply default_starts_fit_their_function; exact Hpremise.
Defined.

(** Four values of a decay, fitted from two starting rows. *)
Lemma one_dimensional_input_at_work :
  exists r,
    correlation_fit (Guess (Array1 [0.9; 0.8; 0.7; 0.6]))
                    (Name "exponential")
                    (Some (Pars2 [[20; 1]; [10; 1]])) None
    = Returned r /\
    [0.9; 0.8; 0.7; 0.6] <> [] /\
    exists f rows pars bounds model residuals,
      resolve (Name "exponential") = Function f /\
      starting_points (resolve (Name "exponential"))
                      (Some (Pars2 [[20; 1]; [10; 1]])) = Returned rows /\
      In pars rows /\
      curve_fit f
                (map of_Z
                     (np_arange 1
                        (Z.of_nat (length [0.9; 0.8; 0.7; 0.6]) + 1)))
                (Vec [0.9; 0.8; 0.7; 0.6]) pars bounds 100000
                (Vec (np_ones (length [0.9; 0.8; 0.7; 0.6])))
      = Returned (popt r, pcov r) /\
      call_fitfunc f
                   (map of_Z
                        (np_arange 1
                           (Z.of_nat (length [0.9; 0.8; 0.7; 0.6]) + 1)))
                   (popt r)
      = Returned model /\
      nd_sub (Vec [0.9; 0.8; 0.7; 0.6]) model = Returned residuals /\
      ssres r = Finite (np_sum_sq residuals).
Proof.
  eexists.
  premise ltac:(vm_compute; reflexivity).
  eapply one_dimensional_input_is_fitted_from_step_one; exact Hpremise.
Defined.

(** Three pairs of a step and a coefficient. *)
Lemma pairs_are_read_by_column_at_work :
  (3 <= length ([(1, 0.9); (2, 0.8); (3, 0.7)])%Q)%nat /\
  read_data
    (Guess (Array2 2 (map (fun p => [fst p; snd p])
                          [(1, 0.9); (2, 0.8); (3, 0.7)])))
  = Returned
      (Some {| fit_steps := map fst [(1, 0.9); (2, 0.8); (3, 0.7)];
               fit_coefficients :=
                 Vec (map snd [(1, 0.9); (2, 0.8); (3, 0.7)]);
               fit_stderrs :=
                 Vec (np_ones (length [(1, 0.9); (2, 0.8); (3, 0.7)])) |}).
Proof.
  premise ltac:(simpl; lia).
  eapply pairs_are_read_by_column; exact Hpremise.
Defined.

End MoreAtWork.

(* ================================================================== *)
(** * simulate_branching: lemmas                                        *)
(* ================================================================== *)

Lemma and_then_done {A B} (c : result A) (k : A -> result B) (b : B) :
  and_then c k = Done b -> exists a, c = Done a /\ k a = Done b.
Proof. destruct c as [a|f]; simpl; intros H; [eauto | discriminate]. Qed.

(** A loop over a range: what holds before index [a] and is carried
    from each index to the next holds after the last one, unless the
    body fails, and then with a failure that the body allows. *)
Lemma for_in_seq {St} (P : nat -> St -> Prop) (Q : failure -> Prop)
      (body : St -> nat -> result St) (n : nat) :
  forall (a : nat) (s : St),
    P a s ->
    (forall i s, (a <= i < a + n)%nat -> P i s ->
                 match body s i with
                 | Done s' => P (S i) s'
                 | Failed f => Q f
                 end) ->
    match for_in body (seq a n) s with
    | Done s' => P (a + n)%nat s'
    | Failed f => Q f
    end.
Proof.
  induction n as [|n IH]; intros a s Hs Hbody; simpl.
  - now rewrite Nat.add_0_r.
  - pose proof (Hbody a s ltac:(lia) Hs) as H1.
    destruct (body s a) as [s1|f]; simpl; [|exact H1].
    replace (a + S n)%nat with (S a + n)%nat by lia.
    apply IH; [exact H1|].
    intros i s2 Hi. apply Hbody. lia.
Qed.

Lemma written_entry {A} (m : list (list A)) (i j : nat) (v : A)
      (row : list A) :
  nth_error m i = Some row -> (j < length row)%nat ->
  entry (set_item2 m i j v) i j = Some v.
Proof.
  intros Hrow Hj. unfold entry, set_item2. rewrite Hrow.
  rewrite set_item_nth_same
    by (apply nth_error_Some; now rewrite Hrow).
  now apply set_item_nth_same.
Qed.

Lemma other_entry {A} (m : list (list A)) (i j i' j' : nat)
      (v : A) :
  (i', j') <> (i, j) ->
  entry (set_item2 m i j v) i' j' = entry m i' j'.
Proof.
  intros Hne. unfold entry, set_item2.
  destruct (nth_error m i) as [row|] eqn:Hrow; [|reflexivity].
  destruct (Nat.eq_dec i i') as [->|Hi].
  - rewrite set_item_nth_same
      by (apply nth_error_Some; now rewrite Hrow).
    rewrite Hrow. apply set_item_nth_other. congruence.
  - now rewrite set_item_nth_other.
Qed.

Lemma entry_shaped {A} (nrows ncols : nat) (m : list (list A))
      (i j : nat) :
  shaped nrows ncols m -> (i < nrows)%nat -> (j < ncols)%nat ->
  exists row v, nth_error m i = Some row /\ length row = ncols /\
                nth_error row j = Some v /\ entry m i j = Some v.
Proof.
  intros [Hlen Hrows] Hi Hj. unfold entry.
  destruct (nth_error m i) as [row|] eqn:Hrow;
    [|apply nth_error_None in Hrow; lia].
  assert (Hl : length row = ncols).
  { apply nth_error_In in Hrow.
    now apply (proj1 (Forall_forall _ _) Hrows). }
  destruct (nth_error row j) as [v|] eqn:Hv;
    [|apply nth_error_None in Hv; lia].
  eauto 6.
Qed.

Lemma get_item2_shaped {A} (nrows ncols : nat) (m : list (list A))
      (i j : nat) :
  shaped nrows ncols m -> (i < nrows)%nat -> (j < ncols)%nat ->
  exists v, get_item2 m i j = Done v /\ entry m i j = Some v.
Proof.
  intros Hm Hi Hj.
  destruct (entry_shaped Hm Hi Hj) as (row & v & Hrow & _ & Hv & He).
  exists v. unfold get_item2. now rewrite Hrow, Hv.
Qed.

Lemma assign2_shaped {A} (nrows ncols : nat) (m : list (list A))
      (i j : nat) (v : A) :
  shaped nrows ncols m -> (i < nrows)%nat -> (j < ncols)%nat ->
  assign2 m i j v = Done (set_item2 m i j v) /\
  entry (set_item2 m i j v) i j = Some v.
Proof.
  intros Hm Hi Hj.
  destruct (entry_shaped Hm Hi Hj) as (row & w & Hrow & Hl & Hw & _).
  split.
  - unfold assign2, get_item2. now rewrite Hrow, Hw.
  - apply written_entry with (row := row); [exact Hrow | lia].
Qed.

Lemma assign2_done {A} (nrows ncols : nat) (m m' : list (list A))
      (i j : nat) (v : A) :
  shaped nrows ncols m -> assign2 m i j v = Done m' ->
  m' = set_item2 m i j v /\ (i < nrows)%nat /\ (j < ncols)%nat.
Proof.
  intros [Hlen Hrows] H. unfold assign2, get_item2 in H.
  destruct (nth_error m i) as [row|] eqn:Hrow; [|discriminate].
  destruct (nth_error row j) as [w|] eqn:Hw; [|discriminate].
  simpl in H. inversion H; subst m'. split; [reflexivity|].
  split.
  - rewrite <- Hlen. apply nth_error_Some. now rewrite Hrow.
  - assert (Hl : length row = ncols).
    { apply nth_error_In in Hrow.
      now apply (proj1 (Forall_forall _ _) Hrows). }
    rewrite <- Hl. apply nth_error_Some. now rewrite Hw.
Qed.

Section BranchingLemmas.
Context {F G : Type} {ops : Float64Ops F} {random : Random F G}.
Variable allocation : nat -> Z -> Z -> option failure.
Variable uninitialized : nat -> nat -> Z.
Variables (n1 n0 : Z) (m h activity subp : F).


Lemma np_ndarray_done (k : nat) (A : list (list Z)) :
  np_ndarray allocation uninitialized k n0 n1 = Done A ->
  0 <= n0 /\ 0 <= n1 /\
  shaped (Z.to_nat n0) (Z.to_nat n1) A /\
  forall t j, (t < Z.to_nat n0)%nat -> (j < Z.to_nat n1)%nat ->
              entry A t j = Some (uninitialized t j).
Proof.
  unfold np_ndarray.
  destruct (n0 <? 0) eqn:E0; [discriminate|].
  destruct (n1 <? 0) eqn:E1; [discriminate|]. simpl.
  destruct (allocation k n0 n1); [discriminate|].
  intros H; inversion H; subst A; clear H.
  apply Z.ltb_ge in E0, E1.
  split; [exact E0|]. split; [exact E1|]. split.
  - split; [now rewrite length_map, length_seq|].
    apply Forall_forall. intros row Hin.
    apply in_map_iff in Hin. destruct Hin as (i & <- & _).
    now rewrite length_map, length_seq.
  - intros t j Ht Hj. unfold entry.
    rewrite nth_error_map.
    rewrite (nth_error_nth' _ 0%nat) by now rewrite length_seq.
    rewrite seq_nth by exact Ht. simpl.
    rewrite nth_error_map.
    rewrite (nth_error_nth' _ 0%nat) by now rewrite length_seq.
    now rewrite seq_nth.
Qed.

Lemma follows_process_other (A : list (list Z)) (t i t' j : nat) (v : Z) :
  earlier t' j t i ->
  follows_process m h activity A t' j ->
  follows_process m h activity (set_item2 A t i v) t' j.
Proof.
  intros He. unfold follows_process.
  assert (Hne : (t', j) <> (t, i)).
  { intros Heq; inversion Heq; subst. destruct He as [He|[_ He]]; lia. }
  destruct j as [|j'].
  - intros (d & g0 & g1 & Hd & Hentry). exists d, g0, g1.
    now rewrite other_entry.
  - assert (Hne' : (t', j') <> (t, i)).
    { intros Heq; inversion Heq; subst. destruct He as [He|[_ He]]; lia. }
    intros (d & g0 & g1 & Hd & Hrest). exists d, g0, g1.
    split; [exact Hd|].
    destruct (flt (of_Z 0) m).
    + destruct Hrest as (b & o & g2 & Hb & Ho & Hentry).
      exists b, o, g2. now rewrite !other_entry.
    + now rewrite other_entry.
Qed.

Lemma subsamples_other (A a : list (list Z)) (t i t' j : nat) (v w : Z) :
  (t', j) <> (t, i) ->
  subsamples subp A a t' j ->
  subsamples subp (set_item2 A t i v) (set_item2 a t i w) t' j.
Proof.
  intros Hne (full & seen & g0 & g1 & Hf & Hd & Hs).
  exists full, seen, g0, g1. now rewrite !other_entry.
Qed.

Lemma earlier_step (t' j t i : nat) :
  earlier t' j t (S i) -> earlier t' j t i \/ (t' = t /\ j = i).
Proof. unfold earlier. lia. Qed.

Lemma earlier_ne (t' j t i : nat) :
  earlier t' j t i -> (t', j) <> (t, i).
Proof. unfold earlier. intros He Heq. inversion Heq. lia. Qed.

(** One time step. *)
Lemma time_step_kept (A0 : list (list Z)) (t i : nat)
      (s : branching (G:=G)) :
  (t < Z.to_nat n0)%nat -> (1 <= i < Z.to_nat n1)%nat ->
  kept n1 n0 m h activity subp A0 t i s ->
  match time_step m h subp t s i with
  | Done s' => kept n1 n0 m h activity subp A0 t (S i) s'
  | Failed f => draw_failed f
  end.
Proof.
  intros Ht Hi (HA & Hproc & Ha). unfold time_step.
  destruct (np_random_poisson h (generator s)) as [[drive g1]|f] eqn:E1;
    simpl; [|left; eauto].
  destruct i as [|i']; [lia|]. simpl Nat.sub. rewrite Nat.sub_0_r.
  (* the value written and the generator after it *)
  assert (Htmp :
    match
      (if flt (of_Z 0) m then
         before <~ get_item2 (A_t s) t i' ;;
         '(offspring, g) <~
            np_random_poisson (fmul m (of_Z before)) g1 ;;
         Done (0 + drive + offspring, g)
       else Done (0 + drive, g1))
    with
    | Done (tmp, g2) =>
        forall A', (forall t' j', (t', j') <> (t, S i') ->
                                  entry A' t' j' = entry (A_t s) t' j') ->
                   entry A' t (S i') = Some tmp ->
                   follows_process m h activity A' t (S i')
    | Failed f => draw_failed f
    end).
  { destruct (flt (of_Z 0) m) eqn:Em.
    - destruct (@get_item2_shaped Z _ _ (A_t s) t i' HA Ht ltac:(lia))
        as (before & Hget & Hbefore).
      rewrite Hget. simpl.
      destruct (np_random_poisson (fmul m (of_Z before)) g1)
        as [[offspring g]|f] eqn:E2; simpl; [|left; eauto].
      intros A' Hsame Hnew. unfold follows_process.
      exists drive, (generator s), g1. split; [exact E1|].
      rewrite Em. exists before, offspring, g.
      rewrite Hsame by (intros Heq; inversion Heq; lia).
      auto.
    - intros A' Hsame Hnew. unfold follows_process.
      exists drive, (generator s), g1. split; [exact E1|].
      now rewrite Em. }
  destruct (if flt (of_Z 0) m then _ else _) as [[tmp g2]|f];
    simpl; [|exact Htmp].
  destruct (@assign2_shaped Z _ _ (A_t s) t (S i') tmp HA Ht ltac:(lia))
    as [HassignA HnewA].
  rewrite HassignA. simpl.
  assert (HA' : shaped (Z.to_nat n0) (Z.to_nat n1)
                       (set_item2 (A_t s) t (S i') tmp))
    by now apply set_item2_shaped.
  assert (Hproc' :
    forall t' j, (t' < Z.to_nat n0)%nat -> (j < Z.to_nat n1)%nat ->
                 earlier t' j t (S (S i')) ->
                 follows_process m h activity
                   (set_item2 (A_t s) t (S i') tmp) t' j).
  { intros t' j Ht' Hj He.
    destruct (earlier_step He) as [He'|[-> ->]].
    - apply follows_process_other; auto.
    - apply Htmp; [|exact HnewA].
      intros t' j' Hne. now apply other_entry. }
  destruct (a_t s) as [a|] eqn:Hat.
  - destruct Ha as (Hne & Hshape & Hsub). rewrite Hne. simpl.
    destruct (binom_rvs tmp subp g2) as [[seen g3]|f] eqn:E3;
      simpl; [|right; eauto].
    destruct (@assign2_shaped Z _ _ a t (S i') seen Hshape Ht ltac:(lia))
      as [Hassigna Hnewa].
    rewrite Hassigna. simpl.
    split; [exact HA'|]. split; [exact Hproc'|]. simpl.
    split; [exact Hne|]. split; [now apply set_item2_shaped|].
    intros t' j Ht' Hj. specialize (Hsub t' j Ht' Hj).
    destruct j as [|j'].
    + rewrite other_entry by (intros Heq; inversion Heq).
      exact Hsub.
    + intros He. destruct (earlier_step He) as [He'|[-> Hj']].
      * apply subsamples_other; [now apply earlier_ne | auto].
      * inversion Hj'; subst j'.
        exists tmp, seen, g2, g3. auto.
  - rewrite Ha. simpl.
    split; [exact HA'|]. split; [exact Hproc'|]. simpl. exact Ha.
Qed.

(** One trial. *)
Lemma run_trial_kept (A0 : list (list Z)) (t : nat)
      (s : branching (G:=G)) :
  (t < Z.to_nat n0)%nat -> 1 <= n1 ->
  kept n1 n0 m h activity subp A0 t 0 s ->
  match run_trial n1 m h activity subp s t with
  | Done s' => kept n1 n0 m h activity subp A0 (S t) 0 s'
  | Failed f => draw_failed f
  end.
Proof.
  intros Ht Hn1 (HA & Hproc & Ha). unfold run_trial.
  destruct (np_random_poisson activity (generator s)) as [[first g]|f]
    eqn:E1; simpl; [|left; eauto].
  destruct (@assign2_shaped Z _ _ (A_t s) t 0%nat first HA Ht ltac:(lia))
    as [HassignA HnewA].
  rewrite HassignA. simpl.
  unfold range.
  pose proof
    (@for_in_seq _ (fun i s' => kept n1 n0 m h activity subp A0 t i s') draw_failed
       (time_step m h subp t) (Z.to_nat n1 - 1) 1%nat
       {| A_t := set_item2 (A_t s) t 0 first; a_t := a_t s;
          generator := g |}) as Hloop.
  match type of Hloop with
  | ?P1 -> ?P2 -> _ => assert (H1 : P1); [|assert (H2 : P2)]
  end.
  - split; [now apply set_item2_shaped|]. simpl. split.
    + intros t' j Ht' Hj He.
      destruct He as [He|[-> He]].
      * apply follows_process_other; [left; exact He|].
        apply Hproc; auto. left; exact He.
      * assert (j = 0%nat) by lia. subst j.
        exists first, (generator s), g. auto.
    + destruct (a_t s) as [a|]; [|exact Ha].
      destruct Ha as (Hne & Hshape & Hsub).
      split; [exact Hne|]. split; [exact Hshape|].
      intros t' j Ht' Hj. specialize (Hsub t' j Ht' Hj).
      destruct j as [|j']; [exact Hsub|].
      intros [He|[-> He]]; [|lia].
      destruct (Hsub (or_introl He)) as (full & seen & g0 & g1' & Hf & Hd & Hs).
      exists full, seen, g0, g1'.
      rewrite other_entry by (intros Heq; inversion Heq).
      auto.
  - intros i s' Hi Hs'. apply time_step_kept; [exact Ht | lia | exact Hs'].
  - specialize (Hloop H1 H2).
    destruct (for_in _ _ _) as [s'|f]; [|exact Hloop].
    destruct Hloop as (HA' & Hproc' & Ha').
    replace (1 + (Z.to_nat n1 - 1))%nat with (Z.to_nat n1) in * by lia.
    split; [exact HA'|]. split.
    + intros t' j Ht' Hj He. apply Hproc'; auto.
      destruct He as [He|[_ He]]; [|lia].
      unfold earlier. lia.
    + destruct (a_t s') as [a|]; [|exact Ha'].
      destruct Ha' as (Hne & Hshape & Hsub).
      split; [exact Hne|]. split; [exact Hshape|].
      intros t' j Ht' Hj. specialize (Hsub t' j Ht' Hj).
      destruct j as [|j']; [exact Hsub|].
      intros He. apply Hsub.
      destruct He as [He|[_ He]]; [|lia].
      unfold earlier. lia.
Qed.

(** All trials. *)
Lemma trials_kept (k : nat) (A : list (list Z)) (g : G) :
  simulable n1 n0 subp ->
  np_ndarray allocation uninitialized k n0 n1 = Done A ->
  match
    for_in (run_trial n1 m h activity subp) (range 0 n0)
           {| A_t := A;
              a_t := if negb (feqb subp (of_Z 1)) then Some A else None;
              generator := g |}
  with
  | Done s => kept n1 n0 m h activity subp A (Z.to_nat n0) 0 s
  | Failed f => draw_failed f
  end.
Proof.
  intros (Hn0 & Hn1 & Hfirst & _ & _) HA.
  pose proof HA as HA'. apply np_ndarray_done in HA'.
  destruct HA' as (_ & _ & Hshape & _).
  unfold range. rewrite Nat.sub_0_r.
  pose proof
    (@for_in_seq _ (fun t s => kept n1 n0 m h activity subp A t 0 s) draw_failed
       (run_trial n1 m h activity subp) (Z.to_nat n0) 0%nat
       {| A_t := A;
          a_t := if negb (feqb subp (of_Z 1)) then Some A else None;
          generator := g |}) as Hloop.
  simpl Nat.add in Hloop. apply Hloop.
  - split; [exact Hshape|]. simpl. split.
    + intros t' j _ _ [He|[_ He]]; lia.
    + destruct (feqb subp (of_Z 1)); simpl; [reflexivity|].
      split; [reflexivity|]. split; [exact Hshape|].
      intros t' j _ _. destruct j; [reflexivity|].
      intros [He|[_ He]]; lia.
  - intros t s Ht Hs. apply run_trial_kept; [lia | lia | exact Hs].
Qed.

(** A trial that returns has a first time step. *)
Lemma run_trial_done (t : nat) (s s' : branching (G:=G)) :
  shaped (Z.to_nat n0) (Z.to_nat n1) (A_t s) ->
  run_trial n1 m h activity subp s t = Done s' -> 1 <= n1.
Proof.
  intros HA H. unfold run_trial in H.
  destruct (np_random_poisson activity (generator s)) as [[first g]|f];
    simpl in H; [|discriminate].
  apply and_then_done in H. destruct H as (A' & Hassign & _).
  eapply assign2_done in Hassign; [|exact HA]. lia.
Qed.

End BranchingLemmas.

Section BranchingReturns.
Context {F G : Type} {ops : Float64Ops F} {random : Random F G}.
Variable allocation : nat -> Z -> Z -> option failure.
Variable uninitialized : nat -> nat -> Z.
Variables (n1 n0 : Z) (m activity subp : F).

(** The copy [a_t], which is made if [subp != 1], is the array [A] or a
    failure of its allocation. *)
Lemma subsampled_copy (A : list (list Z)) :
  match
    (if negb (feqb subp (of_Z 1)) then
       copy <~ np_copy allocation 1 n0 n1 A ;; Done (Some copy)
     else Done None)
  with
  | Done a => a = if negb (feqb subp (of_Z 1)) then Some A else None
  | Failed f => allocation_failed allocation f
  end.
Proof.
  destruct (negb (feqb subp (of_Z 1))); [|reflexivity].
  unfold np_copy.
  destruct (allocation 1%nat n0 n1) as [f|] eqn:E; simpl;
    [|reflexivity].
  exists 1%nat, n0, n1. exact E.
Qed.

(** A call that returns was made on arguments that are [simulable]. *)
Lemma simulate_branching_done (g g' : G) (M : list (list Z)) :
  simulate_branching allocation uninitialized n1 m activity n0 subp g
  = Done (M, g') ->
  simulable n1 n0 subp.
Proof.
  unfold simulate_branching. intros H.
  apply and_then_done in H. destruct H as (A & HA & H).
  pose proof HA as HA'. apply np_ndarray_done in HA'.
  destruct HA' as (Hn0 & Hn1 & Hshape & _).
  destruct (fle subp (of_Z 0)) eqn:E0; [discriminate|].
  destruct (flt (of_Z 1) subp) eqn:E1; [discriminate|]. simpl in H.
  apply and_then_done in H. destruct H as (a & _ & H).
  apply and_then_done in H. destruct H as (s & Hloop & _).
  split; [exact Hn0|]. split; [exact Hn1|]. split; [|now split].
  destruct (Z.eq_dec n0 0) as [->|Hne]; [now left|]. right.
  unfold range in Hloop. rewrite Nat.sub_0_r in Hloop.
  destruct (Z.to_nat n0) as [|k] eqn:Ek; [lia|].
  simpl in Hloop. apply and_then_done in Hloop.
  destruct Hloop as (s1 & Hrun & _).
  eapply run_trial_done with (n0 := n0) in Hrun; [exact Hrun|].
  simpl. now rewrite Ek.
Qed.

End BranchingReturns.

(* ================================================================== *)
(** * simulate_branching: properties                                    *)
(* ================================================================== *)

Section BranchingProperties.
Context {F G : Type} {ops : Float64Ops F} {random : Random F G}.
Variable allocation : nat -> Z -> Z -> option failure.
Variable uninitialized : nat -> nat -> Z.

(** The state of the loops at the end of a call that returns. *)
Lemma simulate_branching_kept
      (length : Z) (m activity : F) (numtrials : Z) (subp : F) (g g' : G)
      (M : list (list Z)) :
  simulate_branching allocation uninitialized length m activity numtrials
                     subp g
  = Done (M, g') ->
  exists A s,
    np_ndarray allocation uninitialized 0 numtrials length = Done A /\
    kept length numtrials m (fmul activity (fsub (of_Z 1) m)) activity
         subp A (Z.to_nat numtrials) 0 s /\
    if flt subp (of_Z 1) then a_t s = Some M else A_t s = M.
Proof.
  intros H.
  pose proof H as Hok. apply simulate_branching_done in Hok.
  unfold simulate_branching in H.
  apply and_then_done in H. destruct H as (A & HA & H).
  destruct Hok as (Hn0 & Hn1 & Hfirst & E0 & E1).
  rewrite E0, E1 in H. simpl in H.
  apply and_then_done in H. destruct H as (a & Ha & H).
  pose proof (subsampled_copy allocation length numtrials subp A)
    as Hcopy.
  rewrite Ha in Hcopy. subst a.
  pose proof (@trials_kept _ _ _ _ allocation uninitialized length
                numtrials m (fmul activity (fsub (of_Z 1) m)) activity
                subp 0%nat A g
                (conj Hn0 (conj Hn1 (conj Hfirst (conj E0 E1)))) HA)
    as Hloop.
  destruct (for_in _ _ _) as [s|f]; simpl in H; [|discriminate].
  exists A, s. split; [exact HA|]. split; [exact Hloop|].
  destruct (flt subp (of_Z 1)).
  - destruct (a_t s) as [a|]; [|discriminate]. now inversion H.
  - now inversion H.
Qed.

(** X13. A call on dimensions that are not negative, with a first time
    step for every trial and [subp] in [(0, 1]], returns unless the
    allocation of one of its two arrays or a draw of a random number
    raises: no index is out of range and no variable is unbound.  (The
    comparisons [subp < 1] and [subp == 1] are taken to exclude each
    other.) *)
Theorem simulation_fails_only_at_allocation_or_draw
        (length : Z) (m activity : F) (numtrials : Z) (subp : F) (g : G) :
  simulable length numtrials subp ->
  (flt subp (of_Z 1) = true -> feqb subp (of_Z 1) = false) ->
  (exists M g',
      simulate_branching allocation uninitialized length m activity
                         numtrials subp g
      = Done (M, g')) \/
  (exists f,
      simulate_branching allocation uninitialized length m activity
                         numtrials subp g
      = Failed f /\
      (allocation_failed allocation f \/ draw_failed f)).
Proof.
  intros Hok Hsub. pose proof Hok as (Hn0 & Hn1 & Hfirst & E0 & E1).
  unfold simulate_branching.
  destruct (np_ndarray allocation uninitialized 0 numtrials length)
    as [A|f] eqn:HA.
  2:{ right. exists f. split; [reflexivity|]. left.
      unfold np_ndarray in HA.
      destruct (numtrials <? 0) eqn:L0; [lia|].
      destruct (length <? 0) eqn:L1; [lia|]. simpl in HA.
      destruct (allocation 0%nat numtrials length) as [f'|] eqn:E;
        [|discriminate].
      inversion HA; subst f'. now exists 0%nat, numtrials, length. }
  simpl. rewrite E0, E1. simpl.
  pose proof (subsampled_copy allocation length numtrials subp A)
    as Hcopy.
  destruct (if negb (feqb subp (of_Z 1)) then _ else _) as [a|f];
    simpl; [|right; eauto].
  subst a.
  pose proof (@trials_kept _ _ _ _ allocation uninitialized length
                numtrials m (fmul activity (fsub (of_Z 1) m)) activity
                subp 0%nat A g Hok HA)
    as Hloop.
  destruct (for_in _ _ _) as [s|f]; simpl; [|right; eauto].
  destruct Hloop as (_ & _ & Ha).
  destruct (flt subp (of_Z 1)) eqn:Elt; [|left; eauto].
  destruct (a_t s) as [a|]; [left; eauto|].
  rewrite (Hsub eq_refl) in Ha. discriminate.
Qed.

(** X14. A call returns only on dimensions that are not negative, with
    a first time step if there is a trial, and on a [subp] that is
    neither [<= 0] nor [> 1]; what it returns then has [numtrials] rows
    of [length] entries. *)
Theorem simulation_returns_trials_of_length
        (length : Z) (m activity : F) (numtrials : Z) (subp : F) (g g' : G)
        (M : list (list Z)) :
  simulate_branching allocation uninitialized length m activity numtrials
                     subp g
  = Done (M, g') ->
  simulable length numtrials subp /\
  shaped (Z.to_nat numtrials) (Z.to_nat length) M.
Proof.
  intros H.
  split; [now apply simulate_branching_done in H|].
  destruct (simulate_branching_kept _ _ _ _ _ _ H)
    as (A & s & _ & (HA & _ & Ha) & HM).
  destruct (flt subp (of_Z 1)).
  - rewrite HM in Ha. tauto.
  - now subst M.
Qed.

(** X15. Without subsampling ([subp < 1] false) the returned activity
    follows the branching process with the drive [h = activity * (1 - m)]:
    the first entry of every trial is a Poisson draw of mean [activity],
    and every later entry is the sum of a Poisson draw of mean [h] and,
    for [m > 0], of a Poisson draw of mean [m] times the entry before
    it in the returned trial. *)
Theorem returned_activity_follows_the_process
        (length : Z) (m activity : F) (numtrials : Z) (subp : F) (g g' : G)
        (M : list (list Z)) :
  simulate_branching allocation uninitialized length m activity numtrials
                     subp g
  = Done (M, g') ->
  flt subp (of_Z 1) = false ->
  forall t j,
    (t < Z.to_nat numtrials)%nat -> (j < Z.to_nat length)%nat ->
    follows_process m (fmul activity (fsub (of_Z 1) m)) activity M t j.
Proof.
  intros H Hsub t j Ht Hj.
  destruct (simulate_branching_kept _ _ _ _ _ _ H)
    as (A & s & _ & (_ & Hproc & _) & HM).
  rewrite Hsub in HM. subst M.
  apply Hproc; [exact Ht | exact Hj | left; exact Ht].
Qed.

(** X16. With subsampling ([subp < 1]) the returned array is drawn from
    an activity that follows the process and is not returned: every
    entry after the first of a trial is a binomial draw with the
    probability [subp] from the activity at the same place.  The first
    entry of every trial is never assigned: it is what [np.ndarray]
    found in the memory that it allocated. *)
Theorem subsampled_activity_is_drawn_from_the_process
        (length : Z) (m activity : F) (numtrials : Z) (subp : F) (g g' : G)
        (M : list (list Z)) :
  simulate_branching allocation uninitialized length m activity numtrials
                     subp g
  = Done (M, g') ->
  flt subp (of_Z 1) = true ->
  exists A,
    shaped (Z.to_nat numtrials) (Z.to_nat length) A /\
    forall t j,
      (t < Z.to_nat numtrials)%nat -> (j < Z.to_nat length)%nat ->
      follows_process m (fmul activity (fsub (of_Z 1) m)) activity A t j /\
      match j with
      | O => entry M t 0 = Some (uninitialized t 0)
      | S _ => subsamples subp A M t j
      end.
Proof.
  intros H Hsub.
  destruct (simulate_branching_kept _ _ _ _ _ _ H)
    as (A0 & s & HA0 & (HA & Hproc & Ha) & HM).
  rewrite Hsub in HM. rewrite HM in Ha.
  destruct Ha as (_ & _ & Hdrawn).
  apply np_ndarray_done in HA0. destruct HA0 as (_ & _ & _ & Hmem).
  exists (A_t s). split; [exact HA|].
  intros t j Ht Hj. split.
  - apply Hproc; [exact Ht | exact Hj | left; exact Ht].
  - specialize (Hdrawn t j Ht Hj). destruct j as [|j'].
    + rewrite Hdrawn. apply Hmem; [exact Ht | exact Hj].
    + apply Hdrawn. left; exact Ht.
Qed.

End BranchingProperties.

(* ================================================================== *)
(** * simulate_branching at concrete inputs                             *)
(* ================================================================== *)

Section BranchingAtWork.
Import Rational Draws.
Local Open Scope Q_scope.

(** A hundred trials of a hundred time steps in a memory that holds a
    thousand entries: the allocation fails. *)
Lemma simulation_fails_at_allocation_or_draw_at_work :
  simulable 100 100 0.5 /\
  (flt 0.5 (of_Z 1) = true -> feqb 0.5 (of_Z 1) = false) /\
  simulate_branching cramped stale 100 0.5 10 100 0.5 0%nat
  = Failed MemoryError /\
  ((exists M g',
       simulate_branching cramped stale 100 0.5 10 100 0.5 0%nat
       = Done (M, g')) \/
   (exists f,
       simulate_branching cramped stale 100 0.5 10 100 0.5 0%nat
       = Failed f /\
       (allocation_failed cramped f \/ draw_failed f))).
Proof.
  premise ltac:(unfold simulable; repeat split;
                try lia; try (right; lia); reflexivity).
  premise ltac:(intros _; reflexivity).
  split; [reflexivity|].
  eapply simulation_fails_only_at_allocation_or_draw;
    [exact Hpremise | exact Hpremise0].
Defined.

(** Three trials of four time steps. *)
Lemma simulation_returns_trials_of_length_at_work :
  exists M g',
    simulate_branching roomy stale 4 0.5 10 3 1 0%nat = Done (M, g') /\
    simulable 4 3 1 /\
    shaped (Z.to_nat 3) (Z.to_nat 4) M.
Proof.
  eexists _, _.
  premise ltac:(vm_compute; reflexivity).
  eapply simulation_returns_trials_of_length; exact Hpremise.
Defined.

(** Two trials of five time steps, not subsampled. *)
Lemma returned_activity_follows_the_process_at_work :
  exists M g',
    simulate_branching roomy stale 5 0.5 10 2 1 0%nat = Done (M, g') /\
    flt 1 (of_Z 1) = false /\
    forall t j,
      (t < Z.to_nat 2)%nat -> (j < Z.to_nat 5)%nat ->
      follows_process 0.5 (fmul 10 (fsub (of_Z 1) 0.5)) 10 M t j.
Proof.
  eexists _, _.
  premise ltac:(vm_compute; reflexivity).
  premise ltac:(reflexivity).
  eapply returned_activity_follows_the_process;
    [exact Hpremise | exact Hpremise0].
Defined.

(** The same two trials, subsampled with [subp = 0.5]: the first entry
    of each is the [-1] of the memory. *)
Lemma subsampled_activity_at_work :
  exists M g',
    simulate_branching roomy stale 5 0.5 10 2 0.5 0%nat = Done (M, g') /\
    flt 0.5 (of_Z 1) = true /\
    map (fun row => hd 0%Z row) M = [-1; -1]%Z /\
    exists A,
      shaped (Z.to_nat 2) (Z.to_nat 5) A /\
      forall t j,
        (t < Z.to_nat 2)%nat -> (j < Z.to_nat 5)%nat ->
        follows_process 0.5 (fmul 10 (fsub (of_Z 1) 0.5)) 10 A t j /\
        match j with
        | O => entry M t 0 = Some (stale t 0)
        | S _ => subsamples 0.5 A M t j
        end.
Proof.
  eexists _, _.
  premise ltac:(vm_compute; reflexivity).
  premise ltac:(reflexivity).
  split; [reflexivity|].
  eapply subsampled_activity_is_drawn_from_the_process;
    [exact Hpremise | exact Hpremise0].
Defined.

End BranchingAtWork.

(* ================================================================== *)
(** * input_handler: lemmas and properties                              *)
(* ================================================================== *)

Lemma py_slice_firstn {A} (xs : list A) (n : nat) :
  py_slice xs 0 (Z.of_nat n) = firstn n xs.
Proof.
  unfold py_slice, slice_bound.
  change (0 <? 0) with false. cbv iota.
  destruct (Z.of_nat n <? 0) eqn:E; [apply Z.ltb_lt in E; lia|].
  rewrite (Z.min_l 0) by lia. rewrite Z.sub_0_r. simpl skipn.
  destruct (Nat.le_ge_cases n (length xs)) as [Hle|Hge].
  - rewrite Z.min_l by lia. now rewrite Nat2Z.id.
  - rewrite Z.min_r by lia. rewrite Nat2Z.id.
    now rewrite !firstn_all2 by lia.
Qed.

Lemma fold_min_le (l : list nat) :
  forall a, (fold_left Nat.min l a <= a)%nat /\
            Forall (fun n => (fold_left Nat.min l a <= n)%nat) l /\
            (fold_left Nat.min l a = a \/ In (fold_left Nat.min l a) l).
Proof.
  induction l as [|n l IH]; intros a; simpl.
  - split; [lia|]. split; [constructor | now left].
  - destruct (IH (Nat.min a n)) as (H1 & H2 & H3).
    split; [lia|]. split.
    + constructor; [lia | exact H2].
    + destruct H3 as [H3|H3]; [|right; right; exact H3].
      destruct (Nat.min_spec a n) as [[_ Hm]|[_ Hm]];
        rewrite Hm in H3; [left | right; left]; congruence.
Qed.

Section HandlerLemmas.
Context {F P : Type} {ops : Float64Ops F} {files : Files F P}.

Lemma min_len_done (data : list (list F)) (n : nat) :
  min_len data = Done n ->
  data <> [] /\
  Forall (fun dat => (n <= length dat)%nat) data /\
  Exists (fun dat => length dat = n) data.
Proof.
  destruct data as [|first rest]; simpl; [discriminate|].
  intros H; inversion H; subst n; clear H.
  destruct (fold_min_le (map (@length F) rest) (length first))
    as (H1 & H2 & H3).
  split; [discriminate|]. split.
  - constructor; [exact H1|].
    apply Forall_forall. intros dat Hin.
    apply (proj1 (Forall_forall _ _) H2). now apply in_map.
  - destruct H3 as [H3|H3].
    + now apply Exists_cons_hd.
    + apply Exists_cons_tl. apply Exists_exists.
      apply in_map_iff in H3. destruct H3 as (dat & Hd & Hin).
      exists dat. now split.
Qed.

Lemma load_loop (items : list P) :
  forall acc data,
    for_in (fun data item =>
              loaded <~ load_file item ;; Done (data ++ [loaded]))
           items acc = Done data ->
    exists new, data = acc ++ new /\
                Forall2 (fun item dat => load_file item = Done dat)
                        items new.
Proof.
  induction items as [|item items IH]; intros acc data H; simpl in H.
  - inversion H; subst. exists []. now rewrite app_nil_r.
  - apply and_then_done in H. destruct H as (acc1 & H1 & H).
    apply and_then_done in H1. destruct H1 as (loaded & Hload & H1).
    inversion H1; subst acc1; clear H1.
    destruct (IH _ _ H) as (new & -> & Hnew).
    exists (loaded :: new). rewrite <- app_assoc. simpl.
    split; [reflexivity|]. now constructor.
Qed.

(** Situation 1 on [items]. *)
Lemma load_items_done (items : list P) (r : ndarray F) :
  load_items items = Done r ->
  exists data minlen,
    Forall2 (fun item dat => load_file item = Done dat) items data /\
    data <> [] /\
    Forall (fun dat => (minlen <= length dat)%nat) data /\
    Exists (fun dat => length dat = minlen) data /\
    r = Mat minlen (map (firstn minlen) data).
Proof.
  unfold load_items. intros H.
  apply and_then_done in H. destruct H as (data & Hloop & H).
  apply and_then_done in H. destruct H as (minlen & Hmin & H).
  inversion H; subst r; clear H.
  apply load_loop in Hloop. destruct Hloop as (new & Hdata & Hnew).
  simpl in Hdata. subst new.
  destruct (min_len_done _ Hmin) as (Hne & Hle & Hex).
  exists data, minlen. repeat (split; [assumption|]).
  f_equal. apply map_ext. intros dat. apply py_slice_firstn.
Qed.

Lemma stack_items_done (a r : ndarray F) :
  stack_items a = Done r ->
  exists ncols rows, r = Mat ncols rows /\ rows <> [].
Proof.
  unfold stack_items, np_stack.
  destruct a as [[|x v]|ncols [|row rows]]; simpl; intros H;
    try discriminate; inversion H; subst r; eexists _, _;
    (split; [reflexivity | discriminate]).
Qed.

Lemma rows_of_one_length_done (l : list (list F)) (r : ndarray F) :
  rows_of_one_length l = Done r ->
  exists ncols, r = Mat ncols l /\ l <> [].
Proof.
  unfold rows_of_one_length. destruct l as [|first rest]; [discriminate|].
  destruct (forallb _ rest); [|discriminate].
  intros H; inversion H. eexists. split; [reflexivity | discriminate].
Qed.

Lemma list_of_str_done (l : list P) (r : ndarray F) :
  list_of_str l = Done r ->
  floats_of l = None /\ load_items (matches l) = Done r.
Proof.
  unfold list_of_str.
  destruct (floats_of l) as [[|x xs]|]; [| discriminate | auto].
  unfold load_items. simpl. discriminate.
Qed.

Lemma list_of_str_native (l : list P) (r : ndarray F) :
  list_of_str l = Done r ->
  exists ncols rows, r = Mat ncols rows /\ rows <> [].
Proof.
  intros H. apply list_of_str_done in H. destruct H as [_ H].
  apply load_items_done in H.
  destruct H as (data & minlen & _ & Hne & _ & _ & ->).
  eexists _, _. split; [reflexivity|].
  destruct data; [contradiction | discriminate].
Qed.

(** X17. What [input_handler] returns is in the native format: an array
    of two dimensions with one trial or more, which [input_handler]
    returns as it is when it is handed back. *)
Theorem handled_data_is_native
        (items : handler_items F P) (r : ndarray F) :
  input_handler items = Done r ->
  (exists ncols rows, r = Mat ncols rows /\ rows <> []) /\
  input_handler (NumberArray r) = Done r.
Proof.
  intros H.
  assert (Hnative : exists ncols rows, r = Mat ncols rows /\ rows <> []).
  { destruct items as [a|paths| |l|l|l|l|pattern| ]; simpl in H;
      try discriminate.
    - now apply stack_items_done in H.
    - apply load_items_done in H.
      destruct H as (data & minlen & _ & Hne & _ & _ & ->).
      eexists _, _. split; [reflexivity|].
      destruct data; [contradiction | discriminate].
    - now apply list_of_str_native in H.
    - destruct l as [|v l]; [now apply list_of_str_native in H|].
      apply and_then_done in H. destruct H as (a & Ha & H).
      apply rows_of_one_length_done in Ha. destruct Ha as (n & -> & Hne).
      inversion H. eexists _, _. split; [reflexivity | exact Hne].
    - destruct l as [|x l]; [now apply list_of_str_native in H|].
      now apply stack_items_done in H.
    - destruct l as [|v l]; [now apply list_of_str_native in H|].
      destruct (rows_of_one_length (v :: l)) as [a|f]; [|discriminate].
      now apply stack_items_done in H.
    - apply load_items_done in H.
      destruct H as (data & minlen & _ & Hne & _ & _ & ->).
      eexists _, _. split; [reflexivity|].
      destruct data; [contradiction | discriminate]. }
  split; [exact Hnative|].
  destruct Hnative as (ncols & rows & -> & Hne).
  simpl. unfold stack_items, np_stack.
  destruct rows; [contradiction | reflexivity].
Qed.

(** X18. [items] that are taken as paths (a [str], a list of [str], an
    array of byte strings) give a result only if a file is found and
    every file that is found is loaded; the result has one trial per
    file, in the order of loading, and each trial is the start of its
    file, cut to the length of the shortest file. *)
Theorem files_are_cut_to_the_shortest
        (items : handler_items F P) (r : ndarray F) :
  taken_as_paths items = true ->
  input_handler items = Done r ->
  exists data minlen,
    Forall2 (fun item dat => load_file item = Done dat)
            (files_of items) data /\
    data <> [] /\
    Forall (fun dat => (minlen <= length dat)%nat) data /\
    Exists (fun dat => length dat = minlen) data /\
    r = Mat minlen (map (firstn minlen) data).
Proof.
  intros Hpaths H.
  destruct items as [a|paths| |l|l|l|l|pattern| ]; simpl in *;
    try discriminate.
  - now apply load_items_done.
  - apply list_of_str_done in H. destruct H as [Hf H].
    rewrite Hf. now apply load_items_done.
  - now apply load_items_done.
Qed.

End HandlerLemmas.

Section HandlerAtWork.
Import Rational Disk.
Local Open Scope string_scope.

(** The two files of the pattern [trial_*], handed back. *)
Lemma handled_data_is_native_at_work :
  exists r,
    input_handler (Path "trial_*") = Done r /\
    (exists ncols rows, r = Mat ncols rows /\ rows <> []) /\
    input_handler (NumberArray r) = Done r.
Proof.
  eexists.
  premise ltac:(vm_compute; reflexivity).
  eapply handled_data_is_native; exact Hpremise.
Defined.

(** The file of four numbers is cut to the three of the other. *)
Lemma files_are_cut_to_the_shortest_at_work :
  exists r,
    taken_as_paths (F:=Q) (Path "trial_*") = true /\
    input_handler (Path "trial_*") = Done r /\
    r = Mat 3 [[1; 2; 3]; [2; 1; 2]]%Q /\
    exists data minlen,
      Forall2 (fun item dat => load_file item = Done dat)
              (files_of (F:=Q) (Path "trial_*")) data /\
      data <> [] /\
      Forall (fun dat => (minlen <= length dat)%nat) data /\
      Exists (fun dat => length dat = minlen) data /\
      r = Mat minlen (map (firstn minlen) data).
Proof.
  eexists.
  premise ltac:(reflexivity).
  premise ltac:(vm_compute; reflexivity).
  split; [reflexivity|].
  eapply files_are_cut_to_the_shortest;
    [exact Hpremise | exact Hpremise0].
Defined.

End HandlerAtWork.

(* ================================================================== *)
(** * The default starts of f_complex and its default bounds            *)
(* ================================================================== *)

Section DefaultsInBounds.
Import Rational.

(** X19. In exact arithmetic every default starting vector of
    [f_complex] lies within the default bounds of [f_complex], entry by
    entry: a bounded fit rejects none of the 22 default starts as
    infeasible. *)
Theorem complex_defaults_lie_within_bounds :
  exists rows lower upper,
    default_fitpars f_complex = Some (Pars2 rows) /\
    default_fitbnds f_complex = Some [lower; upper] /\
    length rows = 22%nat /\
    Forall (fun pars => feasible pars lower upper = true) rows.
Proof.
  eexists _, _, _.
  split; [reflexivity|]. split; [reflexivity|]. split; [reflexivity|].
  repeat (constructor; [vm_compute; reflexivity|]). constructor.
Qed.

End DefaultsInBounds.
